(** * Insurance claims triage: risk scoring, decision strategies, audit log
      and evaluation harness

    A shallow embedding of [tools.py], [config.py], [logger.py], [agent.py]
    and [evaluation.py].

    Conventions of the embedding:
    - A Python number (int or finite float) is the rational [Q] it is
      exactly; NaN and the infinities are outside the model.  Equality of
      numbers is therefore [Qeq], written [==].
    - The float arithmetic of the risk scorer and of the overall score is
      rounded to binary64 ([b64]): the running total, the product by 0.8
      and the weighted sum are the floats the program computes.  A score
      returned by [round(x, 3)] is read as the three-decimal number it
      was rounded to; for such numbers, comparing the decimals gives what
      comparing the floats gives.  The ratios of the logger and of the
      tracker are kept exact.
    - Python strings are [string]; [str.lower] acts on the ASCII letters.
    - A Python dict read by key is a [gmap string pyval]; a missing key
      raises [KeyError].
    - Code that can raise returns a [result]; code that mutates the logger
      threads the list of log entries explicitly.
    - Wall-clock measurements and printing are left out. *)

From Stdlib Require Import ZArith QArith Qround Qabs Lqa Lia.
From Stdlib Require Import String Ascii List Bool.
From stdpp Require Import base option list gmap strings.

Import ListNotations.
Local Open Scope string_scope.
Local Open Scope list_scope.
Local Open Scope Q_scope.

(* ===================================================================== *)
(** ** Python values, exceptions and numeric helpers *)
(* ===================================================================== *)

Module Py.

Inductive pyval : Type :=
| VNone
| VInt (z : Z)
| VFloat (q : Q)
| VStr (s : string).

(** Exceptions that the modelled code can raise; [Exception] stands for
    whatever an external service raises, with its message. *)
Inductive exn : Type :=
| KeyError (key : string)
| TypeError (msg : string)
| ValueError (msg : string)
| ZeroDivisionError (msg : string)
| Exception (msg : string).

(** [str(e)] *)
Definition exn_str (e : exn) : string :=
  match e with
  | KeyError k => "'" +:+ k +:+ "'"
  | TypeError m => m
  | ValueError m => m
  | ZeroDivisionError m => m
  | Exception m => m
  end.

Inductive result (A : Type) : Type :=
| Ok (a : A)
| Raise (e : exn).
Arguments Ok {A} a.
Arguments Raise {A} e.

Definition bind {A B : Type} (m : result A) (k : A -> result B) : result B :=
  match m with
  | Ok a => k a
  | Raise e => Raise e
  end.

Definition is_ok {A : Type} (m : result A) : bool :=
  match m with Ok _ => true | Raise _ => false end.

(** [d[key]] on a dict *)
Definition getitem (d : gmap string pyval) (key : string) : result pyval :=
  match d !! key with
  | Some v => Ok v
  | None => Raise (KeyError key)
  end.

Definition type_name (v : pyval) : string :=
  match v with
  | VNone => "NoneType"
  | VInt _ => "int"
  | VFloat _ => "float"
  | VStr _ => "str"
  end.

(** The number held by a value that an ordering comparison against an int
    literal accepts; anything else makes the comparison [op] raise. *)
Definition as_num (op : string) (v : pyval) : result Q :=
  match v with
  | VInt z => Ok (inject_Z z)
  | VFloat q => Ok q
  | _ => Raise (TypeError ("'" +:+ op +:+ "' not supported between instances of '"
                             +:+ type_name v +:+ "' and 'int'"))
  end.

Definition Qlt_bool (x y : Q) : bool := negb (Qle_bool y x).
Definition Qgt_bool (x y : Q) : bool := Qlt_bool y x.
Definition Qge_bool (x y : Q) : bool := Qle_bool y x.

(** Truth value of a number: zero is falsy. *)
Definition num_truthy (q : Q) : bool := negb (Qeq_bool q 0).

(** Truth value of a string: the empty string is falsy. *)
Definition str_truthy (s : string) : bool :=
  match s with EmptyString => false | String _ _ => true end.

(** [min(x, y)] *)
Definition py_min (x y : Q) : Q := if Qlt_bool y x then y else x.

(** [round(x, 3)]: to the nearest multiple of 1/1000, ties to even. *)
Definition py_round3 (x : Q) : Q :=
  let scaled := x * 1000 in
  let lo := Qfloor scaled in
  let frac := scaled - inject_Z lo in
  let n := if Qlt_bool frac (1#2) then lo
           else if Qlt_bool (1#2) frac then (lo + 1)%Z
           else if Z.even lo then lo else (lo + 1)%Z in
  inject_Z n / 1000.

(** [a == b] on values; an int equals the float of the same value. *)
Definition py_eq (a b : pyval) : bool :=
  match a, b with
  | VNone, VNone => true
  | VStr s, VStr t => String.eqb s t
  | VInt x, VInt y => Z.eqb x y
  | VInt x, VFloat y => Qeq_bool (inject_Z x) y
  | VFloat x, VInt y => Qeq_bool x (inject_Z y)
  | VFloat x, VFloat y => Qeq_bool x y
  | _, _ => false
  end.

(** [a / b] on two ints *)
Definition truediv (a b : Z) : result Q :=
  if Z.eqb b 0 then Raise (ZeroDivisionError "division by zero")
  else Ok (inject_Z a / inject_Z b).

(** What the model takes from the Python runtime without looking inside:
    the decimal rendering of numbers and the parsing of dates.
    [strptime s] is the day number of [datetime.strptime(s, "%Y-%m-%d")],
    or [None] when [strptime] raises. *)
Record Runtime : Type := mkRuntime {
  str_int : Z -> string;          (* str(n) *)
  str_float : Q -> string;        (* str(x) *)
  fmt_money : Q -> string;        (* f"{x:,.2f}" *)
  fmt_fixed3 : Q -> string;       (* f"{x:.3f}" *)
  strptime : string -> option Z
}.

(** [str(v)], also what [f"{v}"] interpolates *)
Definition py_str (rt : Runtime) (v : pyval) : string :=
  match v with
  | VNone => "None"
  | VInt z => str_int rt z
  | VFloat q => str_float rt q
  | VStr s => s
  end.

(** [f"{v:,.2f}"] *)
Definition py_money (rt : Runtime) (v : pyval) : result string :=
  match v with
  | VInt z => Ok (fmt_money rt (inject_Z z))
  | VFloat q => Ok (fmt_money rt q)
  | VStr _ => Raise (ValueError "Unknown format code 'f' for object of type 'str'")
  | VNone => Raise (TypeError "unsupported format string passed to NoneType.__format__")
  end.

(** [x in xs] on a list of strings *)
Definition str_in (x : string) (xs : list string) : bool :=
  existsb (String.eqb x) xs.

(** [sep.join(xs)] *)
Fixpoint join (sep : string) (xs : list string) : string :=
  match xs with
  | [] => ""
  | [x] => x
  | x :: rest => x +:+ sep +:+ join sep rest
  end.

(** [a / b] on two floats *)
Definition float_div (a b : Q) : result Q :=
  if Qeq_bool b 0 then Raise (ZeroDivisionError "float division by zero")
  else Ok (a / b).

(** [round(x, 2)]: to the nearest multiple of 1/100, ties to even. *)
Definition py_round2 (x : Q) : Q :=
  let scaled := x * 100 in
  let lo := Qfloor scaled in
  let frac := scaled - inject_Z lo in
  let n := if Qlt_bool frac (1#2) then lo
           else if Qlt_bool (1#2) frac then (lo + 1)%Z
           else if Z.even lo then lo else (lo + 1)%Z in
  inject_Z n / 100.

(** [max(x, y)] *)
Definition py_max (x y : Q) : Q := if Qlt_bool x y then y else x.

(** [sum(xs)] *)
Definition py_sum (xs : list Q) : Q := fold_left Qplus xs 0.

(** The integer nearest to [s], ties to the even one. *)
Definition round_half_even (s : Q) : Z :=
  let lo := Qfloor s in
  let frac := s - inject_Z lo in
  if Qlt_bool frac (1#2) then lo
  else if Qlt_bool (1#2) frac then (lo + 1)%Z
  else if Z.even lo then lo else (lo + 1)%Z.

(** [floor(log2(a))] for a positive [a]: the quotient of the bit lengths
    of numerator and denominator is off by at most one. *)
Definition log2_floor (a : Q) : Z :=
  let k := (Z.log2 (Qnum a) - Z.log2 (Zpos (Qden a)))%Z in
  if Qle_bool (2 ^ k) a then k else (k - 1)%Z.

(** The binary64 float nearest to [x] (ties to even): what a decimal
    literal denotes, what [float(n)] is for an int, and how the result of
    each float operation is rounded.  The significand has 53 bits;
    overflow and subnormal numbers are outside the model. *)
Definition b64 (x : Q) : Q :=
  if Qeq_bool x 0 then 0
  else
    let a := Qabs x in
    let shift := (52 - log2_floor a)%Z in
    let n := round_half_even (a * 2 ^ shift) in
    let r := inject_Z n / 2 ^ shift in
    if Qlt_bool x 0 then - r else r.

(** [x + y] and [x * y] on floats; an int operand is converted first. *)
Definition fadd (x y : Q) : Q := b64 (b64 x + b64 y).
Definition fmul (x y : Q) : Q := b64 (b64 x * b64 y).

End Py.

Import Py.

Notation "'let!' x ':=' m 'in' k" := (Py.bind m (fun x => k))
  (at level 10, x name, m at level 100, k at level 200).

(* ===================================================================== *)
(** ** config.py *)
(* ===================================================================== *)

Module config.

Definition RISK_THRESHOLD_HIGH : Q := 7 # 10.
Definition RISK_THRESHOLD_MEDIUM : Q := 4 # 10.

Definition SEVERITY_LEVELS : list string := ["low"; "medium"; "high"; "critical"].
Definition ACTIONS : list string := ["approve"; "investigate"; "deny"; "escalate"].

End config.

(* ===================================================================== *)
(** ** tools.py *)
(* ===================================================================== *)

Module RiskScoringTool.

(** [self.risk_factors], one definition per key of the dict: the decimal
    literals, which [bump] turns into floats. *)
Definition high_amount : Q := 3 # 10.
Definition multiple_claims : Q := 25 # 100.
Definition new_policy : Q := 15 # 100.
Definition late_reporting : Q := 15 # 100.
Definition high_age_risk : Q := 10 # 100.
Definition location_risk : Q := 5 # 100.

Definition high_risk_locations : list string :=
  ["New York, NY"; "Los Angeles, CA"; "Chicago, IL"].

Record RiskResult : Type := mkRisk {
  risk_score : Q;
  risk_level : string;
  risk_factors : list string;
  explanation : string
}.

Definition _generate_explanation (risk_level : string) (factors : list string) : string :=
  match factors with
  | [] => "Risk level is " +:+ risk_level +:+ ". No significant risk factors identified."
  | _ => "Risk level is " +:+ risk_level +:+ ". Contributing factors: "
           +:+ join ", " factors +:+ "."
  end.

(** One [if cond: risk_score += w; risk_factors.append(name)] step on the
    pair of running total and factor list; the addition is a float
    addition of the float that the literal [w] denotes. *)
Definition bump (cond : bool) (w : Q) (name : string) (acc : Q * list string)
  : Q * list string :=
  if cond then (fadd (fst acc) w, snd acc ++ [name]) else acc.

(** The seven rule conditions, in the order the function tests them. *)
Definition cond_amount (claim_amount : Q) : bool := Qgt_bool claim_amount 50000.
Definition cond_prior (prior_claims : Q) : bool := Qge_bool prior_claims 3.
Definition cond_tenure (policy_tenure_years : Q) : bool := Qlt_bool policy_tenure_years 1.
Definition cond_late (incident_to_report_days : Q) : bool :=
  Qgt_bool incident_to_report_days 30.
(** [coverage_limit and claim_amount > coverage_limit * 0.8]; the product
    is a float product. *)
Definition cond_coverage (claim_amount : Q) (coverage_limit : option Q) : bool :=
  match coverage_limit with
  | None => false
  | Some c => num_truthy c && Qgt_bool claim_amount (fmul c (8 # 10))
  end.
(** [if claimant_age: if claimant_age < 25 or claimant_age > 75] *)
Definition cond_age (claimant_age : option Q) : bool :=
  match claimant_age with
  | None => false
  | Some a => num_truthy a && (Qlt_bool a 25 || Qgt_bool a 75)
  end.
(** [location and location in high_risk_locations] *)
Definition cond_location (location : option string) : bool :=
  match location with
  | None => false
  | Some l => str_truthy l && str_in l high_risk_locations
  end.

(** The running total and factor list just before normalisation. *)
Definition accumulate
    (claim_amount prior_claims policy_tenure_years incident_to_report_days : Q)
    (coverage_limit claimant_age : option Q) (location : option string)
  : Q * list string :=
  let acc := (0, []) in
  let acc := bump (cond_amount claim_amount) high_amount "high_claim_amount" acc in
  let acc := bump (cond_prior prior_claims) multiple_claims "multiple_prior_claims" acc in
  let acc := bump (cond_tenure policy_tenure_years) new_policy "new_policy" acc in
  let acc := bump (cond_late incident_to_report_days) late_reporting "late_reporting" acc in
  let acc := bump (cond_coverage claim_amount coverage_limit) (2 # 10)
                  "claim_near_coverage_limit" acc in
  let acc := bump (cond_age claimant_age) high_age_risk "age_risk_factor" acc in
  let acc := bump (cond_location location) location_risk "high_risk_location" acc in
  acc.

(** The level of the capped float total, against the floats that the two
    threshold literals denote. *)
Definition level_of (risk_score : Q) : string :=
  if Qge_bool risk_score (b64 config.RISK_THRESHOLD_HIGH) then "high"
  else if Qge_bool risk_score (b64 config.RISK_THRESHOLD_MEDIUM) then "medium"
  else "low".

Definition calculate_risk_score
    (claim_amount prior_claims policy_tenure_years incident_to_report_days : Q)
    (coverage_limit claimant_age : option Q) (location : option string)
  : RiskResult :=
  let acc := accumulate claim_amount prior_claims policy_tenure_years
                        incident_to_report_days coverage_limit claimant_age location in
  let risk_score := py_min (fst acc) 1 in
  let risk_level := level_of risk_score in
  {| risk_score := py_round3 risk_score;
     risk_level := risk_level;
     risk_factors := snd acc;
     explanation := _generate_explanation risk_level (snd acc) |}.

(** [coverage_limit and ...] and [if claimant_age:] on an untyped value:
    a falsy value skips the rule, a number is used, and a non-empty string
    makes the arithmetic or the comparison raise. *)
Definition optional_num (msg : string) (v : pyval) : result (option Q) :=
  match v with
  | VNone => Ok None
  | VInt z => Ok (Some (inject_Z z))
  | VFloat q => Ok (Some q)
  | VStr EmptyString => Ok None
  | VStr _ => Raise (TypeError msg)
  end.

(** [location and location in high_risk_locations] never raises; only a
    string can be in the list. *)
Definition optional_str (v : pyval) : option string :=
  match v with
  | VStr s => Some s
  | _ => None
  end.

(** The same function called with the untyped values of a claim dict:
    the comparisons raise [TypeError] on values that are not numbers, in
    the order the function reaches them. *)
Definition calculate_risk_score_on_values
    (claim_amount prior_claims policy_tenure_years : pyval)
    (incident_to_report_days : Z)
    (coverage_limit claimant_age location : pyval) : result RiskResult :=
  let! amount := as_num ">" claim_amount in
  let! prior := as_num ">=" prior_claims in
  let! tenure := as_num "<" policy_tenure_years in
  let! limit := optional_num "can't multiply sequence by non-int of type 'float'"
                             coverage_limit in
  let! age := optional_num "'<' not supported between instances of 'str' and 'int'"
                           claimant_age in
  Ok (calculate_risk_score amount prior tenure (inject_Z incident_to_report_days)
                           limit age (optional_str location)).

End RiskScoringTool.

Module PolicyLookupTool.

(** [self.policies_df]: the rows of the policies table, each a dict from
    column name to value. *)
Definition policy_columns : list string :=
  ["policy_id"; "policy_type"; "coverage_limit"; "deductible"; "customer_name";
   "policy_start_date"; "claims_history_count"; "is_active"].

Fixpoint copy_columns (cols : list string) (row : gmap string pyval)
  : result (gmap string pyval) :=
  match cols with
  | [] => Ok ∅
  | c :: rest =>
      let! v := getitem row c in
      let! m := copy_columns rest row in
      Ok (<[c := v]> m)
  end.

Definition matches (policy_id : pyval) (row : gmap string pyval) : bool :=
  match row !! "policy_id" with
  | Some v => py_eq v policy_id
  | None => false
  end.

Definition lookup (rt : Runtime) (policies_df : list (gmap string pyval))
    (policy_id : pyval) : result (gmap string pyval) :=
  match policies_df with
  | [] => Ok {[ "error" := VStr "Policy database not available" ]}
  | first :: _ =>
      (* policies_df["policy_id"] needs the column *)
      let! _c := getitem first "policy_id" in
      match List.filter (matches policy_id) policies_df with
      | [] => Ok {[ "error" := VStr ("Policy " +:+ py_str rt policy_id +:+ " not found") ]}
      | policy_dict :: _ => copy_columns policy_columns policy_dict
      end
  end.

End PolicyLookupTool.

Module TriageLoggerTool.

(** One decision of the decisions log, without its timestamp. *)
Record decision_entry : Type := mkEntry {
  e_claim_id : string;
  e_severity : string;
  e_action : string;
  e_rationale : string;
  e_risk_score : Q;
  e_policy_id : pyval;
  e_metadata : gmap string pyval
}.

(** The state of [self.log_file]: no file, a file that [json.load] rejects,
    or the list that [json.dump] wrote. *)
Inductive log_file : Type :=
| Absent
| Garbled
| Stored (log_data : list decision_entry).

(** [_initialize_log]: writes an empty list when there is no file. *)
Definition _initialize_log (f : log_file) : log_file :=
  match f with
  | Absent => Stored []
  | _ => f
  end.

(** Reading the log inside [try/except (FileNotFoundError, JSONDecodeError)]. *)
Definition read_log (f : log_file) : list decision_entry :=
  match f with
  | Stored log_data => log_data
  | _ => []
  end.

Definition log_decision (f : log_file) (claim_id severity action rationale : string)
    (risk_score : Q) (policy_info : gmap string pyval)
    (metadata : option (gmap string pyval)) : (string * string) * log_file :=
  let decision_entry :=
    {| e_claim_id := claim_id; e_severity := severity; e_action := action;
       e_rationale := rationale; e_risk_score := risk_score;
       e_policy_id := match policy_info !! "policy_id" with
                      | Some v => v
                      | None => VNone
                      end;
       e_metadata := match metadata with
                     | Some m => m
                     | None => ∅
                     end |} in
  let log_data := read_log f ++ [decision_entry] in
  (("logged", "Decision for claim " +:+ claim_id +:+ " logged successfully"),
   Stored log_data).

Definition get_decision_history (f : log_file) (claim_id : option string)
  : list decision_entry :=
  match f with
  | Stored log_data =>
      match claim_id with
      | Some c =>
          if str_truthy c then List.filter (fun e => String.eqb (e_claim_id e) c) log_data
          else log_data
      | None => log_data
      end
  | _ => []
  end.

End TriageLoggerTool.

(* ===================================================================== *)
(** ** logger.py *)
(* ===================================================================== *)

Module ClaimsLogger.

(** A log entry; the constructor is the entry's ["type"], the timestamp is
    left out. *)
Inductive entry : Type :=
| tool_call (tool_name : string) (inputs output : gmap string pyval)
| agent_step (step_name : string) (data : gmap string pyval)
| human_override (claim_id : string)
    (original_decision override_decision : gmap string pyval) (reason : option string)
| evaluation (system_name : string) (metrics : gmap string pyval)
| error (error_type error_message : string) (context : gmap string pyval).

(** [self.log_entries] *)
Definition log : Type := list entry.

Definition _add_entry (entries : log) (e : entry) : log := entries ++ [e].

Definition log_tool_call (entries : log) (tool_name : string)
    (inputs output : gmap string pyval) : log :=
  _add_entry entries (tool_call tool_name inputs output).

Definition log_agent_step (entries : log) (step_name : string)
    (data : gmap string pyval) : log :=
  _add_entry entries (agent_step step_name data).

Definition log_human_override (entries : log) (claim_id : string)
    (original_decision override_decision : gmap string pyval)
    (reason : option string) : log :=
  _add_entry entries (human_override claim_id original_decision override_decision reason).

Definition log_evaluation_result (entries : log) (system_name : string)
    (metrics : gmap string pyval) : log :=
  _add_entry entries (evaluation system_name metrics).

Definition log_error (entries : log) (error_type error_message : string)
    (context : gmap string pyval) : log :=
  _add_entry entries (error error_type error_message context).

(** [log.get("type") == "agent_step" and log.get("step_name") == "claim_processed"] *)
Definition is_completed_decision (e : entry) : bool :=
  match e with
  | agent_step step_name _ => String.eqb step_name "claim_processed"
  | _ => false
  end.

(** [log.get("type") == "human_override"] *)
Definition is_human_override (e : entry) : bool :=
  match e with
  | human_override _ _ _ _ => true
  | _ => false
  end.

Definition total_decisions (entries : log) : nat :=
  length (List.filter is_completed_decision entries).

Definition overrides (entries : log) : nat :=
  length (List.filter is_human_override entries).

Definition get_override_rate (entries : log) : result Q :=
  if Nat.eqb (total_decisions entries) 0 then Ok 0
  else truediv (Z.of_nat (overrides entries)) (Z.of_nat (total_decisions entries)).

(** The ["type"] field of an entry. *)
Definition entry_type (e : entry) : string :=
  match e with
  | tool_call _ _ _ => "tool_call"
  | agent_step _ _ => "agent_step"
  | human_override _ _ _ _ => "human_override"
  | evaluation _ _ => "evaluation"
  | error _ _ _ => "error"
  end.

(** [log.get("claim_id") == claim_id or
     log.get("data", {}).get("claim_id") == claim_id], for a claim id that
    is not empty: only an override has a ["claim_id"] field and only an
    agent step has a ["data"] field. *)
Definition mentions_claim (claim_id : string) (e : entry) : bool :=
  match e with
  | human_override cid _ _ _ => String.eqb cid claim_id
  | agent_step _ data =>
      match data !! "claim_id" with
      | Some v => py_eq v (VStr claim_id)
      | None => false
      end
  | _ => false
  end.

(** A filter argument that is [None] or the empty string is falsy and
    switches its filter off. *)
Definition filter_arg (arg : option string) : option string :=
  match arg with
  | Some a => if str_truthy a then Some a else None
  | None => None
  end.

Definition get_logs (entries : log) (log_type claim_id : option string) : list entry :=
  let logs := entries in
  let logs := match filter_arg log_type with
              | Some t => List.filter (fun e => String.eqb (entry_type e) t) logs
              | None => logs
              end in
  let logs := match filter_arg claim_id with
              | Some c => List.filter (mentions_claim c) logs
              | None => logs
              end in
  logs.

(** [log.get("type") == "tool_call"] *)
Definition is_tool_call (e : entry) : bool :=
  match e with
  | tool_call _ _ _ => true
  | _ => false
  end.

(** [call.get("tool_name")] of a tool-call entry *)
Definition tool_name_of (e : entry) : string :=
  match e with
  | tool_call name _ _ => name
  | _ => ""
  end.

(** [tool_counts[tool_name] = tool_counts.get(tool_name, 0) + 1] *)
Definition count_call (tool_counts : gmap string nat) (call : entry) : gmap string nat :=
  let tool_name := tool_name_of call in
  <[tool_name := (default 0%nat (tool_counts !! tool_name) + 1)%nat]> tool_counts.

Record ToolCallStats : Type := mkStats {
  total_calls : nat;
  by_tool : gmap string nat
}.

Definition get_tool_call_stats (entries : log) : ToolCallStats :=
  let tool_calls := List.filter is_tool_call entries in
  match tool_calls with
  | [] => {| total_calls := 0; by_tool := ∅ |}
  | _ => {| total_calls := length tool_calls;
            by_tool := fold_left count_call tool_calls ∅ |}
  end.

End ClaimsLogger.

Module PerformanceTracker.

(** One element of [self.metrics["decisions"]], without its timestamp. *)
Record TrackedDecision : Type := mkTracked {
  t_claim_id : string;
  t_severity : pyval;
  t_action : pyval
}.

(** [self.metrics] *)
Record metrics : Type := mkTracker {
  total_claims : nat;
  processing_times : list Q;
  decisions : list TrackedDecision;
  overrides : nat
}.

(** [__init__] *)
Definition init : metrics :=
  {| total_claims := 0; processing_times := []; decisions := []; overrides := 0 |}.

(** [decision.get(key)] *)
Definition get (decision : gmap string pyval) (key : string) : pyval :=
  match decision !! key with
  | Some v => v
  | None => VNone
  end.

Definition record_claim_processing (m : metrics) (claim_id : string)
    (processing_time : Q) (decision : gmap string pyval) : metrics :=
  {| total_claims := total_claims m + 1;
     processing_times := processing_times m ++ [processing_time];
     decisions := decisions m ++ [{| t_claim_id := claim_id;
                                     t_severity := get decision "severity";
                                     t_action := get decision "action" |}];
     overrides := overrides m |}.

Definition record_override (m : metrics) : metrics :=
  {| total_claims := total_claims m;
     processing_times := processing_times m;
     decisions := decisions m;
     overrides := overrides m + 1 |}.

Record Summary : Type := mkSummary {
  total_claims_processed : nat;
  average_processing_time : Q;
  total_overrides : nat;
  override_rate : Q
}.

Definition get_summary (m : metrics) : result Summary :=
  let! avg_time :=
    match processing_times m with
    | [] => Ok 0
    | _ => float_div (py_sum (processing_times m))
                     (inject_Z (Z.of_nat (length (processing_times m))))
    end in
  let! rate := truediv (Z.of_nat (overrides m))
                       (Z.max (Z.of_nat (total_claims m)) 1) in
  Ok {| total_claims_processed := total_claims m;
        average_processing_time := py_round2 avg_time;
        total_overrides := overrides m;
        override_rate := rate |}.

End PerformanceTracker.

(* ===================================================================== *)
(** ** Strings: lower-casing and the substring test *)
(* ===================================================================== *)

Module Str.

Definition lower_ascii (c : ascii) : ascii :=
  let n := nat_of_ascii c in
  if (Nat.leb 65 n && Nat.leb n 90)%bool then ascii_of_nat (n + 32) else c.

(** [s.lower()] *)
Fixpoint lower (s : string) : string :=
  match s with
  | EmptyString => EmptyString
  | String c rest => String (lower_ascii c) (lower rest)
  end.

(** [sub in s] *)
Fixpoint contains (sub s : string) : bool :=
  match s with
  | EmptyString => String.prefix sub EmptyString
  | String _ rest => String.prefix sub s || contains sub rest
  end.

Definition nl : string := String (ascii_of_nat 10) EmptyString.

End Str.

(* ===================================================================== *)
(** ** Decisions *)
(* ===================================================================== *)

(** The dict a strategy returns; keys that only some strategies set are
    optional fields. *)
Record Decision : Type := mkDecision {
  claim_id : pyval;
  severity : string;
  action : string;
  rationale : string;
  risk_score : option Q;
  intermediate_steps : option (list string);
  success : option bool
}.

(** A claim is the dict of one row of the claims table. *)
Abbreviation Claim := (gmap string pyval).

(** The agent and the rule-based system compute the reporting delay the
    same way, inside a bare [try/except] that turns any failure into 0. *)
Definition parse_date (rt : Runtime) (v : pyval) : option Z :=
  match v with
  | VStr s => strptime rt s
  | _ => None
  end.

Definition incident_to_report_days (rt : Runtime) (claim : Claim) : Z :=
  match claim !! "incident_date" with
  | Some i =>
      match parse_date rt i with
      | Some incident_date =>
          match claim !! "report_date" with
          | Some r =>
              match parse_date rt r with
              | Some report_date => (report_date - incident_date)%Z
              | None => 0%Z
              end
          | None => 0%Z
          end
      | None => 0%Z
      end
  | None => 0%Z
  end.

(* ===================================================================== *)
(** ** agent.py *)
(* ===================================================================== *)

Module InsuranceClaimsAgent.

Import ClaimsLogger.

(** What [self.agent.invoke] hands back: the contents of the returned
    messages, and the text used when there are none. *)
Record AgentReply : Type := mkReply {
  messages : list string;
  output_fallback : string
}.

(** One run of the external agent loop on an input text: the log entries
    its tool wrappers appended, and the reply or the exception raised. *)
Record AgentRun : Type := mkRun {
  tool_entries : list entry;
  reply : result AgentReply
}.

(** The agent loop is an external service with a state [B] of its own. *)
Definition Backend (B : Type) : Type := B -> string -> AgentRun * B.

(** The for-loop with [break] of [_parse_decision]. *)
Fixpoint first_label (labels : list string) (output_lower : string)
    (default : string) : string :=
  match labels with
  | [] => default
  | l :: rest =>
      if Str.contains l output_lower then l
      else first_label rest output_lower default
  end.

Definition _parse_decision (output : string) : string * string :=
  let output_lower := Str.lower output in
  let severity := first_label config.SEVERITY_LEVELS output_lower "medium" in
  let action := first_label config.ACTIONS output_lower "investigate" in
  (severity, action).

Definition input_text (rt : Runtime) (claim : Claim) (days : Z) : result string :=
  let! cid := getitem claim "claim_id" in
  let! pid := getitem claim "policy_id" in
  let! ctype := getitem claim "claim_type" in
  let! amount_v := getitem claim "claim_amount" in
  let! amount := py_money rt amount_v in
  let! idate := getitem claim "incident_date" in
  let! rdate := getitem claim "report_date" in
  let! loc := getitem claim "location" in
  let! age := getitem claim "claimant_age" in
  let! prior := getitem claim "prior_claims" in
  let! tenure := getitem claim "policy_tenure_years" in
  let! narrative := getitem claim "narrative" in
  Ok (Str.nl +:+ "Process the following insurance claim:" +:+ Str.nl +:+ Str.nl
      +:+ "Claim ID: " +:+ py_str rt cid +:+ Str.nl
      +:+ "Policy ID: " +:+ py_str rt pid +:+ Str.nl
      +:+ "Claim Type: " +:+ py_str rt ctype +:+ Str.nl
      +:+ "Claim Amount: $" +:+ amount +:+ Str.nl
      +:+ "Incident Date: " +:+ py_str rt idate +:+ Str.nl
      +:+ "Report Date: " +:+ py_str rt rdate +:+ Str.nl
      +:+ "Days to Report: " +:+ str_int rt days +:+ Str.nl
      +:+ "Location: " +:+ py_str rt loc +:+ Str.nl
      +:+ "Claimant Age: " +:+ py_str rt age +:+ Str.nl
      +:+ "Prior Claims: " +:+ py_str rt prior +:+ Str.nl
      +:+ "Policy Tenure: " +:+ py_str rt tenure +:+ " years" +:+ Str.nl +:+ Str.nl
      +:+ "Claim Narrative:" +:+ Str.nl
      +:+ py_str rt narrative +:+ Str.nl +:+ Str.nl
      +:+ "Please assess this claim and provide:" +:+ Str.nl
      +:+ "1. Severity level (low/medium/high/critical)" +:+ Str.nl
      +:+ "2. Recommended action (approve/investigate/deny/escalate)" +:+ Str.nl
      +:+ "3. Detailed rationale for your decision" +:+ Str.nl +:+ Str.nl
      +:+ "Use the available tools to gather information and make an informed decision."
      +:+ Str.nl).

(** The body of the [try] block once the agent has replied. *)
Definition on_reply (claim : Claim) (entries : log) (r : AgentReply)
  : result Decision * log :=
  let output := match last (messages r) with
                | Some content => content
                | None => output_fallback r
                end in
  let '(severity, action) := _parse_decision output in
  match getitem claim "claim_id" with
  | Raise e => (Raise e, entries)
  | Ok cid =>
      let entries := log_agent_step entries "claim_processed"
        (list_to_map [("claim_id", cid); ("severity", VStr severity);
                      ("action", VStr action);
                      ("steps", VInt (Z.of_nat (length (messages r))))]) in
      (Ok {| claim_id := cid; severity := severity; action := action;
             rationale := output; risk_score := None;
             intermediate_steps := Some (messages r); success := Some true |},
       entries)
  end.

(** The [except Exception as e] handler. *)
Definition on_error (claim : Claim) (entries : log) (e : exn)
  : result Decision * log :=
  match getitem claim "claim_id" with
  | Raise e' => (Raise e', entries)
  | Ok cid =>
      let entries := log_agent_step entries "claim_error"
        (list_to_map [("claim_id", cid); ("error", VStr (exn_str e))]) in
      (Ok {| claim_id := cid; severity := "unknown"; action := "escalate";
             rationale := "Error processing claim: " +:+ exn_str e;
             risk_score := None; intermediate_steps := None;
             success := Some false |},
       entries)
  end.

Definition process_claim {B : Type} (rt : Runtime) (agent : Backend B)
    (st : B * log) (claim : Claim) : result Decision * (B * log) :=
  let '(b, entries) := st in
  let entries := log_agent_step entries "claim_received" claim in
  let days := incident_to_report_days rt claim in
  match input_text rt claim days with
  | Raise e => (Raise e, (b, entries))
  | Ok text =>
      let '(run, b) := agent b text in
      let entries := entries ++ tool_entries run in
      match reply run with
      | Ok r =>
          match on_reply claim entries r with
          | (Ok d, entries) => (Ok d, (b, entries))
          | (Raise e, entries) =>
              let '(res, entries) := on_error claim entries e in
              (res, (b, entries))
          end
      | Raise e =>
          let '(res, entries) := on_error claim entries e in
          (res, (b, entries))
      end
  end.

End InsuranceClaimsAgent.

(* ===================================================================== *)
(** ** evaluation.py *)
(* ===================================================================== *)

Module RuleBasedSystem.

(** [# Determine severity] *)
Definition determine_severity (claim_amount : Q) : string :=
  if Qlt_bool claim_amount 5000 then "low"
  else if Qlt_bool claim_amount 25000 then "medium"
  else if Qlt_bool claim_amount 75000 then "high"
  else "critical".

(** [# Determine action] *)
Definition determine_action (severity : string) (risk_score prior_claims : Q) : string :=
  if String.eqb severity "low" && Qlt_bool risk_score (3 # 10) && Qlt_bool prior_claims 2
  then "approve"
  else if String.eqb severity "critical" || Qge_bool risk_score (7 # 10)
  then "escalate"
  else if Qge_bool risk_score (4 # 10) || Qge_bool prior_claims 3
  then "investigate"
  else if String.eqb severity "medium" && Qlt_bool risk_score (4 # 10)
  then "approve"
  else "investigate".

(** [policy_info.get("coverage_limit")] *)
Definition coverage_limit_of (policy_info : gmap string pyval) : pyval :=
  match policy_info !! "coverage_limit" with
  | Some v => v
  | None => VNone
  end.

Definition process_claim (rt : Runtime) (policies_df : list (gmap string pyval))
    (claim : Claim) : result Decision :=
  let! policy_id := getitem claim "policy_id" in
  let! policy_info := PolicyLookupTool.lookup rt policies_df policy_id in
  let days := incident_to_report_days rt claim in
  let! amount_v := getitem claim "claim_amount" in
  let! prior_v := getitem claim "prior_claims" in
  let! tenure_v := getitem claim "policy_tenure_years" in
  let! age_v := getitem claim "claimant_age" in
  let! loc_v := getitem claim "location" in
  let! risk_result :=
    RiskScoringTool.calculate_risk_score_on_values
      amount_v prior_v tenure_v days (coverage_limit_of policy_info) age_v loc_v in
  let risk_score := RiskScoringTool.risk_score risk_result in
  let! claim_amount := as_num "<" amount_v in
  let! prior_claims := as_num "<" prior_v in
  let severity := determine_severity claim_amount in
  let action := determine_action severity risk_score prior_claims in
  let rationale :=
    "Rule-based decision: Severity=" +:+ severity +:+ " based on amount $"
    +:+ fmt_money rt claim_amount +:+ ". Risk score=" +:+ fmt_fixed3 rt risk_score
    +:+ ". Prior claims=" +:+ py_str rt prior_v +:+ "." in
  let! cid := getitem claim "claim_id" in
  Ok {| claim_id := cid; severity := severity; action := action;
        rationale := rationale; risk_score := Some risk_score;
        intermediate_steps := None; success := None |}.

End RuleBasedSystem.

Module OneShotLLMSystem.

(** [self.llm.invoke(prompt).content]: an external service with a state
    [B] of its own, which answers with a text or raises. *)
Definition Backend (B : Type) : Type := B -> string -> result string * B.

Fixpoint first_label (labels : list string) (output_lower : string)
    (default : string) : string :=
  match labels with
  | [] => default
  | l :: rest =>
      if Str.contains l output_lower then l
      else first_label rest output_lower default
  end.

Definition _parse_response (output : string) : string * string :=
  let output_lower := Str.lower output in
  let severity := first_label config.SEVERITY_LEVELS output_lower "medium" in
  let action := first_label config.ACTIONS output_lower "investigate" in
  (severity, action).

Definition prompt (rt : Runtime) (claim : Claim) : result string :=
  let! cid := getitem claim "claim_id" in
  let! ctype := getitem claim "claim_type" in
  let! amount_v := getitem claim "claim_amount" in
  let! amount := py_money rt amount_v in
  let! prior := getitem claim "prior_claims" in
  let! tenure := getitem claim "policy_tenure_years" in
  let! age := getitem claim "claimant_age" in
  let! loc := getitem claim "location" in
  let! narrative := getitem claim "narrative" in
  Ok ("You are an insurance claims adjuster. Analyze the following claim and provide:"
      +:+ Str.nl
      +:+ "1. Severity level (low/medium/high/critical)" +:+ Str.nl
      +:+ "2. Recommended action (approve/investigate/deny/escalate)" +:+ Str.nl
      +:+ "3. Brief rationale" +:+ Str.nl +:+ Str.nl
      +:+ "Claim Details:" +:+ Str.nl
      +:+ "- Claim ID: " +:+ py_str rt cid +:+ Str.nl
      +:+ "- Type: " +:+ py_str rt ctype +:+ Str.nl
      +:+ "- Amount: $" +:+ amount +:+ Str.nl
      +:+ "- Prior Claims: " +:+ py_str rt prior +:+ Str.nl
      +:+ "- Policy Tenure: " +:+ py_str rt tenure +:+ " years" +:+ Str.nl
      +:+ "- Claimant Age: " +:+ py_str rt age +:+ Str.nl
      +:+ "- Location: " +:+ py_str rt loc +:+ Str.nl +:+ Str.nl
      +:+ "Narrative: " +:+ py_str rt narrative +:+ Str.nl +:+ Str.nl
      +:+ "Guidelines:" +:+ Str.nl
      +:+ "- LOW severity: < $5,000" +:+ Str.nl
      +:+ "- MEDIUM severity: $5,000-$25,000" +:+ Str.nl
      +:+ "- HIGH severity: $25,000-$75,000" +:+ Str.nl
      +:+ "- CRITICAL severity: > $75,000" +:+ Str.nl +:+ Str.nl
      +:+ "Respond in this format:" +:+ Str.nl
      +:+ "SEVERITY: [level]" +:+ Str.nl
      +:+ "ACTION: [action]" +:+ Str.nl
      +:+ "RATIONALE: [explanation]").

(** The [except Exception as e] handler. *)
Definition on_error (claim : Claim) (e : exn) : result Decision :=
  let! cid := getitem claim "claim_id" in
  Ok {| claim_id := cid; severity := "medium"; action := "investigate";
        rationale := "Error: " +:+ exn_str e; risk_score := None;
        intermediate_steps := None; success := None |}.

Definition process_claim {B : Type} (rt : Runtime) (llm : Backend B)
    (b : B) (claim : Claim) : result Decision * B :=
  match prompt rt claim with
  | Raise e => (Raise e, b)
  | Ok text =>
      let '(response, b) := llm b text in
      match response with
      | Ok output =>
          let '(severity, action) := _parse_response output in
          match getitem claim "claim_id" with
          | Ok cid =>
              (Ok {| claim_id := cid; severity := severity; action := action;
                     rationale := output; risk_score := None;
                     intermediate_steps := None; success := None |}, b)
          | Raise e => (on_error claim e, b)
          end
      | Raise e => (on_error claim e, b)
      end
  end.

End OneShotLLMSystem.

(** [sklearn.metrics.confusion_matrix(y_true, y_pred, labels=labels)], after
    the documentation of scikit-learn (1.3 and later; the library is not part of
    the repository): the matrix has one row and one column per entry of
    [labels]; cell (i, j) counts the samples whose true label is [labels[i]]
    and whose predicted label is [labels[j]]; a sample one of whose labels is not
    in [labels] is dropped.  It raises [ValueError] on an empty [labels] and
    when [y_true] is not empty and holds none of the [labels]. *)
Module sklearn.

Definition is_label (l : string) (v : pyval) : bool := py_eq v (VStr l).

Definition known (labels : list string) (v : pyval) : bool :=
  existsb (fun l => is_label l v) labels.

Definition cell (samples : list (pyval * pyval)) (lt lp : string) : nat :=
  length (List.filter (fun s => is_label lt (fst s) && is_label lp (snd s)) samples).

Definition confusion_matrix (y_true y_pred : list pyval) (labels : list string)
  : result (list (list nat)) :=
  match labels with
  | [] => Raise (ValueError "'labels' should contains at least one label.")
  | _ =>
      match y_true with
      | [] => Ok (List.map (fun _ => List.map (fun _ => O) labels) labels)
      | _ =>
          if existsb (known labels) y_true then
            let samples := List.combine y_true y_pred in
            Ok (List.map (fun lt => List.map (fun lp => cell samples lt lp) labels) labels)
          else Raise (ValueError "At least one label specified must be in y_true")
      end
  end.

(** [accuracy_score(y_true, y_pred)] and
    [precision_recall_fscore_support(y_true, y_pred, average="weighted",
    zero_division=0)]: on label lists that are not empty they return
    floating-point averages, which are left out; on empty lists they
    raise [ValueError] (the text of the message is the library's). *)
Definition accuracy_score (y_true y_pred : list pyval) : result unit :=
  match y_true with
  | [] => Raise (ValueError "Found empty input array (e.g., `y_true` or `y_pred`) while a minimum of 1 sample is required.")
  | _ => Ok tt
  end.

Definition precision_recall_fscore_support (y_true y_pred : list pyval) : result unit :=
  match y_true with
  | [] => Raise (ValueError "Found empty input array (e.g., `y_true` or `y_pred`) while a minimum of 1 sample is required.")
  | _ => Ok tt
  end.

End sklearn.

Module EvaluationSystem.

(** One element of [predictions]; the processing time is left out. *)
Record Prediction : Type := mkPrediction {
  p_claim_id : pyval;
  predicted_severity : string;
  predicted_action : string;
  true_severity : pyval;
  true_action : pyval
}.

(** A strategy as the harness sees it: an object with a [process_claim]
    method and a state [S] of its own. *)
Definition System (S : Type) : Type := S -> Claim -> result Decision * S.

(** The dict appended in the [try] branch. *)
Definition prediction_of (claim_dict : Claim) (result : Decision) : Py.result Prediction :=
  let! cid := getitem claim_dict "claim_id" in
  let! ts := getitem claim_dict "ground_truth_severity" in
  let! ta := getitem claim_dict "ground_truth_action" in
  Ok {| p_claim_id := cid; predicted_severity := severity result;
        predicted_action := action result; true_severity := ts; true_action := ta |}.

(** The dict appended in the [except] branch. *)
Definition fallback_prediction (claim_dict : Claim) : Py.result Prediction :=
  let! cid := getitem claim_dict "claim_id" in
  let! ts := getitem claim_dict "ground_truth_severity" in
  let! ta := getitem claim_dict "ground_truth_action" in
  Ok {| p_claim_id := cid; predicted_severity := "unknown";
        predicted_action := "escalate"; true_severity := ts; true_action := ta |}.

(** One iteration of the loop over the claims: the [try] branch, and the
    [except] branch when the strategy or the [try] branch raised. *)
Definition evaluate_claim {S : Type} (system : System S) (st : S) (claim_dict : Claim)
  : Py.result Prediction * S :=
  let '(r, st) := system st claim_dict in
  match (let! d := r in prediction_of claim_dict d) with
  | Ok p => (Ok p, st)
  | Raise _ => (fallback_prediction claim_dict, st)
  end.

(** The loop: an exception that leaves an iteration ends the run. *)
Fixpoint predictions_of {S : Type} (system : System S) (st : S) (test_claims : list Claim)
  : Py.result (list Prediction) * S :=
  match test_claims with
  | [] => (Ok [], st)
  | claim_dict :: rest =>
      match evaluate_claim system st claim_dict with
      | (Raise e, st) => (Raise e, st)
      | (Ok p, st) =>
          match predictions_of system st rest with
          | (Raise e, st) => (Raise e, st)
          | (Ok ps, st) => (Ok (p :: ps), st)
          end
      end
  end.

(** The part of the metrics dict that holds counts; the values of
    accuracy, precision, recall and F1 are floating-point averages and are
    left out, the calls that compute them are kept. *)
Record Metrics : Type := mkMetrics {
  severity_confusion_matrix : list (list nat);
  action_confusion_matrix : list (list nat);
  predictions : list Prediction
}.

Definition _calculate_metrics (predictions : list Prediction) : Py.result Metrics :=
  let pred_severities := List.map (fun p => VStr (predicted_severity p)) predictions in
  let true_severities := List.map true_severity predictions in
  let pred_actions := List.map (fun p => VStr (predicted_action p)) predictions in
  let true_actions := List.map true_action predictions in
  let! _severity_accuracy :=
    sklearn.accuracy_score true_severities pred_severities in
  let! _severity_prf :=
    sklearn.precision_recall_fscore_support true_severities pred_severities in
  let! _action_accuracy :=
    sklearn.accuracy_score true_actions pred_actions in
  let! _action_prf :=
    sklearn.precision_recall_fscore_support true_actions pred_actions in
  let! severity_cm :=
    sklearn.confusion_matrix true_severities pred_severities config.SEVERITY_LEVELS in
  let! action_cm :=
    sklearn.confusion_matrix true_actions pred_actions config.ACTIONS in
  Ok {| severity_confusion_matrix := severity_cm;
        action_confusion_matrix := action_cm;
        predictions := predictions |}.

Definition evaluate_system {S : Type} (system : System S) (st : S)
    (test_claims : list Claim) : Py.result Metrics * S :=
  match predictions_of system st test_claims with
  | (Raise e, st) => (Raise e, st)
  | (Ok predictions, st) => (_calculate_metrics predictions, st)
  end.

(** Sum of all cells of a matrix. *)
Definition total (m : list (list nat)) : nat := list_sum (List.concat m).

(** The three registered systems, as the harness sees them. *)
Definition rule_based (rt : Runtime) (policies_df : list (gmap string pyval))
  : System unit :=
  fun st claim => (RuleBasedSystem.process_claim rt policies_df claim, st).

Definition one_shot_llm {B : Type} (rt : Runtime) (llm : OneShotLLMSystem.Backend B)
  : System B :=
  OneShotLLMSystem.process_claim rt llm.

Definition agentic {B : Type} (rt : Runtime) (agent : InsuranceClaimsAgent.Backend B)
  : System (B * ClaimsLogger.log) :=
  InsuranceClaimsAgent.process_claim rt agent.

(** The metrics of one system that [compare_systems] reads. *)
Record SystemResults : Type := mkResults {
  severity_accuracy : Q;
  action_accuracy : Q;
  severity_f1 : Q;
  action_f1 : Q;
  avg_processing_time : Q
}.

(** The comparison dict; each inner dict is the list of its items in
    insertion order. *)
Record Comparison : Type := mkComparison {
  c_severity_accuracy : list (string * Q);
  c_action_accuracy : list (string * Q);
  c_processing_time : list (string * Q);
  overall_score : list (string * Q);
  best_system : string
}.

(** The weighted combination, computed in float arithmetic from left to
    right as the expression is written. *)
Definition overall (system_results : SystemResults) : Q :=
  fadd (fadd (fadd (fmul (4 # 10) (severity_accuracy system_results))
                   (fmul (4 # 10) (action_accuracy system_results)))
             (fmul (1 # 10) (severity_f1 system_results)))
       (fmul (1 # 10) (action_f1 system_results)).

(** [max(d, key=d.get)] after the first item: a later key replaces the
    best one only when its value is strictly larger. *)
Fixpoint max_by_value (best : string * Q) (rest : list (string * Q)) : string :=
  match rest with
  | [] => fst best
  | item :: rest' =>
      if Qlt_bool (snd best) (snd item) then max_by_value item rest'
      else max_by_value best rest'
  end.

(** [compare_systems] on the items of [results] in insertion order (the
    names are the keys of a dict, hence distinct). *)
Definition compare_systems (results : list (string * SystemResults))
  : Py.result Comparison :=
  let overall_scores := List.map (fun r => (fst r, overall (snd r))) results in
  match overall_scores with
  | [] => Raise (ValueError "max() arg is an empty sequence")
  | first :: rest =>
      Ok {| c_severity_accuracy :=
              List.map (fun r => (fst r, severity_accuracy (snd r))) results;
            c_action_accuracy :=
              List.map (fun r => (fst r, action_accuracy (snd r))) results;
            c_processing_time :=
              List.map (fun r => (fst r, avg_processing_time (snd r))) results;
            overall_score := overall_scores;
            best_system := max_by_value first rest |}
  end.

End EvaluationSystem.

(* ===================================================================== *)
(** ** data_generator.py *)
(* ===================================================================== *)

Module ClaimsDataGenerator.

Definition base_amounts : list (string * (Q * Q)) :=
  [("Auto Accident", (2000, 50000)); ("Property Damage", (1000, 100000));
   ("Theft", (500, 25000)); ("Fire Damage", (5000, 200000));
   ("Water Damage", (2000, 75000)); ("Liability", (3000, 150000));
   ("Medical", (1000, 100000)); ("Storm Damage", (2000, 100000))].

(** [d.get(key, default)] on a dict written as a list of items *)
Fixpoint get_default {A : Type} (d : list (string * A)) (key : string) (default : A) : A :=
  match d with
  | [] => default
  | (k, v) :: rest => if String.eqb k key then v else get_default rest key default
  end.

(** [_generate_claim_amount]; [amount] is the value that
    [np.random.lognormal(mu, sigma)] drew. *)
Definition _generate_claim_amount (claim_type : string) (amount : Q) : Q :=
  let '(min_amt, max_amt) := get_default base_amounts claim_type (1000, 50000) in
  py_round2 (py_max min_amt (py_min max_amt amount)).

Definition _assign_ground_truth_severity (amount : Q) : string :=
  if Qlt_bool amount 5000 then "low"
  else if Qlt_bool amount 25000 then "medium"
  else if Qlt_bool amount 75000 then "high"
  else "critical".

(** [_assign_ground_truth_action], on the three fields of the claim that it
    reads: the severity just assigned and the two random ints. *)
Definition _assign_ground_truth_action (severity : string) (prior_claims tenure : Z)
  : string :=
  if String.eqb severity "low" && (prior_claims <? 2)%Z then "approve"
  else if String.eqb severity "medium" && (prior_claims <? 3)%Z && (1 <? tenure)%Z
  then "approve"
  else if String.eqb severity "high" || (3 <=? prior_claims)%Z then "investigate"
  else if String.eqb severity "critical" || (4 <=? prior_claims)%Z then "escalate"
  else "investigate".

End ClaimsDataGenerator.

(* ===================================================================== *)
(** ** Notions used to state and prove the properties *)
(* ===================================================================== *)

(** The score that comes back when the seven rules fired as the flags say. *)
Definition score_of_flags (b1 b2 b3 b4 b5 b6 b7 : bool) : Q :=
  let acc := (0, []) in
  let acc := RiskScoringTool.bump b1 RiskScoringTool.high_amount "high_claim_amount" acc in
  let acc := RiskScoringTool.bump b2 RiskScoringTool.multiple_claims
                                  "multiple_prior_claims" acc in
  let acc := RiskScoringTool.bump b3 RiskScoringTool.new_policy "new_policy" acc in
  let acc := RiskScoringTool.bump b4 RiskScoringTool.late_reporting "late_reporting" acc in
  let acc := RiskScoringTool.bump b5 (2 # 10) "claim_near_coverage_limit" acc in
  let acc := RiskScoringTool.bump b6 RiskScoringTool.high_age_risk "age_risk_factor" acc in
  let acc := RiskScoringTool.bump b7 RiskScoringTool.location_risk
                                  "high_risk_location" acc in
  py_round3 (py_min (fst acc) 1).

(** [sub] occurs in [s] as a run of consecutive characters. *)
Definition occurs (sub s : string) : Prop :=
  exists pre post, s = pre +:+ sub +:+ post.

(** [res] is the first entry of [labels], in list order, that occurs in
    [text], or [default] when none does. *)
Definition first_occurring (labels : list string) (text default res : string) : Prop :=
  (exists before after,
      labels = before ++ res :: after
      /\ occurs res text
      /\ Forall (fun l => ~ occurs l text) before)
  \/ (res = default /\ Forall (fun l => ~ occurs l text) labels).

(** 1 for true, 0 for false. *)
Definition b2n (b : bool) : nat := if b then 1%nat else 0%nat.

(** Both labels of a sample belong to the label list of the matrix. *)
Definition counted (labels : list string) (s : pyval * pyval) : bool :=
  sklearn.known labels (fst s) && sklearn.known labels (snd s).

(** The claim carries the three columns that the harness reads itself. *)
Definition has_harness_keys (claim_dict : Claim) : Prop :=
  is_Some (claim_dict !! "claim_id")
  /\ is_Some (claim_dict !! "ground_truth_severity")
  /\ is_Some (claim_dict !! "ground_truth_action").

(** The claim carries its id and ground-truth labels from the two label
    lists. *)
Definition well_labelled (claim_dict : Claim) : Prop :=
  is_Some (claim_dict !! "claim_id")
  /\ (exists l, In l config.SEVERITY_LEVELS
                /\ claim_dict !! "ground_truth_severity" = Some (VStr l))
  /\ (exists l, In l config.ACTIONS
                /\ claim_dict !! "ground_truth_action" = Some (VStr l)).

(** The pairs of true and predicted label that go into each matrix. *)
Definition severity_samples (ps : list EvaluationSystem.Prediction) : list (pyval * pyval) :=
  List.combine (List.map EvaluationSystem.true_severity ps)
               (List.map (fun p => VStr (EvaluationSystem.predicted_severity p)) ps).

Definition action_samples (ps : list EvaluationSystem.Prediction) : list (pyval * pyval) :=
  List.combine (List.map EvaluationSystem.true_action ps)
               (List.map (fun p => VStr (EvaluationSystem.predicted_action p)) ps).

(** The predicted label of a prediction is in the label list. *)
Definition severity_in_list (p : EvaluationSystem.Prediction) : bool :=
  sklearn.known config.SEVERITY_LEVELS (VStr (EvaluationSystem.predicted_severity p)).

Definition action_in_list (p : EvaluationSystem.Prediction) : bool :=
  sklearn.known config.ACTIONS (VStr (EvaluationSystem.predicted_action p)).

(** The seven factor names in the order the scorer tests their rules, and
    the weight each adds. *)
Definition all_factor_names : list string :=
  ["high_claim_amount"; "multiple_prior_claims"; "new_policy"; "late_reporting";
   "claim_near_coverage_limit"; "age_risk_factor"; "high_risk_location"].

Definition factor_weight (name : string) : Q :=
  if String.eqb name "high_claim_amount" then RiskScoringTool.high_amount
  else if String.eqb name "multiple_prior_claims" then RiskScoringTool.multiple_claims
  else if String.eqb name "new_policy" then RiskScoringTool.new_policy
  else if String.eqb name "late_reporting" then RiskScoringTool.late_reporting
  else if String.eqb name "claim_near_coverage_limit" then 2 # 10
  else if String.eqb name "age_risk_factor" then RiskScoringTool.high_age_risk
  else if String.eqb name "high_risk_location" then RiskScoringTool.location_risk
  else 0.

(** The factor list that comes back when the seven rules fired as the
    flags say. *)
Definition factors_of_flags (b1 b2 b3 b4 b5 b6 b7 : bool) : list string :=
  let acc := (0, []) in
  let acc := RiskScoringTool.bump b1 RiskScoringTool.high_amount "high_claim_amount" acc in
  let acc := RiskScoringTool.bump b2 RiskScoringTool.multiple_claims
                                  "multiple_prior_claims" acc in
  let acc := RiskScoringTool.bump b3 RiskScoringTool.new_policy "new_policy" acc in
  let acc := RiskScoringTool.bump b4 RiskScoringTool.late_reporting "late_reporting" acc in
  let acc := RiskScoringTool.bump b5 (2 # 10) "claim_near_coverage_limit" acc in
  let acc := RiskScoringTool.bump b6 RiskScoringTool.high_age_risk "age_risk_factor" acc in
  let acc := RiskScoringTool.bump b7 RiskScoringTool.location_risk
                                  "high_risk_location" acc in
  snd acc.

(** A row of the policies table has all eight columns. *)
Definition complete_row (row : gmap string pyval) : Prop :=
  Forall (fun c => is_Some (row !! c)) PolicyLookupTool.policy_columns.

(** A value is an int or a float; a value is a number or [None]. *)
Definition is_number (v : pyval) : Prop :=
  match v with
  | VInt _ | VFloat _ => True
  | _ => False
  end.

Definition number_or_none (v : pyval) : Prop :=
  match v with
  | VStr _ => False
  | _ => True
  end.

(** The number a numeric value holds. *)
Definition number_of (v : pyval) : Q :=
  match v with
  | VInt z => inject_Z z
  | VFloat q => q
  | _ => 0
  end.

(** A claim row as the claims table of the generator has it: the fields
    the rule-based system reads are present, with numbers where it
    computes. *)
Definition well_formed_claim (claim : Claim) : Prop :=
  is_Some (claim !! "claim_id")
  /\ is_Some (claim !! "policy_id")
  /\ (exists v, claim !! "claim_amount" = Some v /\ is_number v)
  /\ (exists v, claim !! "prior_claims" = Some v /\ is_number v)
  /\ (exists v, claim !! "policy_tenure_years" = Some v /\ is_number v)
  /\ (exists v, claim !! "claimant_age" = Some v /\ number_or_none v)
  /\ is_Some (claim !! "location").

(** A policies table with complete rows and numeric coverage limits. *)
Definition well_formed_policies (policies_df : list (gmap string pyval)) : Prop :=
  Forall (fun row => complete_row row
                     /\ exists v, row !! "coverage_limit" = Some v /\ number_or_none v)
         policies_df.

(** A prediction belongs to a claim: it carries the claim's id and its two
    ground-truth labels. *)
Definition prediction_for (claim_dict : Claim) (p : EvaluationSystem.Prediction) : Prop :=
  claim_dict !! "claim_id" = Some (EvaluationSystem.p_claim_id p)
  /\ claim_dict !! "ground_truth_severity" = Some (EvaluationSystem.true_severity p)
  /\ claim_dict !! "ground_truth_action" = Some (EvaluationSystem.true_action p).

(** How often a tool name occurs among the tool-call entries of a log. *)
Definition calls_of (name : string) (entries : ClaimsLogger.log) : nat :=
  length (List.filter (fun e => ClaimsLogger.is_tool_call e
                                && String.eqb (ClaimsLogger.tool_name_of e) name) entries).

(** Sum of the counts held in a dict of counts. *)
Definition sum_counts (counts : gmap string nat) : nat :=
  map_fold (fun _ n acc => (n + acc)%nat) 0%nat counts.

(** The calls on a performance tracker, and the state after a sequence of
    calls on a new tracker. *)
Inductive tracker_call : Type :=
| RecordClaim (claim_id : string) (processing_time : Q) (decision : gmap string pyval)
| RecordOverride.

Definition tracker_step (m : PerformanceTracker.metrics) (c : tracker_call)
  : PerformanceTracker.metrics :=
  match c with
  | RecordClaim claim_id processing_time decision =>
      PerformanceTracker.record_claim_processing m claim_id processing_time decision
  | RecordOverride => PerformanceTracker.record_override m
  end.

Definition tracker_after (calls : list tracker_call) : PerformanceTracker.metrics :=
  fold_left tracker_step calls PerformanceTracker.init.

Definition is_record_claim (c : tracker_call) : bool :=
  match c with RecordClaim _ _ _ => true | RecordOverride => false end.

Definition is_record_override (c : tracker_call) : bool :=
  match c with RecordClaim _ _ _ => false | RecordOverride => true end.

(** A value on which the truth-value tests and comparisons of the scorer
    do not raise: anything but a non-empty string. *)
Definition number_or_falsy (v : pyval) : Prop :=
  match v with
  | VStr (String _ _) => False
  | _ => True
  end.

(** The claim has each of the listed keys. *)
Definition has_keys (keys : list string) (claim : Claim) : Prop :=
  Forall (fun k => is_Some (claim !! k)) keys.

(** The claim's amount is present and is a number. *)
Definition has_numeric_amount (claim : Claim) : Prop :=
  exists v, claim !! "claim_amount" = Some v /\ is_number v.

(** Concrete data for the examples. *)
Module Sample.

Definition rt : Runtime :=
  {| str_int := fun _ => "n"; str_float := fun _ => "x";
     fmt_money := fun _ => "0.00"; fmt_fixed3 := fun _ => "0.000";
     strptime := fun _ => Some 0%Z |}.

Definition claim : Claim :=
  list_to_map
    [("claim_id", VStr "CLM-00001"); ("policy_id", VStr "POL-1234");
     ("claim_type", VStr "Theft"); ("claim_amount", VFloat 2000);
     ("incident_date", VStr "2024-01-01"); ("report_date", VStr "2024-01-06");
     ("location", VStr "Bern, Switzerland"); ("claimant_age", VInt 40);
     ("prior_claims", VInt 0); ("policy_tenure_years", VInt 5);
     ("narrative", VStr "Burglary reported at residence.");
     ("ground_truth_severity", VStr "low"); ("ground_truth_action", VStr "approve")].

(** The same row in a table whose prior-claims column holds text. *)
Definition claim_text_prior : Claim := <["prior_claims" := VStr "none"]> claim.

Definition policies_df : list (gmap string pyval) :=
  [list_to_map
     [("policy_id", VStr "POL-1234"); ("policy_type", VStr "Basic");
      ("coverage_limit", VInt 50000); ("deductible", VInt 500);
      ("customer_name", VStr "Customer POL-1234");
      ("policy_start_date", VStr "2020-01-01");
      ("claims_history_count", VInt 0); ("is_active", VInt 1)]].

(** A language-model service that is down. *)
Definition llm_down : OneShotLLMSystem.Backend unit :=
  fun b _ => (Raise (Exception "Connection error."), b).

Definition agent_down : InsuranceClaimsAgent.Backend unit :=
  fun b _ => ({| InsuranceClaimsAgent.tool_entries := [];
                 InsuranceClaimsAgent.reply := Raise (Exception "Connection error.") |}, b).

End Sample.

(* ===================================================================== *)
(** ** Comparisons on rationals *)
(* ===================================================================== *)

Lemma Qlt_bool_iff (x y : Q) : Qlt_bool x y = true <-> x < y.
Proof.
  unfold Qlt_bool. rewrite negb_true_iff, <- not_true_iff_false, Qle_bool_iff.
  split; [apply Qnot_le_lt | apply Qlt_not_le].
Qed.

Lemma Qgt_bool_iff (x y : Q) : Qgt_bool x y = true <-> y < x.
Proof. apply Qlt_bool_iff. Qed.

Lemma Qge_bool_iff (x y : Q) : Qge_bool x y = true <-> y <= x.
Proof. apply Qle_bool_iff. Qed.

Lemma Qlt_bool_false_iff (x y : Q) : Qlt_bool x y = false <-> y <= x.
Proof.
  unfold Qlt_bool. rewrite negb_false_iff. apply Qle_bool_iff.
Qed.

(* ===================================================================== *)
(** ** The risk scorer *)
(* ===================================================================== *)

Section RiskScorer.

Import RiskScoringTool.

(** Each threshold rule that reads a growing input stays on once it is on. *)
Lemma cond_amount_mono (a a' : Q) :
  a <= a' -> cond_amount a = true -> cond_amount a' = true.
Proof.
  unfold cond_amount. rewrite !Qgt_bool_iff. intros Hle Hlt.
  eapply Qlt_le_trans; eassumption.
Qed.

Lemma cond_coverage_mono (a a' : Q) (limit : option Q) :
  a <= a' -> cond_coverage a limit = true -> cond_coverage a' limit = true.
Proof.
  unfold cond_coverage. destruct limit as [c|]; [|discriminate].
  rewrite !andb_true_iff, !Qgt_bool_iff. intros Hle [Hc Hlt]. split; [exact Hc|].
  eapply Qlt_le_trans; eassumption.
Qed.

Lemma cond_prior_mono (p p' : Q) :
  p <= p' -> cond_prior p = true -> cond_prior p' = true.
Proof.
  unfold cond_prior. rewrite !Qge_bool_iff. intros Hle H3.
  eapply Qle_trans; eassumption.
Qed.

Lemma cond_late_mono (d d' : Q) :
  d <= d' -> cond_late d = true -> cond_late d' = true.
Proof.
  unfold cond_late. rewrite !Qgt_bool_iff. intros Hle Hlt.
  eapply Qlt_le_trans; eassumption.
Qed.

(** The score that comes back when the seven rules fired as the flags
    say: the flags of the second call dominate those of the first. *)
Lemma score_flags_mono (b1 b2 b4 b5 b1' b2' b4' b5' b3 b6 b7 : bool) :
  (b1 = true -> b1' = true) -> (b2 = true -> b2' = true) ->
  (b4 = true -> b4' = true) -> (b5 = true -> b5' = true) ->
  score_of_flags b1 b2 b3 b4 b5 b6 b7 <= score_of_flags b1' b2' b3 b4' b5' b6 b7.
Proof.
  intros H1 H2 H4 H5.
  destruct b1, b1'; try (specialize (H1 eq_refl); discriminate H1);
  destruct b2, b2'; try (specialize (H2 eq_refl); discriminate H2);
  destruct b4, b4'; try (specialize (H4 eq_refl); discriminate H4);
  destruct b5, b5'; try (specialize (H5 eq_refl); discriminate H5);
  destruct b3, b6, b7; vm_compute; discriminate.
Qed.

Lemma score_flags_bounds (b1 b2 b3 b4 b5 b6 b7 : bool) :
  0 <= score_of_flags b1 b2 b3 b4 b5 b6 b7 <= 1.
Proof.
  destruct b1, b2, b3, b4, b5, b6, b7; vm_compute; split; discriminate.
Qed.

Lemma risk_score_flags (a p t d : Q) (limit age : option Q) (loc : option string) :
  risk_score (calculate_risk_score a p t d limit age loc)
  = score_of_flags (cond_amount a) (cond_prior p) (cond_tenure t) (cond_late d)
                   (cond_coverage a limit) (cond_age age) (cond_location loc).
Proof. reflexivity. Qed.

End RiskScorer.

(** C5.  Whatever the inputs, and whichever optional inputs are present,
    the risk score that [calculate_risk_score] returns lies in the closed
    interval from 0 to 1. *)
Theorem risk_score_in_unit_interval
    (claim_amount prior_claims policy_tenure_years incident_to_report_days : Q)
    (coverage_limit claimant_age : option Q) (location : option string) :
  0 <= RiskScoringTool.risk_score
         (RiskScoringTool.calculate_risk_score
            claim_amount prior_claims policy_tenure_years incident_to_report_days
            coverage_limit claimant_age location)
    <= 1.
Proof.
  rewrite risk_score_flags. apply score_flags_bounds.
Qed.

(** C4.  Raising the claim amount, the number of prior claims or the
    incident-to-report delay, with every other input unchanged, never
    lowers the returned risk score. *)
Theorem risk_score_monotone
    (claim_amount prior_claims policy_tenure_years incident_to_report_days : Q)
    (coverage_limit claimant_age : option Q) (location : option string) (bigger : Q) :
  (claim_amount <= bigger ->
   RiskScoringTool.risk_score
     (RiskScoringTool.calculate_risk_score
        claim_amount prior_claims policy_tenure_years incident_to_report_days
        coverage_limit claimant_age location)
   <= RiskScoringTool.risk_score
        (RiskScoringTool.calculate_risk_score
           bigger prior_claims policy_tenure_years incident_to_report_days
           coverage_limit claimant_age location))
  /\ (prior_claims <= bigger ->
      RiskScoringTool.risk_score
        (RiskScoringTool.calculate_risk_score
           claim_amount prior_claims policy_tenure_years incident_to_report_days
           coverage_limit claimant_age location)
      <= RiskScoringTool.risk_score
           (RiskScoringTool.calculate_risk_score
              claim_amount bigger policy_tenure_years incident_to_report_days
              coverage_limit claimant_age location))
  /\ (incident_to_report_days <= bigger ->
      RiskScoringTool.risk_score
        (RiskScoringTool.calculate_risk_score
           claim_amount prior_claims policy_tenure_years incident_to_report_days
           coverage_limit claimant_age location)
      <= RiskScoringTool.risk_score
           (RiskScoringTool.calculate_risk_score
              claim_amount prior_claims policy_tenure_years bigger
              coverage_limit claimant_age location)).
Proof.
  rewrite !risk_score_flags.
  repeat split; intros Hle; apply score_flags_mono;
    eauto using cond_amount_mono, cond_coverage_mono, cond_prior_mono, cond_late_mono.
Qed.

Lemma risk_score_monotone_witness :
  RiskScoringTool.risk_score
    (RiskScoringTool.calculate_risk_score 40000 2 5 10 (Some 60000) (Some 40) None)
  <= RiskScoringTool.risk_score
       (RiskScoringTool.calculate_risk_score 55000 2 5 10 (Some 60000) (Some 40) None)
  /\ RiskScoringTool.risk_score
       (RiskScoringTool.calculate_risk_score 40000 2 5 10 (Some 60000) (Some 40) None)
     <= RiskScoringTool.risk_score
          (RiskScoringTool.calculate_risk_score 40000 55000 5 10 (Some 60000) (Some 40) None)
  /\ RiskScoringTool.risk_score
       (RiskScoringTool.calculate_risk_score 40000 2 5 10 (Some 60000) (Some 40) None)
     <= RiskScoringTool.risk_score
          (RiskScoringTool.calculate_risk_score 40000 2 5 55000 (Some 60000) (Some 40) None).
Proof.
  destruct (risk_score_monotone 40000 2 5 10 (Some 60000) (Some 40) None 55000)
    as (Ha & Hp & Hd).
  split; [apply Ha; vm_compute; discriminate|].
  split; [apply Hp; vm_compute; discriminate|].
  apply Hd; vm_compute; discriminate.
Defined.

(** C2 (as stated it fails).  With amount 80,000 and coverage limit 100,000
    the amount is equal to, not above, 0.8 times the limit, so the factor
    list is not the five-element list of the scenario. *)
Lemma scenario_factor_list_differs :
  RiskScoringTool.risk_factors
    (RiskScoringTool.calculate_risk_score 80000 4 0 45 (Some 100000) None None)
  <> ["high_claim_amount"; "multiple_prior_claims"; "new_policy"; "late_reporting";
      "claim_near_coverage_limit"].
Proof. vm_compute. discriminate. Qed.

(** C2 (amended).  For amount 80,000, 4 prior claims, tenure 0, a delay of
    45 days and coverage limit 100,000, with age and location absent, the
    risk scorer returns the factors high_claim_amount,
    multiple_prior_claims, new_policy and late_reporting, the score
    0.30+0.25+0.15+0.15 = 0.85 and the tier high; the rule-based triage on
    that amount, score and prior-claims count gives severity critical and
    action escalate. *)
Theorem scenario_high_risk :
  let r := RiskScoringTool.calculate_risk_score 80000 4 0 45 (Some 100000) None None in
  RiskScoringTool.risk_factors r
  = ["high_claim_amount"; "multiple_prior_claims"; "new_policy"; "late_reporting"]
  /\ RiskScoringTool.risk_score r == 85 # 100
  /\ RiskScoringTool.risk_score r
     == py_min ((30 # 100) + (25 # 100) + (15 # 100) + (15 # 100)) 1
  /\ RiskScoringTool.risk_level r = "high"
  /\ RuleBasedSystem.determine_severity 80000 = "critical"
  /\ RuleBasedSystem.determine_action
       (RuleBasedSystem.determine_severity 80000) (RiskScoringTool.risk_score r) 4
     = "escalate".
Proof. vm_compute. repeat split; reflexivity. Qed.

(** C3.  A claim in the critical band (amount at least 75,000) with risk
    score 0.2 and no prior claims is escalated: the first rule needs
    severity low, so the second rule is the first that applies. *)
Theorem critical_claim_escalates (claim_amount : Q) :
  75000 <= claim_amount ->
  RuleBasedSystem.determine_severity claim_amount = "critical"
  /\ RuleBasedSystem.determine_action
       (RuleBasedSystem.determine_severity claim_amount) (2 # 10) 0
     = "escalate".
Proof.
  intros Hc.
  assert (Hsev : RuleBasedSystem.determine_severity claim_amount = "critical").
  { unfold RuleBasedSystem.determine_severity.
    assert (H1 : Qlt_bool claim_amount 5000 = false)
      by (apply Qlt_bool_false_iff; lra).
    assert (H2 : Qlt_bool claim_amount 25000 = false)
      by (apply Qlt_bool_false_iff; lra).
    assert (H3 : Qlt_bool claim_amount 75000 = false)
      by (apply Qlt_bool_false_iff; lra).
    rewrite H1, H2, H3. reflexivity. }
  split; [exact Hsev|]. rewrite Hsev. reflexivity.
Qed.

Lemma critical_claim_escalates_witness :
  RuleBasedSystem.determine_severity 80000 = "critical"
  /\ RuleBasedSystem.determine_action
       (RuleBasedSystem.determine_severity 80000) (2 # 10) 0
     = "escalate".
Proof. apply (critical_claim_escalates 80000). vm_compute. discriminate. Defined.

(** What the two optional numeric rules test: the value must be present,
    must not be zero, and must meet the stated condition. *)
Lemma cond_coverage_iff (claim_amount c : Q) :
  RiskScoringTool.cond_coverage claim_amount (Some c) = true
  <-> ~ c == 0 /\ fmul c (8 # 10) < claim_amount.
Proof.
  unfold RiskScoringTool.cond_coverage, num_truthy.
  rewrite andb_true_iff, negb_true_iff, Qgt_bool_iff, <- not_true_iff_false, Qeq_bool_iff.
  reflexivity.
Qed.

Lemma cond_age_iff (a : Q) :
  RiskScoringTool.cond_age (Some a) = true
  <-> ~ a == 0 /\ (a < 25 \/ 75 < a).
Proof.
  unfold RiskScoringTool.cond_age, num_truthy.
  rewrite andb_true_iff, orb_true_iff, negb_true_iff, Qgt_bool_iff, Qlt_bool_iff,
    <- not_true_iff_false, Qeq_bool_iff.
  reflexivity.
Qed.

(** C6 (the code departs from it).  A claimant age of 0 is supplied and is
    below 25, and a coverage limit of 0 is supplied and the amount 1,000 is
    above 0.8 times it, yet neither rule fires: the truth-value test takes
    a supplied 0 for an absent input. *)
Theorem zero_optional_inputs_skip_rules :
  let by_age := RiskScoringTool.calculate_risk_score 1000 0 5 0 None (Some 0) None in
  let by_limit := RiskScoringTool.calculate_risk_score 1000 0 5 0 (Some 0) None None in
  (0 < 25 /\ RiskScoringTool.risk_factors by_age = []
   /\ RiskScoringTool.risk_score by_age == 0)
  /\ (0 * (8 # 10) < 1000 /\ RiskScoringTool.risk_factors by_limit = []
      /\ RiskScoringTool.risk_score by_limit == 0).
Proof. vm_compute. repeat split; reflexivity. Qed.

(* ===================================================================== *)
(** ** The rule chain *)
(* ===================================================================== *)

Lemma bind_ok {A B : Type} (m : result A) (k : A -> result B) (b : B) :
  Py.bind m k = Ok b -> exists a, m = Ok a /\ k a = Ok b.
Proof. destruct m as [a|e]; simpl; [eauto | discriminate]. Qed.

Lemma determine_action_range (severity : string) (risk_score prior_claims : Q) :
  In (RuleBasedSystem.determine_action severity risk_score prior_claims)
     ["approve"; "investigate"; "escalate"].
Proof.
  unfold RuleBasedSystem.determine_action.
  repeat match goal with
         | |- context [if ?c then _ else _] => destruct c
         end; simpl; auto.
Qed.

(** C10.  The action of the rule-based system is always approve,
    investigate or escalate, and never deny: this holds for the rule chain
    on every amount, risk score and prior-claims count, and for every
    decision that [process_claim] returns. *)
Theorem rule_based_never_denies :
  (forall claim_amount risk_score prior_claims : Q,
      In (RuleBasedSystem.determine_action
            (RuleBasedSystem.determine_severity claim_amount) risk_score prior_claims)
         ["approve"; "investigate"; "escalate"])
  /\ (forall (rt : Runtime) (policies_df : list (gmap string pyval))
             (claim : Claim) (d : Decision),
         RuleBasedSystem.process_claim rt policies_df claim = Ok d ->
         In (action d) ["approve"; "investigate"; "escalate"] /\ action d <> "deny").
Proof.
  split; [intros; apply determine_action_range|].
  intros rt policies_df claim d H.
  assert (Hin : In (action d) ["approve"; "investigate"; "escalate"]).
  { unfold RuleBasedSystem.process_claim in H.
    repeat (apply bind_ok in H; destruct H as (? & _ & H)).
    injection H as <-. simpl. apply determine_action_range. }
  split; [exact Hin|].
  intros Hd. rewrite Hd in Hin. simpl in Hin.
  repeat (destruct Hin as [Hin|Hin]; [discriminate Hin|]). exact Hin.
Qed.

Lemma rule_based_never_denies_witness :
  In (match RuleBasedSystem.process_claim Sample.rt Sample.policies_df Sample.claim with
      | Ok d => action d
      | Raise _ => "approve"
      end)
     ["approve"; "investigate"; "escalate"]
  /\ is_ok (RuleBasedSystem.process_claim Sample.rt Sample.policies_df Sample.claim) = true.
Proof.
  destruct (RuleBasedSystem.process_claim Sample.rt Sample.policies_df Sample.claim)
    as [d|e] eqn:E.
  - split; [|reflexivity].
    exact (proj1 (proj2 rule_based_never_denies Sample.rt Sample.policies_df
                        Sample.claim d E)).
  - vm_compute in E. discriminate E.
Defined.

(* ===================================================================== *)
(** ** The audit log *)
(* ===================================================================== *)

(** C9.  On a log without completed-decision entries [get_override_rate]
    returns 0.0, however many override entries the log holds; the division
    it guards would raise there. *)
Theorem override_rate_without_decisions (entries : ClaimsLogger.log) :
  ClaimsLogger.total_decisions entries = 0%nat ->
  ClaimsLogger.get_override_rate entries = Ok 0
  /\ truediv (Z.of_nat (ClaimsLogger.overrides entries))
             (Z.of_nat (ClaimsLogger.total_decisions entries))
     = Raise (ZeroDivisionError "division by zero").
Proof.
  intros H. unfold ClaimsLogger.get_override_rate. rewrite H. split; reflexivity.
Qed.

Lemma override_rate_without_decisions_witness :
  let entries :=
    ClaimsLogger.log_human_override
      (ClaimsLogger.log_human_override
         (ClaimsLogger.log_agent_step [] "claim_received" Sample.claim)
         "CLM-00001" ∅ ∅ (Some "amount misread"))
      "CLM-00002" ∅ ∅ None in
  ClaimsLogger.overrides entries = 2%nat
  /\ ClaimsLogger.get_override_rate entries = Ok 0.
Proof.
  split; [reflexivity|].
  apply (override_rate_without_decisions
           (ClaimsLogger.log_human_override
              (ClaimsLogger.log_human_override
                 (ClaimsLogger.log_agent_step [] "claim_received" Sample.claim)
                 "CLM-00001" ∅ ∅ (Some "amount misread"))
              "CLM-00002" ∅ ∅ None)).
  reflexivity.
Defined.

(* ===================================================================== *)
(** ** Label extraction *)
(* ===================================================================== *)

Section LabelExtraction.

Lemma prefix_iff (sub s : string) :
  String.prefix sub s = true <-> exists post, s = sub +:+ post.
Proof.
  revert s. induction sub as [|a sub IH]; intros s.
  - split; [intros _; exists s; reflexivity | intros _; destruct s; reflexivity].
  - destruct s as [|b s]; simpl;
      [split; [discriminate | intros [post H]; discriminate H]|].
    destruct (ascii_dec a b) as [->|Hne].
    + rewrite IH. split; intros [post H]; exists post.
      * rewrite H. reflexivity.
      * injection H as H. exact H.
    + split; [discriminate|]. intros [post H]. injection H as Hab _.
      exfalso. apply Hne. symmetry. exact Hab.
Qed.

Lemma contains_iff (sub s : string) : Str.contains sub s = true <-> occurs sub s.
Proof.
  unfold occurs. induction s as [|c s IH]; cbn [Str.contains].
  - rewrite prefix_iff. split.
    + intros [post H]. exists EmptyString, post. exact H.
    + intros (pre & post & H). destruct pre as [|p pre]; [|discriminate H].
      exists post. exact H.
  - rewrite orb_true_iff, prefix_iff, IH. split.
    + intros [[post H] | (pre & post & H)].
      * exists EmptyString, post. exact H.
      * exists (String c pre), post. simpl. rewrite H. reflexivity.
    + intros (pre & post & H). destruct pre as [|p pre]; simpl in H.
      * left. exists post. exact H.
      * right. injection H as _ H. exists pre, post. exact H.
Qed.

Lemma contains_false_iff (sub s : string) :
  Str.contains sub s = false <-> ~ occurs sub s.
Proof. rewrite <- contains_iff, not_true_iff_false. reflexivity. Qed.

(** The loop with [break] finds the first label, in list order, that
    occurs in the text. *)
Lemma agent_first_label_spec (labels : list string) (text default : string) :
  first_occurring labels text default
    (InsuranceClaimsAgent.first_label labels text default).
Proof.
  induction labels as [|l rest IH]; simpl.
  - right. split; [reflexivity | constructor].
  - destruct (Str.contains l text) eqn:E.
    + left. exists [], rest. split; [reflexivity|].
      split; [apply contains_iff; exact E | constructor].
    + apply contains_false_iff in E.
      destruct IH as [(before & after & Heq & Hocc & Hnone) | [Hdef Hnone]].
      * left. exists (l :: before), after. rewrite Heq at 1.
        split; [reflexivity|]. split; [exact Hocc | constructor; assumption].
      * right. split; [exact Hdef | constructor; assumption].
Qed.

Lemma one_shot_first_label_eq (labels : list string) (text default : string) :
  OneShotLLMSystem.first_label labels text default
  = InsuranceClaimsAgent.first_label labels text default.
Proof. induction labels as [|l rest IH]; simpl; [|rewrite IH]; reflexivity. Qed.

End LabelExtraction.

(** C8.  For every output text, both parsers return the first severity
    label and the first action label, in the order of the label lists,
    that occur in the lower-cased text, and medium and investigate when
    none occurs; a label earlier in the list wins over one that stands
    earlier in the text. *)
Theorem label_extraction_first_in_list_order (output : string) :
  first_occurring config.SEVERITY_LEVELS (Str.lower output) "medium"
    (fst (InsuranceClaimsAgent._parse_decision output))
  /\ first_occurring config.ACTIONS (Str.lower output) "investigate"
       (snd (InsuranceClaimsAgent._parse_decision output))
  /\ OneShotLLMSystem._parse_response output = InsuranceClaimsAgent._parse_decision output
  /\ config.SEVERITY_LEVELS = ["low"; "medium"; "high"; "critical"]
  /\ config.ACTIONS = ["approve"; "investigate"; "deny"; "escalate"]
  /\ InsuranceClaimsAgent._parse_decision
       "ESCALATE now; do not Approve. Severity CRITICAL (not low)"
     = ("low", "approve")
  /\ InsuranceClaimsAgent._parse_decision "No verdict." = ("medium", "investigate").
Proof.
  split; [apply agent_first_label_spec|].
  split; [apply agent_first_label_spec|].
  split.
  { unfold OneShotLLMSystem._parse_response, InsuranceClaimsAgent._parse_decision.
    rewrite !one_shot_first_label_eq. reflexivity. }
  repeat split; reflexivity.
Qed.

(* ===================================================================== *)
(** ** Failure handling of the strategies and of the harness *)
(* ===================================================================== *)

Section FailureHandling.

Import EvaluationSystem.

Lemma getitem_ok (d : Claim) (key : string) :
  is_Some (d !! key) -> exists v, getitem d key = Ok v.
Proof. intros [v H]. exists v. unfold getitem. rewrite H. reflexivity. Qed.

Lemma fallback_prediction_ok (claim_dict : Claim) :
  has_harness_keys claim_dict ->
  exists cid ts ta,
    fallback_prediction claim_dict
    = Ok {| p_claim_id := cid; predicted_severity := "unknown";
            predicted_action := "escalate"; true_severity := ts; true_action := ta |}.
Proof.
  intros (Hc & Hs & Ha).
  destruct (getitem_ok _ _ Hc) as [cid Ec], (getitem_ok _ _ Hs) as [ts Es],
           (getitem_ok _ _ Ha) as [ta Ea].
  exists cid, ts, ta. unfold fallback_prediction. rewrite Ec, Es, Ea. reflexivity.
Qed.

Lemma prediction_of_ok (claim_dict : Claim) (d : Decision) :
  has_harness_keys claim_dict ->
  exists cid ts ta,
    prediction_of claim_dict d
    = Ok {| p_claim_id := cid; predicted_severity := severity d;
            predicted_action := action d; true_severity := ts; true_action := ta |}.
Proof.
  intros (Hc & Hs & Ha).
  destruct (getitem_ok _ _ Hc) as [cid Ec], (getitem_ok _ _ Hs) as [ts Es],
           (getitem_ok _ _ Ha) as [ta Ea].
  exists cid, ts, ta. unfold prediction_of. rewrite Ec, Es, Ea. reflexivity.
Qed.

(** One iteration never raises on a claim that has the harness columns. *)
Lemma evaluate_claim_ok {S : Type} (system : System S) (st : S) (claim_dict : Claim) :
  has_harness_keys claim_dict ->
  exists p, fst (evaluate_claim system st claim_dict) = Ok p.
Proof.
  intros Hk. unfold evaluate_claim.
  destruct (system st claim_dict) as [[d|e] st']; simpl.
  - destruct (prediction_of_ok claim_dict d Hk) as (cid & ts & ta & E).
    rewrite E. eexists. reflexivity.
  - destruct (fallback_prediction_ok claim_dict Hk) as (cid & ts & ta & E).
    rewrite E. eexists. reflexivity.
Qed.

(** The loop reaches the end of the batch, with one prediction per claim. *)
Lemma predictions_of_ok {S : Type} (system : System S) (test_claims : list Claim) :
  Forall has_harness_keys test_claims ->
  forall st : S,
  exists ps, fst (predictions_of system st test_claims) = Ok ps
             /\ length ps = length test_claims.
Proof.
  induction 1 as [|claim_dict rest Hk _ IH]; intros st; simpl.
  - exists []. split; reflexivity.
  - destruct (evaluate_claim_ok system st claim_dict Hk) as [p Ep].
    destruct (evaluate_claim system st claim_dict) as [r st']. simpl in Ep. subst r.
    destruct (IH st') as (ps & Eps & Hlen).
    destruct (predictions_of system st' rest) as [r' st'']. simpl in Eps. subst r'.
    exists (p :: ps). simpl. split; [reflexivity | rewrite Hlen; reflexivity].
Qed.

End FailureHandling.

(** C1 (as stated it fails).  When the language-model service raises, the
    single-shot strategy returns severity medium and action investigate
    without a success flag, and the rule-based strategy returns no Decision
    at all on a claim whose prior-claims field holds text. *)
Lemma single_shot_failure_not_escalated :
  (exists d,
      fst (OneShotLLMSystem.process_claim Sample.rt Sample.llm_down tt Sample.claim) = Ok d
      /\ severity d <> "unknown" /\ action d <> "escalate" /\ success d <> Some false)
  /\ RuleBasedSystem.process_claim Sample.rt Sample.policies_df Sample.claim_text_prior
     = Raise (TypeError "'>=' not supported between instances of 'str' and 'int'").
Proof.
  split; [|vm_compute; reflexivity].
  eexists. split; [vm_compute; reflexivity|].
  simpl. repeat split; discriminate.
Qed.

(** C1 (amended).  When the agent loop raises inside the iterative agent,
    [process_claim] returns a Decision with severity unknown, action
    escalate, success false and the rationale "Error processing claim: "
    followed by the error message.  When the language-model call raises
    inside the single-shot strategy, [process_claim] returns severity
    medium, action investigate and the rationale "Error: " followed by the
    error message, without a success flag.  An exception that leaves any
    strategy is recorded by the harness as predicted severity unknown and
    action escalate, and the batch goes on: it ends with one prediction per
    claim.  The last two points are for claims that carry the claim id and
    the two ground-truth fields. *)
Theorem strategy_failure_handling :
  (forall (B : Type) (rt : Runtime) (agent : InsuranceClaimsAgent.Backend B)
          (b b' : B) (entries : ClaimsLogger.log) (claim : Claim) (text : string)
          (run : InsuranceClaimsAgent.AgentRun) (e : exn),
      InsuranceClaimsAgent.input_text rt claim (incident_to_report_days rt claim) = Ok text ->
      agent b text = (run, b') ->
      InsuranceClaimsAgent.reply run = Raise e ->
      exists cid,
        fst (InsuranceClaimsAgent.process_claim rt agent (b, entries) claim)
        = Ok {| claim_id := cid; severity := "unknown"; action := "escalate";
                rationale := "Error processing claim: " +:+ exn_str e;
                risk_score := None; intermediate_steps := None;
                success := Some false |})
  /\ (forall (B : Type) (rt : Runtime) (llm : OneShotLLMSystem.Backend B)
             (b b' : B) (claim : Claim) (text : string) (e : exn),
         OneShotLLMSystem.prompt rt claim = Ok text ->
         llm b text = (Raise e, b') ->
         exists cid,
           fst (OneShotLLMSystem.process_claim rt llm b claim)
           = Ok {| claim_id := cid; severity := "medium"; action := "investigate";
                   rationale := "Error: " +:+ exn_str e;
                   risk_score := None; intermediate_steps := None;
                   success := None |})
  /\ (forall (S : Type) (system : EvaluationSystem.System S) (st st' : S)
             (claim : Claim) (e : exn),
         system st claim = (Raise e, st') ->
         has_harness_keys claim ->
         exists p,
           EvaluationSystem.evaluate_claim system st claim = (Ok p, st')
           /\ EvaluationSystem.predicted_severity p = "unknown"
           /\ EvaluationSystem.predicted_action p = "escalate")
  /\ (forall (S : Type) (system : EvaluationSystem.System S) (st : S)
             (test_claims : list Claim),
         Forall has_harness_keys test_claims ->
         exists ps,
           fst (EvaluationSystem.predictions_of system st test_claims) = Ok ps
           /\ length ps = length test_claims).
Proof.
  split; [|split; [|split]].
  - intros B rt agent b b' entries claim text run e Htext Hrun Hreply.
    unfold InsuranceClaimsAgent.process_claim.
    rewrite Htext, Hrun, Hreply.
    apply bind_ok in Htext. destruct Htext as (cid & Hcid & _).
    exists cid. unfold InsuranceClaimsAgent.on_error. rewrite Hcid. reflexivity.
  - intros B rt llm b b' claim text e Htext Hllm.
    unfold OneShotLLMSystem.process_claim.
    rewrite Htext, Hllm.
    apply bind_ok in Htext. destruct Htext as (cid & Hcid & _).
    exists cid. unfold OneShotLLMSystem.on_error. rewrite Hcid. reflexivity.
  - intros S system st st' claim e Hsys Hk.
    destruct (fallback_prediction_ok claim Hk) as (cid & ts & ta & E).
    eexists. unfold EvaluationSystem.evaluate_claim. rewrite Hsys. simpl.
    rewrite E. split; [reflexivity|]. split; reflexivity.
  - intros S system st test_claims Hk. apply predictions_of_ok. exact Hk.
Qed.

Lemma strategy_failure_handling_witness :
  (exists cid,
      fst (InsuranceClaimsAgent.process_claim Sample.rt Sample.agent_down (tt, [])
             Sample.claim)
      = Ok {| claim_id := cid; severity := "unknown"; action := "escalate";
              rationale := "Error processing claim: " +:+ exn_str (Exception "Connection error.");
              risk_score := None; intermediate_steps := None; success := Some false |})
  /\ (exists cid,
         fst (OneShotLLMSystem.process_claim Sample.rt Sample.llm_down tt Sample.claim)
         = Ok {| claim_id := cid; severity := "medium"; action := "investigate";
                 rationale := "Error: " +:+ exn_str (Exception "Connection error.");
                 risk_score := None; intermediate_steps := None; success := None |})
  /\ (exists p,
         EvaluationSystem.evaluate_claim
           (EvaluationSystem.rule_based Sample.rt Sample.policies_df) tt
           Sample.claim_text_prior
         = (Ok p, tt)
         /\ EvaluationSystem.predicted_severity p = "unknown"
         /\ EvaluationSystem.predicted_action p = "escalate")
  /\ (exists ps,
         fst (EvaluationSystem.predictions_of
                (EvaluationSystem.rule_based Sample.rt Sample.policies_df) tt
                [Sample.claim_text_prior; Sample.claim])
         = Ok ps
         /\ length ps = 2%nat).
Proof.
  destruct strategy_failure_handling as (Hagent & Hshot & Hrow & Hbatch).
  assert (Hk : has_harness_keys Sample.claim)
    by (repeat split; eexists; reflexivity).
  assert (Hk' : has_harness_keys Sample.claim_text_prior)
    by (repeat split; eexists; reflexivity).
  split; [|split; [|split]].
  - apply (Hagent unit Sample.rt Sample.agent_down tt tt [] Sample.claim
             _ _ (Exception "Connection error.") eq_refl eq_refl eq_refl).
  - apply (Hshot unit Sample.rt Sample.llm_down tt tt Sample.claim
             _ (Exception "Connection error.") eq_refl eq_refl).
  - apply (Hrow unit (EvaluationSystem.rule_based Sample.rt Sample.policies_df) tt tt
             Sample.claim_text_prior
             (TypeError "'>=' not supported between instances of 'str' and 'int'")
             eq_refl Hk').
  - apply (Hbatch unit (EvaluationSystem.rule_based Sample.rt Sample.policies_df) tt
             [Sample.claim_text_prior; Sample.claim]).
    repeat constructor; first [apply Hk | apply Hk'].
Defined.

(* ===================================================================== *)
(** ** Confusion matrices *)
(* ===================================================================== *)

Section ConfusionMatrix.

Import sklearn.

Lemma list_sum_concat_map {A : Type} (f : A -> list nat) (xs : list A) :
  list_sum (List.concat (List.map f xs)) = list_sum (List.map (fun x => list_sum (f x)) xs).
Proof.
  induction xs as [|x xs IH]; simpl; [reflexivity|].
  rewrite list_sum_app, IH. reflexivity.
Qed.

Lemma list_sum_map_add {A : Type} (f g : A -> nat) (xs : list A) :
  list_sum (List.map (fun x => (f x + g x)%nat) xs)
  = (list_sum (List.map f xs) + list_sum (List.map g xs))%nat.
Proof. induction xs as [|x xs IH]; simpl; [reflexivity | rewrite IH; lia]. Qed.

Lemma list_sum_map_zero {A : Type} (xs : list A) :
  list_sum (List.map (fun _ => 0%nat) xs) = 0%nat.
Proof. induction xs as [|x xs IH]; simpl; [reflexivity | exact IH]. Qed.

Lemma list_sum_map_scale {A : Type} (k : nat) (f : A -> nat) (xs : list A) :
  list_sum (List.map (fun x => (k * f x)%nat) xs) = (k * list_sum (List.map f xs))%nat.
Proof. induction xs as [|x xs IH]; simpl; [lia | rewrite IH; lia]. Qed.

Lemma list_sum_map_ext {A : Type} (f g : A -> nat) (xs : list A) :
  (forall x, f x = g x) ->
  list_sum (List.map f xs) = list_sum (List.map g xs).
Proof. intros H. induction xs as [|x xs IH]; simpl; [reflexivity | rewrite H, IH; reflexivity]. Qed.

Lemma is_label_eq (l : string) (v : pyval) : is_label l v = true -> v = VStr l.
Proof.
  unfold is_label. destruct v as [|z|q|s]; simpl; try discriminate.
  intros H. apply String.eqb_eq in H. subst s. reflexivity.
Qed.

Lemma known_In (labels : list string) (l : string) :
  known labels (VStr l) = true -> In l labels.
Proof.
  unfold known. rewrite existsb_exists. intros (l' & Hin & H).
  apply is_label_eq in H. injection H as ->. exact Hin.
Qed.

(** A value matches at most one entry of a list without repetition. *)
Lemma count_label (labels : list string) (v : pyval) :
  NoDup labels ->
  list_sum (List.map (fun l => b2n (is_label l v)) labels) = b2n (known labels v).
Proof.
  induction 1 as [|l rest Hnotin Hnd IH]; simpl; [reflexivity|].
  rewrite IH. destruct (is_label l v) eqn:E; simpl; [|reflexivity].
  apply is_label_eq in E. subst v.
  destruct (known rest (VStr l)) eqn:K; [|reflexivity].
  exfalso. apply Hnotin. apply list_elem_of_In. apply known_In. exact K.
Qed.

Lemma cell_cons (s : pyval * pyval) (samples : list (pyval * pyval)) (lt lp : string) :
  cell (s :: samples) lt lp
  = (b2n (is_label lt (fst s)) * b2n (is_label lp (snd s)) + cell samples lt lp)%nat.
Proof.
  unfold cell. simpl.
  destruct (is_label lt (fst s)), (is_label lp (snd s)); reflexivity.
Qed.

(** The cells of the matrix add up to the number of samples both of whose
    labels are in the label list. *)
Lemma matrix_total (labels : list string) (samples : list (pyval * pyval)) :
  NoDup labels ->
  EvaluationSystem.total
    (List.map (fun lt => List.map (fun lp => cell samples lt lp) labels) labels)
  = length (List.filter (counted labels) samples).
Proof.
  intros Hnd. unfold EvaluationSystem.total. rewrite list_sum_concat_map.
  induction samples as [|s samples IH].
  - simpl. rewrite (list_sum_map_ext _ (fun _ => 0%nat)); [apply list_sum_map_zero|].
    intros lt. apply list_sum_map_zero.
  - rewrite (list_sum_map_ext _
               (fun lt => (b2n (is_label lt (fst s)) * b2n (known labels (snd s))
                           + list_sum (List.map (fun lp => cell samples lt lp) labels))%nat)).
    + rewrite list_sum_map_add, IH.
      rewrite (list_sum_map_ext _
                 (fun lt => (b2n (known labels (snd s)) * b2n (is_label lt (fst s)))%nat))
        by (intros; lia).
      rewrite list_sum_map_scale, count_label by exact Hnd.
      simpl. unfold counted.
      destruct (known labels (fst s)), (known labels (snd s)); simpl; lia.
    + intros lt.
      rewrite (list_sum_map_ext _
                 (fun lp => (b2n (is_label lt (fst s)) * b2n (is_label lp (snd s))
                             + cell samples lt lp)%nat))
        by (intros; apply cell_cons).
      rewrite list_sum_map_add, list_sum_map_scale, count_label by exact Hnd.
      reflexivity.
Qed.

Lemma matrix_total_empty (labels : list string) :
  EvaluationSystem.total (List.map (fun _ => List.map (fun _ => 0%nat) labels) labels)
  = 0%nat.
Proof.
  unfold EvaluationSystem.total. rewrite list_sum_concat_map.
  rewrite (list_sum_map_ext _ (fun _ => 0%nat)); [apply list_sum_map_zero|].
  intros _. apply list_sum_map_zero.
Qed.

(** Whenever [confusion_matrix] returns, its total is the number of
    counted samples. *)
Lemma confusion_matrix_total (y_true y_pred : list pyval) (labels : list string)
    (m : list (list nat)) :
  NoDup labels ->
  length y_true = length y_pred ->
  confusion_matrix y_true y_pred labels = Ok m ->
  EvaluationSystem.total m
  = length (List.filter (counted labels) (List.combine y_true y_pred)).
Proof.
  intros Hnd Hlen. unfold confusion_matrix.
  destruct labels as [|l0 labels0] eqn:El; [discriminate|]. rewrite <- El in *.
  destruct y_true as [|t y_true'] eqn:Et.
  - intros H. injection H as <-. simpl. apply matrix_total_empty.
  - rewrite <- Et. destruct (existsb (known labels) y_true); [|discriminate].
    intros H. injection H as <-. apply matrix_total. exact Hnd.
Qed.

End ConfusionMatrix.

Section HarnessMatrices.

Import EvaluationSystem.

Lemma NoDup_SEVERITY_LEVELS : NoDup config.SEVERITY_LEVELS.
Proof. apply NoDup_ListNoDup. repeat constructor; simpl; intuition discriminate. Qed.

Lemma NoDup_ACTIONS : NoDup config.ACTIONS.
Proof. apply NoDup_ListNoDup. repeat constructor; simpl; intuition discriminate. Qed.

Lemma known_of_In (labels : list string) (l : string) :
  In l labels -> sklearn.known labels (VStr l) = true.
Proof.
  intros Hin. unfold sklearn.known. apply existsb_exists. exists l.
  split; [exact Hin|]. unfold sklearn.is_label. simpl. apply String.eqb_refl.
Qed.

Lemma predictions_of_length {S : Type} (system : System S) (test_claims : list Claim) :
  forall (st st' : S) (ps : list Prediction),
    predictions_of system st test_claims = (Ok ps, st') ->
    length ps = length test_claims.
Proof.
  induction test_claims as [|c rest IH]; intros st st' ps; simpl.
  - intros H. injection H as <- _. reflexivity.
  - destruct (evaluate_claim system st c) as [[p|e] st1]; [|discriminate].
    destruct (predictions_of system st1 rest) as [[ps'|e] st2] eqn:E; [|discriminate].
    intros H. injection H as <- _. simpl. f_equal. eapply IH. exact E.
Qed.

(** The true labels of a prediction are those of the claim, on both
    branches of the iteration. *)
Lemma evaluate_claim_labels {S : Type} (system : System S) (st : S) (claim_dict : Claim) :
  well_labelled claim_dict ->
  exists p, fst (evaluate_claim system st claim_dict) = Ok p
            /\ sklearn.known config.SEVERITY_LEVELS (true_severity p) = true
            /\ sklearn.known config.ACTIONS (true_action p) = true.
Proof.
  intros ([cid Hc] & (ls & Hls & Hs) & (la & Hla & Ha)).
  assert (Ec : getitem claim_dict "claim_id" = Ok cid)
    by (unfold getitem; rewrite Hc; reflexivity).
  assert (Es : getitem claim_dict "ground_truth_severity" = Ok (VStr ls))
    by (unfold getitem; rewrite Hs; reflexivity).
  assert (Ea : getitem claim_dict "ground_truth_action" = Ok (VStr la))
    by (unfold getitem; rewrite Ha; reflexivity).
  unfold evaluate_claim.
  destruct (system st claim_dict) as [[d|e] st']; cbn [Py.bind fst];
    unfold prediction_of, fallback_prediction; rewrite Ec, Es, Ea; cbn [Py.bind fst];
    eexists; (split; [reflexivity|]); cbn [true_severity true_action];
    split; apply known_of_In; assumption.
Qed.

Lemma predictions_of_labels {S : Type} (system : System S) (test_claims : list Claim) :
  Forall well_labelled test_claims ->
  forall st : S,
  exists ps, fst (predictions_of system st test_claims) = Ok ps
             /\ Forall (fun p =>
                          sklearn.known config.SEVERITY_LEVELS (true_severity p) = true
                          /\ sklearn.known config.ACTIONS (true_action p) = true) ps.
Proof.
  induction 1 as [|c rest Hc _ IH]; intros st; simpl.
  - exists []. split; [reflexivity | constructor].
  - destruct (evaluate_claim_labels system st c Hc) as (p & Ep & Hp).
    destruct (evaluate_claim system st c) as [r st1]. simpl in Ep. subst r.
    destruct (IH st1) as (ps & Eps & Hps).
    destruct (predictions_of system st1 rest) as [r st2]. simpl in Eps. subst r.
    exists (p :: ps). split; [reflexivity | constructor; assumption].
Qed.

(** When every true label is in the list, a sample is counted exactly
    when its predicted label is. *)
Lemma counted_when_truth_known {A : Type} (labels : list string)
    (truth pred : A -> pyval) (xs : list A) :
  Forall (fun x => sklearn.known labels (truth x) = true) xs ->
  length (List.filter (counted labels) (List.combine (List.map truth xs) (List.map pred xs)))
  = length (List.filter (fun x => sklearn.known labels (pred x)) xs).
Proof.
  induction 1 as [|x xs Hx _ IH]; simpl; [reflexivity|].
  unfold counted at 1. simpl. rewrite Hx. simpl.
  destruct (sklearn.known labels (pred x)); simpl; rewrite IH; reflexivity.
Qed.

Lemma confusion_matrix_returns (y_true y_pred : list pyval) (labels : list string) :
  labels <> [] ->
  Forall (fun t => sklearn.known labels t = true) y_true ->
  exists m, sklearn.confusion_matrix y_true y_pred labels = Ok m.
Proof.
  intros Hne Hall. unfold sklearn.confusion_matrix.
  destruct labels as [|l0 rest] eqn:El; [contradiction|]. rewrite <- El in *.
  destruct Hall as [|t y_true' Ht _]; [eexists; reflexivity|].
  simpl. rewrite Ht. simpl. eexists. reflexivity.
Qed.

Lemma filter_length_le {A : Type} (f : A -> bool) (xs : list A) :
  (length (List.filter f xs) <= length xs)%nat.
Proof. induction xs as [|x xs IH]; simpl; [lia | destruct (f x); simpl; lia]. Qed.

(** On an empty batch the first metric call raises, so the harness does
    not return. *)
Lemma evaluate_system_empty_batch {S : Type} (system : System S) (st : S) :
  is_ok (fst (evaluate_system system st [])) = false.
Proof. reflexivity. Qed.

(** The metric calls return on label lists that are not empty. *)
Lemma metric_calls_return (y_true y_pred : list pyval) :
  y_true <> [] ->
  sklearn.accuracy_score y_true y_pred = Ok tt
  /\ sklearn.precision_recall_fscore_support y_true y_pred = Ok tt.
Proof. destruct y_true; [contradiction | split; reflexivity]. Qed.

Lemma map_not_nil {A B : Type} (f : A -> B) (xs : list A) :
  xs <> [] -> List.map f xs <> [].
Proof. destruct xs; [contradiction | discriminate]. Qed.

(** The metrics of a batch of predictions that is not empty and whose true
    labels are in the label lists. *)
Lemma calculate_metrics_returns (ps : list Prediction) :
  ps <> [] ->
  Forall (fun p => sklearn.known config.SEVERITY_LEVELS (true_severity p) = true) ps ->
  Forall (fun p => sklearn.known config.ACTIONS (true_action p) = true) ps ->
  exists scm acm,
    _calculate_metrics ps
    = Ok {| severity_confusion_matrix := scm;
            action_confusion_matrix := acm;
            predictions := ps |}.
Proof.
  intros Hne Hts Hta.
  destruct (confusion_matrix_returns
              (List.map true_severity ps)
              (List.map (fun p => VStr (predicted_severity p)) ps)
              config.SEVERITY_LEVELS) as [scm Hscm];
    [discriminate | apply List.Forall_map; exact Hts |].
  destruct (confusion_matrix_returns
              (List.map true_action ps)
              (List.map (fun p => VStr (predicted_action p)) ps)
              config.ACTIONS) as [acm Hacm];
    [discriminate | apply List.Forall_map; exact Hta |].
  destruct (metric_calls_return (List.map true_severity ps)
              (List.map (fun p => VStr (predicted_severity p)) ps)
              (map_not_nil _ _ Hne)) as [Hsa Hsp].
  destruct (metric_calls_return (List.map true_action ps)
              (List.map (fun p => VStr (predicted_action p)) ps)
              (map_not_nil _ _ Hne)) as [Haa Hap].
  exists scm, acm. unfold _calculate_metrics.
  rewrite Hsa. cbn [Py.bind]. rewrite Hsp. cbn [Py.bind].
  rewrite Haa. cbn [Py.bind]. rewrite Hap. cbn [Py.bind].
  rewrite Hscm. cbn [Py.bind]. rewrite Hacm. reflexivity.
Qed.

(** What the two matrices of returned metrics add up to. *)
Lemma calculate_metrics_spec (ps : list Prediction) (m : Metrics) :
  _calculate_metrics ps = Ok m ->
  predictions m = ps
  /\ total (severity_confusion_matrix m)
     = length (List.filter (counted config.SEVERITY_LEVELS) (severity_samples ps))
  /\ total (action_confusion_matrix m)
     = length (List.filter (counted config.ACTIONS) (action_samples ps)).
Proof.
  intros H. unfold _calculate_metrics in H.
  apply bind_ok in H. destruct H as (? & _ & H).
  apply bind_ok in H. destruct H as (? & _ & H).
  apply bind_ok in H. destruct H as (? & _ & H).
  apply bind_ok in H. destruct H as (? & _ & H).
  apply bind_ok in H. destruct H as (scm & Hs & H).
  apply bind_ok in H. destruct H as (acm & Ha & H).
  injection H as <-. simpl. split; [reflexivity|].
  split; eapply confusion_matrix_total; eauto using NoDup_SEVERITY_LEVELS, NoDup_ACTIONS;
    rewrite !length_map; reflexivity.
Qed.

End HarnessMatrices.

(** C7 (as stated it fails).  On a batch of one claim whose strategy
    raised, the recorded severity is the fallback unknown, which has no row
    or column in the severity matrix: the harness returns a matrix whose
    cells add up to 0, not to the batch size 1. *)
Lemma unknown_prediction_not_counted :
  exists m,
    fst (EvaluationSystem.evaluate_system
           (EvaluationSystem.rule_based Sample.rt Sample.policies_df) tt
           [Sample.claim_text_prior])
    = Ok m
    /\ List.map EvaluationSystem.predicted_severity (EvaluationSystem.predictions m)
       = ["unknown"]
    /\ EvaluationSystem.total (EvaluationSystem.severity_confusion_matrix m) = 0%nat
    /\ EvaluationSystem.total (EvaluationSystem.severity_confusion_matrix m)
       <> length [Sample.claim_text_prior].
Proof.
  eexists. split; [vm_compute; reflexivity|].
  split; [reflexivity|]. split; [reflexivity|]. vm_compute. discriminate.
Qed.

(** C7 (amended).  For every strategy evaluated on a batch of N claims,
    when the harness returns there is one prediction per claim and each
    confusion matrix has total cell count equal to the number of
    predictions whose true label and predicted label are both in the
    label list of the matrix, which is at most N.  On a batch that is not
    empty and whose claims carry an id and ground-truth labels from the
    label lists the harness returns, and the totals are the numbers of
    predictions whose predicted severity, respectively predicted action,
    is in the label list: N when all are, fewer when some predictions are
    the fallback unknown. *)
Theorem confusion_matrix_totals :
  (forall (S : Type) (system : EvaluationSystem.System S) (st st' : S)
          (test_claims : list Claim) (m : EvaluationSystem.Metrics),
      EvaluationSystem.evaluate_system system st test_claims = (Ok m, st') ->
      length (EvaluationSystem.predictions m) = length test_claims
      /\ EvaluationSystem.total (EvaluationSystem.severity_confusion_matrix m)
         = length (List.filter (counted config.SEVERITY_LEVELS)
                               (severity_samples (EvaluationSystem.predictions m)))
      /\ EvaluationSystem.total (EvaluationSystem.action_confusion_matrix m)
         = length (List.filter (counted config.ACTIONS)
                               (action_samples (EvaluationSystem.predictions m)))
      /\ (EvaluationSystem.total (EvaluationSystem.severity_confusion_matrix m)
          <= length test_claims)%nat
      /\ (EvaluationSystem.total (EvaluationSystem.action_confusion_matrix m)
          <= length test_claims)%nat)
  /\ (forall (S : Type) (system : EvaluationSystem.System S) (st : S)
             (test_claims : list Claim),
         test_claims <> [] ->
         Forall well_labelled test_claims ->
         exists m,
           fst (EvaluationSystem.evaluate_system system st test_claims) = Ok m
           /\ length (EvaluationSystem.predictions m) = length test_claims
           /\ EvaluationSystem.total (EvaluationSystem.severity_confusion_matrix m)
              = length (List.filter severity_in_list (EvaluationSystem.predictions m))
           /\ EvaluationSystem.total (EvaluationSystem.action_confusion_matrix m)
              = length (List.filter action_in_list (EvaluationSystem.predictions m))
           /\ (forallb severity_in_list (EvaluationSystem.predictions m) = true ->
               EvaluationSystem.total (EvaluationSystem.severity_confusion_matrix m)
               = length test_claims)
           /\ (forallb action_in_list (EvaluationSystem.predictions m) = true ->
               EvaluationSystem.total (EvaluationSystem.action_confusion_matrix m)
               = length test_claims)).
Proof.
  assert (Hle : forall labels (truth pred : list pyval) n,
             length truth = n ->
             (length (List.filter (counted labels) (List.combine truth pred)) <= n)%nat).
  { intros labels truth pred n <-.
    etransitivity; [apply filter_length_le|].
    rewrite length_combine. lia. }
  split.
  - intros S system st st' test_claims m H.
    unfold EvaluationSystem.evaluate_system in H.
    destruct (EvaluationSystem.predictions_of system st test_claims)
      as [[ps|e] st1] eqn:E; [|discriminate].
    injection H as Hm _. apply calculate_metrics_spec in Hm.
    destruct Hm as (Hps & Hs & Ha).
    apply predictions_of_length in E.
    rewrite Hps, Hs, Ha. split; [exact E|]. split; [reflexivity|]. split; [reflexivity|].
    split; apply Hle; rewrite length_map; exact E.
  - intros S system st test_claims Hne Hwl.
    destruct (predictions_of_labels system test_claims Hwl st) as (ps & Eps & Hps).
    unfold EvaluationSystem.evaluate_system.
    destruct (EvaluationSystem.predictions_of system st test_claims)
      as [r st1] eqn:E. simpl in Eps. subst r.
    apply predictions_of_length in E.
    assert (Hps_ne : ps <> []).
    { intros ->. destruct test_claims; [contradiction | discriminate E]. }
    assert (Hts : Forall (fun p => sklearn.known config.SEVERITY_LEVELS
                                     (EvaluationSystem.true_severity p) = true) ps)
      by (clear -Hps; induction Hps as [|p ps' [Hp _] _ IH]; constructor; assumption).
    assert (Hta : Forall (fun p => sklearn.known config.ACTIONS
                                     (EvaluationSystem.true_action p) = true) ps)
      by (clear -Hps; induction Hps as [|p ps' [_ Hp] _ IH]; constructor; assumption).
    destruct (calculate_metrics_returns ps Hps_ne Hts Hta) as (scm & acm & Hm).
    eexists. split; [simpl; exact Hm|].
    destruct (calculate_metrics_spec _ _ Hm) as (_ & Hs & Ha). simpl in Hs, Ha. simpl.
    assert (Hs' : EvaluationSystem.total scm = length (List.filter severity_in_list ps)).
    { rewrite Hs. unfold severity_samples.
      apply (counted_when_truth_known config.SEVERITY_LEVELS
               EvaluationSystem.true_severity
               (fun p => VStr (EvaluationSystem.predicted_severity p)) ps Hts). }
    assert (Ha' : EvaluationSystem.total acm = length (List.filter action_in_list ps)).
    { rewrite Ha. unfold action_samples.
      apply (counted_when_truth_known config.ACTIONS
               EvaluationSystem.true_action
               (fun p => VStr (EvaluationSystem.predicted_action p)) ps Hta). }
    split; [exact E|]. split; [exact Hs'|]. split; [exact Ha'|].
    split; intros Hall.
    + rewrite Hs', <- E. f_equal. apply forallb_filter_id. exact Hall.
    + rewrite Ha', <- E. f_equal. apply forallb_filter_id. exact Hall.
Qed.

Lemma confusion_matrix_totals_witness :
  (exists m,
      fst (EvaluationSystem.evaluate_system
             (EvaluationSystem.rule_based Sample.rt Sample.policies_df) tt
             [Sample.claim_text_prior; Sample.claim])
      = Ok m
      /\ length (EvaluationSystem.predictions m) = 2%nat
      /\ EvaluationSystem.total (EvaluationSystem.severity_confusion_matrix m)
         = length (List.filter severity_in_list (EvaluationSystem.predictions m))
      /\ EvaluationSystem.total (EvaluationSystem.action_confusion_matrix m)
         = length (List.filter action_in_list (EvaluationSystem.predictions m)))
  /\ match EvaluationSystem.evaluate_system
             (EvaluationSystem.rule_based Sample.rt Sample.policies_df) tt
             [Sample.claim_text_prior; Sample.claim] with
     | (Ok m, _) =>
         (EvaluationSystem.total (EvaluationSystem.severity_confusion_matrix m) <= 2)%nat
     | (Raise _, _) => False
     end.
Proof.
  destruct confusion_matrix_totals as (Hcounted & Hreturns).
  assert (Hw : well_labelled Sample.claim).
  { split; [eexists; reflexivity|].
    split; [exists "low" | exists "approve"]; (split; [simpl; auto | reflexivity]). }
  assert (Hw' : well_labelled Sample.claim_text_prior).
  { split; [eexists; reflexivity|].
    split; [exists "low" | exists "approve"]; (split; [simpl; auto | reflexivity]). }
  split.
  - destruct (Hreturns unit (EvaluationSystem.rule_based Sample.rt Sample.policies_df) tt
                [Sample.claim_text_prior; Sample.claim])
      as (m & Hm & Hlen & Hs & Ha & _).
    + discriminate.
    + constructor; [exact Hw'|]. constructor; [exact Hw|]. constructor.
    + exists m. repeat split; assumption.
  - destruct (EvaluationSystem.evaluate_system
                (EvaluationSystem.rule_based Sample.rt Sample.policies_df) tt
                [Sample.claim_text_prior; Sample.claim]) as [[m|e] st'] eqn:E.
    + destruct (Hcounted unit _ tt st' _ m E) as (_ & _ & _ & Hle & _). exact Hle.
    + vm_compute in E. discriminate E.
Defined.


(* ===================================================================== *)
(** ** Further properties of the rule chain and of the risk scorer *)
(* ===================================================================== *)

(** The amount interval of each severity. *)
Lemma determine_severity_spec (claim_amount : Q) :
  (RuleBasedSystem.determine_severity claim_amount = "low" <-> claim_amount < 5000)
  /\ (RuleBasedSystem.determine_severity claim_amount = "medium"
      <-> 5000 <= claim_amount /\ claim_amount < 25000)
  /\ (RuleBasedSystem.determine_severity claim_amount = "high"
      <-> 25000 <= claim_amount /\ claim_amount < 75000)
  /\ (RuleBasedSystem.determine_severity claim_amount = "critical"
      <-> 75000 <= claim_amount).
Proof.
  unfold RuleBasedSystem.determine_severity.
  destruct (Qlt_bool claim_amount 5000) eqn:E1;
    [apply Qlt_bool_iff in E1 | apply Qlt_bool_false_iff in E1];
  (destruct (Qlt_bool claim_amount 25000) eqn:E2;
    [apply Qlt_bool_iff in E2 | apply Qlt_bool_false_iff in E2]);
  (destruct (Qlt_bool claim_amount 75000) eqn:E3;
    [apply Qlt_bool_iff in E3 | apply Qlt_bool_false_iff in E3]);
  repeat split; intros; try discriminate; try lra.
Qed.

(** X1.  The severity bands are exactly the four amount intervals: low
    below 5,000, medium from 5,000 up to 25,000, high from 25,000 up to
    75,000 and critical from 75,000 on. *)
Theorem severity_bands (claim_amount : Q) :
  (RuleBasedSystem.determine_severity claim_amount = "low" <-> claim_amount < 5000)
  /\ (RuleBasedSystem.determine_severity claim_amount = "medium"
      <-> 5000 <= claim_amount /\ claim_amount < 25000)
  /\ (RuleBasedSystem.determine_severity claim_amount = "high"
      <-> 25000 <= claim_amount /\ claim_amount < 75000)
  /\ (RuleBasedSystem.determine_severity claim_amount = "critical"
      <-> 75000 <= claim_amount).
Proof. exact (determine_severity_spec claim_amount). Qed.

Lemma Qge_bool_false_iff (x y : Q) : Qge_bool x y = false <-> x < y.
Proof.
  unfold Qge_bool. rewrite <- not_true_iff_false, Qle_bool_iff.
  split; [apply Qnot_le_lt | apply Qlt_not_le].
Qed.

(** Turns the boolean comparisons among the hypotheses into order facts. *)
Ltac qbool :=
  repeat match goal with
         | H : Qlt_bool _ _ = true |- _ => apply Qlt_bool_iff in H
         | H : Qlt_bool _ _ = false |- _ => apply Qlt_bool_false_iff in H
         | H : Qge_bool _ _ = true |- _ => apply Qge_bool_iff in H
         | H : Qge_bool _ _ = false |- _ => apply Qge_bool_false_iff in H
         end.

(** Splits on the three severity tests and the six numeric tests of the
    rule chain. *)
Ltac rule_chain_cases severity risk_score prior_claims :=
  unfold RuleBasedSystem.determine_action;
  destruct (String.eqb_spec severity "low");
  destruct (String.eqb_spec severity "critical");
  destruct (String.eqb_spec severity "medium");
  try (subst; discriminate);
  destruct (Qlt_bool risk_score (3 # 10)) eqn:?;
  destruct (Qlt_bool prior_claims 2) eqn:?;
  destruct (Qge_bool risk_score (7 # 10)) eqn:?;
  destruct (Qge_bool risk_score (4 # 10)) eqn:?;
  destruct (Qge_bool prior_claims 3) eqn:?;
  destruct (Qlt_bool risk_score (4 # 10)) eqn:?;
  simpl; qbool.

(** When the rule chain escalates. *)
Lemma determine_action_escalate (severity : string) (risk_score prior_claims : Q) :
  RuleBasedSystem.determine_action severity risk_score prior_claims = "escalate"
  <-> severity = "critical" \/ 7 # 10 <= risk_score.
Proof.
  rule_chain_cases severity risk_score prior_claims;
    (split; [intros H; try discriminate H; try (left; assumption); try (right; assumption)
            | intros [H|H]; try reflexivity; try contradiction; try lra]).
Qed.

(** X2.  The rule chain escalates exactly when the severity is critical or
    the risk score is at least 0.7: the approve rule that is tested first
    never takes such a claim. *)
Theorem escalate_iff (severity : string) (risk_score prior_claims : Q) :
  RuleBasedSystem.determine_action severity risk_score prior_claims = "escalate"
  <-> severity = "critical" \/ 7 # 10 <= risk_score.
Proof. exact (determine_action_escalate severity risk_score prior_claims). Qed.

(** X3.  The rule chain approves exactly the low-severity claims with risk
    below 0.3 and fewer than 2 prior claims, and the medium-severity claims
    with risk below 0.4 and fewer than 3 prior claims; a high or critical
    claim is never approved. *)
Theorem approve_iff (severity : string) (risk_score prior_claims : Q) :
  RuleBasedSystem.determine_action severity risk_score prior_claims = "approve"
  <-> (severity = "low" /\ risk_score < 3 # 10 /\ prior_claims < 2)
      \/ (severity = "medium" /\ risk_score < 4 # 10 /\ prior_claims < 3).
Proof.
  rule_chain_cases severity risk_score prior_claims;
    (split;
     [intros H; try discriminate H;
      first [left; repeat split; (assumption || lra)
            | right; repeat split; (assumption || lra)]
     | intros [(Hs & Hr & Hp) | (Hs & Hr & Hp)];
       try reflexivity; try contradiction; try (subst; discriminate); try lra]).
Qed.

Lemma risk_factors_flags (a p t d : Q) (limit age : option Q) (loc : option string) :
  RiskScoringTool.risk_factors (RiskScoringTool.calculate_risk_score a p t d limit age loc)
  = factors_of_flags (RiskScoringTool.cond_amount a) (RiskScoringTool.cond_prior p)
                     (RiskScoringTool.cond_tenure t) (RiskScoringTool.cond_late d)
                     (RiskScoringTool.cond_coverage a limit) (RiskScoringTool.cond_age age)
                     (RiskScoringTool.cond_location loc).
Proof. reflexivity. Qed.

(** X4.  The returned factor list names each fired rule once, in the fixed
    order in which the scorer tests the rules: it is a subsequence of the
    seven factor names and has no repetition. *)
Theorem risk_factors_in_fixed_order
    (claim_amount prior_claims policy_tenure_years incident_to_report_days : Q)
    (coverage_limit claimant_age : option Q) (location : option string) :
  sublist (RiskScoringTool.risk_factors
             (RiskScoringTool.calculate_risk_score
                claim_amount prior_claims policy_tenure_years incident_to_report_days
                coverage_limit claimant_age location))
          all_factor_names
  /\ NoDup (RiskScoringTool.risk_factors
              (RiskScoringTool.calculate_risk_score
                 claim_amount prior_claims policy_tenure_years incident_to_report_days
                 coverage_limit claimant_age location)).
Proof.
  assert (Hnd : NoDup all_factor_names).
  { apply NoDup_ListNoDup. repeat constructor; simpl; intuition discriminate. }
  assert (Hsub : sublist (RiskScoringTool.risk_factors
                            (RiskScoringTool.calculate_risk_score
                               claim_amount prior_claims policy_tenure_years
                               incident_to_report_days coverage_limit claimant_age location))
                         all_factor_names).
  { rewrite risk_factors_flags.
    destruct (RiskScoringTool.cond_amount _), (RiskScoringTool.cond_prior _),
             (RiskScoringTool.cond_tenure _), (RiskScoringTool.cond_late _),
             (RiskScoringTool.cond_coverage _ _), (RiskScoringTool.cond_age _),
             (RiskScoringTool.cond_location _);
      cbv [factors_of_flags RiskScoringTool.bump snd fst app all_factor_names];
      repeat first [apply sublist_nil | apply sublist_skip | apply sublist_cons]. }
  split; [exact Hsub | exact (sublist_NoDup _ _ Hnd Hsub)].
Qed.

(** X5.  The returned score is accounted for by the returned factors: it
    is the sum of their weights, capped at 1; and it is 0 exactly when no
    factor is returned. *)
Theorem score_explained_by_factors
    (claim_amount prior_claims policy_tenure_years incident_to_report_days : Q)
    (coverage_limit claimant_age : option Q) (location : option string) :
  let r := RiskScoringTool.calculate_risk_score
             claim_amount prior_claims policy_tenure_years incident_to_report_days
             coverage_limit claimant_age location in
  RiskScoringTool.risk_score r
  == py_min (py_sum (List.map factor_weight (RiskScoringTool.risk_factors r))) 1
  /\ (RiskScoringTool.risk_factors r = [] <-> RiskScoringTool.risk_score r == 0).
Proof.
  cbv zeta. rewrite risk_factors_flags, risk_score_flags.
  destruct (RiskScoringTool.cond_amount _), (RiskScoringTool.cond_prior _),
           (RiskScoringTool.cond_tenure _), (RiskScoringTool.cond_late _),
           (RiskScoringTool.cond_coverage _ _), (RiskScoringTool.cond_age _),
           (RiskScoringTool.cond_location _);
    vm_compute; (split; [reflexivity | split; intros H; first [reflexivity | discriminate H]]).
Qed.


(* ===================================================================== *)
(** ** Policy lookup and the rule-based system *)
(* ===================================================================== *)

Section PolicyLookup.

Import PolicyLookupTool.

Lemma copy_columns_lookup (cols : list string) (row : gmap string pyval) :
  Forall (fun c => is_Some (row !! c)) cols ->
  exists info, copy_columns cols row = Ok info
               /\ (forall c, In c cols -> info !! c = row !! c)
               /\ (forall c, ~ In c cols -> info !! c = None).
Proof.
  induction 1 as [|c cols [v Hv] _ IH]; simpl.
  - exists ∅. split; [reflexivity|]. split; [intros c []|]. intros c _. apply lookup_empty.
  - destruct IH as (info & -> & Hin & Hout).
    unfold getitem. rewrite Hv. simpl. exists (<[c:=v]> info).
    split; [reflexivity|]. split.
    + intros c' Hc'. destruct (decide (c = c')) as [->|Hne].
      * rewrite lookup_insert_eq. symmetry. exact Hv.
      * rewrite lookup_insert_ne by exact Hne.
        destruct Hc' as [Heq|Hc']; [contradiction|]. apply Hin. exact Hc'.
    + intros c' Hc'. rewrite lookup_insert_ne by (intros ->; apply Hc'; left; reflexivity).
      apply Hout. intros Hin'. apply Hc'. right. exact Hin'.
Qed.

Lemma filter_head_find {A : Type} (f : A -> bool) (xs : list A) :
  match List.filter f xs with
  | [] => List.find f xs = None /\ Forall (fun x => f x = false) xs
  | x :: _ => List.find f xs = Some x
  end.
Proof.
  induction xs as [|x xs IH]; simpl; [split; [reflexivity | constructor]|].
  destruct (f x) eqn:E; [reflexivity|].
  destruct (List.filter f xs); [|exact IH].
  destruct IH as [Hf Hall]. split; [exact Hf | constructor; assumption].
Qed.

End PolicyLookup.

(** What [lookup] returns on a table with complete rows. *)
Lemma lookup_complete_spec (rt : Runtime) (policies_df : list (gmap string pyval))
    (policy_id : pyval) :
  Forall complete_row policies_df ->
  exists info,
    PolicyLookupTool.lookup rt policies_df policy_id = Ok info
    /\ match List.find (PolicyLookupTool.matches policy_id) policies_df with
       | None =>
           is_Some (info !! "error") /\ info !! "coverage_limit" = None
       | Some row =>
           info !! "error" = None
           /\ (forall c, In c PolicyLookupTool.policy_columns -> info !! c = row !! c)
           /\ (exists v, info !! "policy_id" = Some v /\ py_eq v policy_id = true)
       end.
Proof.
  intros Hrows. unfold PolicyLookupTool.lookup.
  destruct policies_df as [|first rest] eqn:Edf.
  - eexists. split; [reflexivity|]. simpl. split; [eexists; reflexivity | reflexivity].
  - rewrite <- Edf in *.
    assert (Hfirst : complete_row first) by (subst policies_df; inversion Hrows; assumption).
    assert (Hpid : is_Some (first !! "policy_id")).
    { unfold complete_row in Hfirst. inversion Hfirst; assumption. }
    destruct Hpid as [v0 Hv0]. unfold getitem at 1. rewrite Hv0. cbn [Py.bind].
    pose proof (filter_head_find (PolicyLookupTool.matches policy_id) policies_df) as Hff.
    destruct (List.filter (PolicyLookupTool.matches policy_id) policies_df) as [|row more].
    + destruct Hff as [-> _]. eexists. split; [reflexivity|].
      split; [eexists; apply lookup_singleton_eq | reflexivity].
    + rewrite Hff.
      assert (Hrow : complete_row row /\ PolicyLookupTool.matches policy_id row = true).
      { apply find_some in Hff. destruct Hff as [Hin Hm]. split; [|exact Hm].
        rewrite Forall_forall in Hrows. apply Hrows. apply list_elem_of_In. exact Hin. }
      destruct Hrow as [Hc Hm].
      destruct (copy_columns_lookup _ row Hc) as (info & Hinfo & Hin & Hout).
      exists info. split; [exact Hinfo|].
      split; [apply Hout; simpl; intuition discriminate|].
      split; [exact Hin|].
      unfold PolicyLookupTool.matches in Hm.
      destruct (row !! "policy_id") as [v|] eqn:Ev; [|discriminate].
      exists v. split; [|exact Hm]. rewrite <- Ev. apply Hin. left. reflexivity.
Qed.

(** X6.  On a policies table whose rows have all eight columns, [lookup]
    never raises.  When no row has the requested id (in particular on an
    empty table) it returns a dict with an ["error"] entry and no coverage
    limit; otherwise it returns the eight columns of the first row with
    that id, and no ["error"] entry. *)
Theorem lookup_on_complete_table (rt : Runtime) (policies_df : list (gmap string pyval))
    (policy_id : pyval) :
  Forall complete_row policies_df ->
  exists info,
    PolicyLookupTool.lookup rt policies_df policy_id = Ok info
    /\ match List.find (PolicyLookupTool.matches policy_id) policies_df with
       | None =>
           is_Some (info !! "error") /\ info !! "coverage_limit" = None
       | Some row =>
           info !! "error" = None
           /\ (forall c, In c PolicyLookupTool.policy_columns -> info !! c = row !! c)
           /\ (exists v, info !! "policy_id" = Some v /\ py_eq v policy_id = true)
       end.
Proof. exact (lookup_complete_spec rt policies_df policy_id). Qed.

Lemma lookup_on_complete_table_witness :
  exists info,
    PolicyLookupTool.lookup Sample.rt Sample.policies_df (VStr "POL-1234") = Ok info
    /\ info !! "coverage_limit" = Some (VInt 50000).
Proof.
  destruct (lookup_on_complete_table Sample.rt Sample.policies_df (VStr "POL-1234"))
    as (info & Hinfo & Hrow).
  - repeat constructor; eexists; reflexivity.
  - exists info. split; [exact Hinfo|].
    change (List.find (PolicyLookupTool.matches (VStr "POL-1234")) Sample.policies_df)
      with (List.hd_error Sample.policies_df) in Hrow.
    simpl in Hrow. destruct Hrow as (_ & Hcols & _).
    rewrite Hcols by (simpl; auto). reflexivity.
Defined.

(** X7.  A policy that is not in the table is handled like a missing
    policy database: on a table with complete rows none of which has the
    claim's policy id, the rule-based system returns exactly what it
    returns on an empty table, the coverage-limit rule being skipped. *)
Theorem unknown_policy_like_no_database (rt : Runtime)
    (policies_df : list (gmap string pyval)) (claim : Claim) (policy_id : pyval) :
  Forall complete_row policies_df ->
  claim !! "policy_id" = Some policy_id ->
  List.find (PolicyLookupTool.matches policy_id) policies_df = None ->
  RuleBasedSystem.process_claim rt policies_df claim
  = RuleBasedSystem.process_claim rt [] claim.
Proof.
  intros Hrows Hpid Hnone.
  destruct (lookup_complete_spec rt policies_df policy_id Hrows)
    as (info & Hinfo & Hshape).
  rewrite Hnone in Hshape. destruct Hshape as [_ Hcov].
  assert (Hget : getitem claim "policy_id" = Ok policy_id)
    by (unfold getitem; rewrite Hpid; reflexivity).
  assert (Hempty : RuleBasedSystem.coverage_limit_of
                     {[ "error" := VStr "Policy database not available" ]} = VNone).
  { unfold RuleBasedSystem.coverage_limit_of.
    rewrite lookup_singleton_ne by discriminate. reflexivity. }
  unfold RuleBasedSystem.process_claim. rewrite !Hget. cbn [Py.bind].
  rewrite Hinfo. cbn [Py.bind PolicyLookupTool.lookup]. rewrite Hempty.
  unfold RuleBasedSystem.coverage_limit_of. rewrite Hcov.
  reflexivity.
Qed.

Lemma unknown_policy_like_no_database_witness :
  RuleBasedSystem.process_claim Sample.rt Sample.policies_df
    (<["policy_id" := VStr "POL-9999"]> Sample.claim)
  = RuleBasedSystem.process_claim Sample.rt []
      (<["policy_id" := VStr "POL-9999"]> Sample.claim).
Proof.
  apply (unknown_policy_like_no_database Sample.rt Sample.policies_df
           (<["policy_id" := VStr "POL-9999"]> Sample.claim) (VStr "POL-9999")).
  - repeat constructor; eexists; reflexivity.
  - reflexivity.
  - reflexivity.
Defined.

Section RuleBasedTotal.

Lemma as_num_number (op : string) (v : pyval) :
  is_number v -> as_num op v = Ok (number_of v).
Proof. destruct v; simpl; intros H; first [reflexivity | contradiction]. Qed.

Lemma optional_num_number (msg : string) (v : pyval) :
  number_or_none v -> exists o, RiskScoringTool.optional_num msg v = Ok o.
Proof. destruct v; simpl; intros H; first [eexists; reflexivity | contradiction]. Qed.

(** The coverage limit that the rule-based system reads off the looked-up
    policy is a number or [None]. *)
Lemma lookup_coverage_limit (rt : Runtime) (policies_df : list (gmap string pyval))
    (policy_id : pyval) :
  well_formed_policies policies_df ->
  exists info,
    PolicyLookupTool.lookup rt policies_df policy_id = Ok info
    /\ number_or_none (RuleBasedSystem.coverage_limit_of info).
Proof.
  intros Hwf.
  assert (Hrows : Forall complete_row policies_df).
  { induction Hwf as [|row rows [Hc _] _ IH]; constructor; assumption. }
  destruct (lookup_complete_spec rt policies_df policy_id Hrows)
    as (info & Hinfo & Hshape).
  exists info. split; [exact Hinfo|].
  unfold RuleBasedSystem.coverage_limit_of.
  destruct (List.find (PolicyLookupTool.matches policy_id) policies_df) as [row|] eqn:Ef.
  - destruct Hshape as (_ & Hcols & _).
    rewrite Hcols by (simpl; auto).
    apply find_some in Ef. destruct Ef as [Hin _].
    unfold well_formed_policies in Hwf. rewrite Forall_forall in Hwf.
    destruct (Hwf row) as (_ & v & Hv & Hnum); [apply list_elem_of_In; exact Hin|].
    rewrite Hv. exact Hnum.
  - destruct Hshape as [_ ->]. exact I.
Qed.

End RuleBasedTotal.

(** What the rule-based system returns on well-formed data. *)
Lemma rule_based_well_formed_spec (rt : Runtime)
    (policies_df : list (gmap string pyval)) (claim : Claim) :
  well_formed_claim claim ->
  well_formed_policies policies_df ->
  exists d amount_v prior_v score,
    RuleBasedSystem.process_claim rt policies_df claim = Ok d
    /\ claim !! "claim_amount" = Some amount_v
    /\ claim !! "prior_claims" = Some prior_v
    /\ claim !! "claim_id" = Some (claim_id d)
    /\ severity d = RuleBasedSystem.determine_severity (number_of amount_v)
    /\ risk_score d = Some score
    /\ 0 <= score <= 1
    /\ action d = RuleBasedSystem.determine_action (severity d) score (number_of prior_v)
    /\ success d = None.
Proof.
  intros ([cid Hcid] & [pid Hpid] & (av & Hav & Han) & (pv & Hpv & Hpn)
          & (tv & Htv & Htn) & (gv & Hgv & Hgn) & [lv Hlv]) Hwf.
  destruct (lookup_coverage_limit rt policies_df pid Hwf) as (info & Hinfo & Hcov).
  destruct (optional_num_number "can't multiply sequence by non-int of type 'float'"
              _ Hcov) as [limit Hlimit].
  destruct (optional_num_number "'<' not supported between instances of 'str' and 'int'"
              _ Hgn) as [age Hage].
  eexists _, av, pv, _.
  unfold RuleBasedSystem.process_claim, getitem. rewrite Hpid, Hav, Hpv, Htv, Hgv, Hlv, Hcid.
  cbn [Py.bind]. rewrite Hinfo. cbn [Py.bind].
  unfold RiskScoringTool.calculate_risk_score_on_values.
  rewrite !(as_num_number _ _ Han), !(as_num_number _ _ Hpn), !(as_num_number _ _ Htn).
  cbn [Py.bind]. rewrite Hlimit, Hage. cbn [Py.bind].
  split; [reflexivity|]. cbn [claim_id severity action risk_score success].
  repeat split; try reflexivity; rewrite risk_score_flags; apply score_flags_bounds.
Qed.

(** X8.  On a claim whose fields are present with numbers where the
    rule-based system computes, and a policies table with complete rows and
    numeric coverage limits, [process_claim] returns a Decision: it carries
    the claim's id, the severity of the amount's band, an action of the
    rule chain on the returned score, a risk score between 0 and 1, and no
    success flag. *)
Theorem rule_based_returns_on_well_formed (rt : Runtime)
    (policies_df : list (gmap string pyval)) (claim : Claim) :
  well_formed_claim claim ->
  well_formed_policies policies_df ->
  exists d amount_v prior_v score,
    RuleBasedSystem.process_claim rt policies_df claim = Ok d
    /\ claim !! "claim_amount" = Some amount_v
    /\ claim !! "prior_claims" = Some prior_v
    /\ claim !! "claim_id" = Some (claim_id d)
    /\ severity d = RuleBasedSystem.determine_severity (number_of amount_v)
    /\ risk_score d = Some score
    /\ 0 <= score <= 1
    /\ action d = RuleBasedSystem.determine_action (severity d) score (number_of prior_v)
    /\ success d = None.
Proof. exact (rule_based_well_formed_spec rt policies_df claim). Qed.

Lemma rule_based_returns_on_well_formed_witness :
  exists d,
    RuleBasedSystem.process_claim Sample.rt Sample.policies_df Sample.claim = Ok d
    /\ severity d = RuleBasedSystem.determine_severity 2000
    /\ success d = None.
Proof.
  destruct (rule_based_returns_on_well_formed Sample.rt Sample.policies_df Sample.claim)
    as (d & av & pv & score & Hd & Hav & _ & _ & Hsev & _ & _ & _ & Hs).
  - split; [eexists; reflexivity|]. split; [eexists; reflexivity|].
    split; [exists (VFloat 2000); split; [reflexivity | exact I]|].
    split; [exists (VInt 0); split; [reflexivity | exact I]|].
    split; [exists (VInt 5); split; [reflexivity | exact I]|].
    split; [exists (VInt 40); split; [reflexivity | exact I]|].
    eexists; reflexivity.
  - constructor; [|constructor]. split.
    + repeat constructor; eexists; reflexivity.
    + exists (VInt 50000). split; [reflexivity | exact I].
  - exists d. split; [exact Hd|]. split; [|exact Hs].
    rewrite Hsev. change (Sample.claim !! "claim_amount") with (Some (VFloat 2000)) in Hav.
    injection Hav as <-. reflexivity.
Defined.

(* ===================================================================== *)
(** ** Further properties of the label parsers and of the two strategies
       that use them *)
(* ===================================================================== *)

Section Parsers.

Lemma lower_ascii_idem (c : ascii) : Str.lower_ascii (Str.lower_ascii c) = Str.lower_ascii c.
Proof. destruct c as [[] [] [] [] [] [] [] []]; reflexivity. Qed.

Lemma lower_idem (s : string) : Str.lower (Str.lower s) = Str.lower s.
Proof.
  induction s as [|c s IH]; simpl; [reflexivity|].
  rewrite lower_ascii_idem, IH. reflexivity.
Qed.

Lemma first_label_in (labels : list string) (text default : string) (vocabulary : list string) :
  incl labels vocabulary -> In default vocabulary ->
  In (InsuranceClaimsAgent.first_label labels text default) vocabulary.
Proof.
  induction labels as [|l rest IH]; simpl; intros Hincl Hdef; [exact Hdef|].
  destruct (Str.contains l text).
  - apply Hincl. left. reflexivity.
  - apply IH; [|exact Hdef]. intros x Hx. apply Hincl. right. exact Hx.
Qed.

Lemma parse_decision_in_vocabulary (output : string) :
  In (fst (InsuranceClaimsAgent._parse_decision output)) config.SEVERITY_LEVELS
  /\ In (snd (InsuranceClaimsAgent._parse_decision output)) config.ACTIONS.
Proof.
  unfold InsuranceClaimsAgent._parse_decision. cbn [fst snd].
  split; apply first_label_in; try (intros x Hx; exact Hx); simpl; auto.
Qed.

Lemma parse_response_eq (output : string) :
  OneShotLLMSystem._parse_response output = InsuranceClaimsAgent._parse_decision output.
Proof.
  unfold OneShotLLMSystem._parse_response, InsuranceClaimsAgent._parse_decision.
  rewrite !one_shot_first_label_eq. reflexivity.
Qed.

End Parsers.

(** X9.  Whatever the output text, both parsers return a severity from the
    severity list and an action from the action list, and the result does
    not depend on the case of the letters of the text. *)
Theorem parsed_labels_in_vocabulary (output : string) :
  In (fst (InsuranceClaimsAgent._parse_decision output)) config.SEVERITY_LEVELS
  /\ In (snd (InsuranceClaimsAgent._parse_decision output)) config.ACTIONS
  /\ In (fst (OneShotLLMSystem._parse_response output)) config.SEVERITY_LEVELS
  /\ In (snd (OneShotLLMSystem._parse_response output)) config.ACTIONS
  /\ InsuranceClaimsAgent._parse_decision (Str.lower output)
     = InsuranceClaimsAgent._parse_decision output
  /\ OneShotLLMSystem._parse_response (Str.lower output)
     = OneShotLLMSystem._parse_response output.
Proof.
  pose proof (parse_response_eq output) as Heq. rewrite Heq.
  destruct (parse_decision_in_vocabulary output) as [Hs Ha].
  repeat split; try assumption.
  - unfold InsuranceClaimsAgent._parse_decision. rewrite lower_idem. reflexivity.
  - unfold OneShotLLMSystem._parse_response. rewrite lower_idem. reflexivity.
Qed.

(** When the single-shot strategy returns, and what. *)
Lemma one_shot_spec {B : Type} (rt : Runtime)
    (llm : OneShotLLMSystem.Backend B) (b : B) (claim : Claim) :
  is_ok (fst (OneShotLLMSystem.process_claim rt llm b claim))
  = is_ok (OneShotLLMSystem.prompt rt claim)
  /\ forall d, fst (OneShotLLMSystem.process_claim rt llm b claim) = Ok d ->
               In (severity d) config.SEVERITY_LEVELS
               /\ In (action d) config.ACTIONS
               /\ success d = None.
Proof.
  unfold OneShotLLMSystem.process_claim.
  destruct (OneShotLLMSystem.prompt rt claim) as [text|e] eqn:Ep;
    [|split; [reflexivity | intros d H; discriminate H]].
  apply bind_ok in Ep. destruct Ep as (cid & Hcid & _).
  destruct (llm b text) as [[output|e] b']; unfold OneShotLLMSystem.on_error;
    rewrite ?Hcid; cbn [Py.bind fst].
  - destruct (parse_decision_in_vocabulary output) as (Hs & Ha).
    rewrite <- parse_response_eq in Hs, Ha.
    destruct (OneShotLLMSystem._parse_response output) as [sev act].
    split; [reflexivity|]. intros d H. injection H as <-.
    simpl. auto.
  - split; [reflexivity|]. intros d H. injection H as <-. simpl. auto 10.
Qed.

(** X10.  The single-shot strategy returns a Decision exactly when its
    prompt can be built from the claim, whatever the language-model service
    does; the Decision always has a severity from the severity list and an
    action from the action list, and never a success flag. *)
Theorem one_shot_returns_iff_prompt {B : Type} (rt : Runtime)
    (llm : OneShotLLMSystem.Backend B) (b : B) (claim : Claim) :
  is_ok (fst (OneShotLLMSystem.process_claim rt llm b claim))
  = is_ok (OneShotLLMSystem.prompt rt claim)
  /\ forall d, fst (OneShotLLMSystem.process_claim rt llm b claim) = Ok d ->
               In (severity d) config.SEVERITY_LEVELS
               /\ In (action d) config.ACTIONS
               /\ success d = None.
Proof. exact (one_shot_spec rt llm b claim). Qed.

(** When the iterative agent returns, and what. *)
Lemma agent_spec {B : Type} (rt : Runtime)
    (agent : InsuranceClaimsAgent.Backend B) (st : B * ClaimsLogger.log) (claim : Claim) :
  is_ok (fst (InsuranceClaimsAgent.process_claim rt agent st claim))
  = is_ok (InsuranceClaimsAgent.input_text rt claim (incident_to_report_days rt claim))
  /\ forall d, fst (InsuranceClaimsAgent.process_claim rt agent st claim) = Ok d ->
               (success d = Some true
                /\ In (severity d) config.SEVERITY_LEVELS
                /\ In (action d) config.ACTIONS)
               \/ (success d = Some false
                   /\ severity d = "unknown" /\ action d = "escalate").
Proof.
  destruct st as [b entries]. unfold InsuranceClaimsAgent.process_claim.
  destruct (InsuranceClaimsAgent.input_text rt claim (incident_to_report_days rt claim))
    as [text|e] eqn:Ep;
    [|split; [reflexivity | intros d H; discriminate H]].
  apply bind_ok in Ep. destruct Ep as (cid & Hcid & _).
  destruct (agent b text) as [[tools [r|e]] b'];
    unfold InsuranceClaimsAgent.on_reply, InsuranceClaimsAgent.on_error;
    cbn [InsuranceClaimsAgent.reply InsuranceClaimsAgent.tool_entries].
  - match goal with
    | |- context [InsuranceClaimsAgent._parse_decision ?o] =>
        destruct (parse_decision_in_vocabulary o) as (Hs & Ha);
        destruct (InsuranceClaimsAgent._parse_decision o) as [sev act]
    end.
    rewrite Hcid. cbn [fst]. split; [reflexivity|].
    intros d H. injection H as <-. left. simpl. auto.
  - rewrite Hcid. cbn [fst]. split; [reflexivity|].
    intros d H. injection H as <-. right. simpl. auto.
Qed.

(** X11.  The iterative agent returns a Decision exactly when its input
    text can be built from the claim, whatever the agent loop does.  The
    Decision is either a success, with a severity from the severity list
    and an action from the action list, or the fail-safe one with severity
    unknown, action escalate and success false. *)
Theorem agent_returns_iff_input_text {B : Type} (rt : Runtime)
    (agent : InsuranceClaimsAgent.Backend B) (st : B * ClaimsLogger.log) (claim : Claim) :
  is_ok (fst (InsuranceClaimsAgent.process_claim rt agent st claim))
  = is_ok (InsuranceClaimsAgent.input_text rt claim (incident_to_report_days rt claim))
  /\ forall d, fst (InsuranceClaimsAgent.process_claim rt agent st claim) = Ok d ->
               (success d = Some true
                /\ In (severity d) config.SEVERITY_LEVELS
                /\ In (action d) config.ACTIONS)
               \/ (success d = Some false
                   /\ severity d = "unknown" /\ action d = "escalate").
Proof. exact (agent_spec rt agent st claim). Qed.

Lemma one_shot_returns_iff_prompt_witness :
  is_ok (fst (OneShotLLMSystem.process_claim Sample.rt Sample.llm_down tt Sample.claim)) = true
  /\ exists d,
       fst (OneShotLLMSystem.process_claim Sample.rt Sample.llm_down tt Sample.claim) = Ok d
       /\ In (severity d) config.SEVERITY_LEVELS.
Proof.
  destruct (one_shot_returns_iff_prompt Sample.rt Sample.llm_down tt Sample.claim)
    as [Hok Hd].
  split; [rewrite Hok; reflexivity|].
  destruct (fst (OneShotLLMSystem.process_claim Sample.rt Sample.llm_down tt Sample.claim))
    as [d|e] eqn:E; [|discriminate Hok].
  exists d. split; [reflexivity|]. apply (Hd d eq_refl).
Defined.

Lemma agent_returns_iff_input_text_witness :
  exists d,
    fst (InsuranceClaimsAgent.process_claim Sample.rt Sample.agent_down (tt, []) Sample.claim)
    = Ok d
    /\ ((success d = Some true
         /\ In (severity d) config.SEVERITY_LEVELS /\ In (action d) config.ACTIONS)
        \/ (success d = Some false /\ severity d = "unknown" /\ action d = "escalate")).
Proof.
  destruct (agent_returns_iff_input_text Sample.rt Sample.agent_down (tt, []) Sample.claim)
    as [Hok Hd].
  destruct (fst (InsuranceClaimsAgent.process_claim Sample.rt Sample.agent_down (tt, [])
                   Sample.claim)) as [d|e] eqn:E; [|discriminate Hok].
  exists d. split; [reflexivity|]. apply (Hd d eq_refl).
Defined.

Section AgentLog.

Import ClaimsLogger.

Lemma total_decisions_app (l1 l2 : log) :
  total_decisions (l1 ++ l2) = (total_decisions l1 + total_decisions l2)%nat.
Proof. unfold total_decisions. rewrite List.filter_app, length_app. reflexivity. Qed.

Lemma overrides_app (l1 l2 : log) :
  overrides (l1 ++ l2) = (overrides l1 + overrides l2)%nat.
Proof. unfold overrides. rewrite List.filter_app, length_app. reflexivity. Qed.

Lemma tool_calls_no_decisions (tools : log) :
  Forall (fun e => is_tool_call e = true) tools ->
  total_decisions tools = 0%nat /\ overrides tools = 0%nat.
Proof.
  induction 1 as [|e tools He _ [IH1 IH2]]; [split; reflexivity|].
  destruct e; try discriminate He. split; [exact IH1 | exact IH2].
Qed.

End AgentLog.

(** X12.  Processing a claim with the agent only appends to its log,
    starting with a claim_received entry.  When the tool wrappers of the
    agent loop append tool-call entries only, the number of completed
    decisions in the log grows by one exactly when the returned Decision
    is a success, and the number of overrides does not change. *)
Theorem agent_log_growth {B : Type} (rt : Runtime)
    (agent : InsuranceClaimsAgent.Backend B) (b : B) (entries : ClaimsLogger.log)
    (claim : Claim) :
  (forall b0 text,
      Forall (fun e => ClaimsLogger.is_tool_call e = true)
             (InsuranceClaimsAgent.tool_entries (fst (agent b0 text)))) ->
  let res := InsuranceClaimsAgent.process_claim rt agent (b, entries) claim in
  (exists more,
      snd (snd res) = entries ++ ClaimsLogger.agent_step "claim_received" claim :: more)
  /\ ClaimsLogger.total_decisions (snd (snd res))
     = (ClaimsLogger.total_decisions entries
        + match fst res with
          | Ok d => match success d with Some true => 1 | _ => 0 end
          | Raise _ => 0
          end)%nat
  /\ ClaimsLogger.overrides (snd (snd res)) = ClaimsLogger.overrides entries.
Proof.
  intros Htools. cbv zeta. unfold InsuranceClaimsAgent.process_claim.
  unfold ClaimsLogger.log_agent_step, ClaimsLogger._add_entry.
  assert (Hstep : forall name data,
             ClaimsLogger.overrides [ClaimsLogger.agent_step name data] = 0%nat)
    by reflexivity.
  assert (Hrecv : ClaimsLogger.total_decisions
                    [ClaimsLogger.agent_step "claim_received" claim] = 0%nat)
    by reflexivity.
  assert (Hdone : forall data,
             ClaimsLogger.total_decisions
               [ClaimsLogger.agent_step "claim_processed" data] = 1%nat)
    by reflexivity.
  assert (Hfail : forall data,
             ClaimsLogger.total_decisions
               [ClaimsLogger.agent_step "claim_error" data] = 0%nat)
    by reflexivity.
  destruct (InsuranceClaimsAgent.input_text rt claim (incident_to_report_days rt claim))
    as [text|e] eqn:Ep.
  2:{ cbn [fst snd]. split; [exists []; reflexivity|].
      rewrite total_decisions_app, overrides_app, Hrecv, Hstep. split; lia. }
  apply bind_ok in Ep. destruct Ep as (cid & Hcid & _).
  specialize (Htools b text).
  destruct (agent b text) as [[tools outcome] b'].
  cbn [fst InsuranceClaimsAgent.tool_entries] in Htools.
  destruct (tool_calls_no_decisions tools Htools) as [Ht Ho].
  cbn [InsuranceClaimsAgent.reply InsuranceClaimsAgent.tool_entries].
  unfold InsuranceClaimsAgent.on_reply, InsuranceClaimsAgent.on_error,
    ClaimsLogger.log_agent_step, ClaimsLogger._add_entry.
  destruct outcome as [r|e].
  - destruct (InsuranceClaimsAgent._parse_decision _) as [sev act].
    rewrite Hcid. cbn [fst snd success].
    split; [eexists; rewrite <- !app_assoc; reflexivity|].
    rewrite !total_decisions_app, !overrides_app, Ht, Ho, Hrecv, Hdone, !Hstep.
    split; lia.
  - rewrite Hcid. cbn [fst snd success].
    split; [eexists; rewrite <- !app_assoc; reflexivity|].
    rewrite !total_decisions_app, !overrides_app, Ht, Ho, Hrecv, Hfail, !Hstep.
    split; lia.
Qed.

Lemma agent_log_growth_witness :
  ClaimsLogger.total_decisions
    (snd (snd (InsuranceClaimsAgent.process_claim Sample.rt Sample.agent_down (tt, [])
                 Sample.claim)))
  = 0%nat.
Proof.
  destruct (agent_log_growth Sample.rt Sample.agent_down tt [] Sample.claim)
    as (_ & Hn & _).
  - intros b0 text. constructor.
  - etransitivity; [exact Hn | reflexivity].
Defined.

(* ===================================================================== *)
(** ** Further properties of the harness *)
(* ===================================================================== *)

Section HarnessAlignment.

Import EvaluationSystem.

Lemma getitem_inv (d : Claim) (key : string) (v : pyval) :
  getitem d key = Ok v -> d !! key = Some v.
Proof. unfold getitem. destruct (d !! key); intros H; [injection H as ->; reflexivity | discriminate H]. Qed.

Lemma prediction_of_for (claim_dict : Claim) (d : Decision) (p : Prediction) :
  prediction_of claim_dict d = Ok p -> prediction_for claim_dict p.
Proof.
  unfold prediction_of. intros H.
  apply bind_ok in H. destruct H as (cid & Hc & H).
  apply bind_ok in H. destruct H as (ts & Hs & H).
  apply bind_ok in H. destruct H as (ta & Ha & H).
  injection H as <-. repeat split; simpl; apply getitem_inv; assumption.
Qed.

Lemma fallback_prediction_for (claim_dict : Claim) (p : Prediction) :
  fallback_prediction claim_dict = Ok p -> prediction_for claim_dict p.
Proof.
  unfold fallback_prediction. intros H.
  apply bind_ok in H. destruct H as (cid & Hc & H).
  apply bind_ok in H. destruct H as (ts & Hs & H).
  apply bind_ok in H. destruct H as (ta & Ha & H).
  injection H as <-. repeat split; simpl; apply getitem_inv; assumption.
Qed.

Lemma evaluate_claim_for {S : Type} (system : System S) (st : S) (claim_dict : Claim)
    (p : Prediction) :
  fst (evaluate_claim system st claim_dict) = Ok p -> prediction_for claim_dict p.
Proof.
  unfold evaluate_claim. destruct (system st claim_dict) as [[d|e] st']; cbn [Py.bind].
  - destruct (prediction_of claim_dict d) as [p'|e] eqn:E; cbn [fst].
    + intros H. injection H as <-. eapply prediction_of_for. exact E.
    + apply fallback_prediction_for.
  - cbn [fst]. apply fallback_prediction_for.
Qed.

End HarnessAlignment.

(** The predictions follow the claims, one for one. *)
Lemma predictions_of_aligned {S : Type} (system : EvaluationSystem.System S)
    (test_claims : list Claim) :
  forall (st : S) (ps : list EvaluationSystem.Prediction),
    fst (EvaluationSystem.predictions_of system st test_claims) = Ok ps ->
    Forall2 prediction_for test_claims ps.
Proof.
  induction test_claims as [|c rest IH]; intros st ps; simpl.
  - intros H. injection H as <-. constructor.
  - destruct (EvaluationSystem.evaluate_claim system st c) as [[p|e] st1] eqn:E;
      [|discriminate].
    destruct (EvaluationSystem.predictions_of system st1 rest) as [[ps'|e] st2] eqn:E';
      [|discriminate].
    cbn [fst]. intros H. injection H as <-. constructor.
    + apply (evaluate_claim_for system st c p). rewrite E. reflexivity.
    + apply (IH st1). rewrite E'. reflexivity.
Qed.

(** X13.  When the loop over the claims ends, the predictions are in the
    order of the claims: the i-th prediction carries the id and the two
    ground-truth labels of the i-th claim, whichever branch produced it. *)
Theorem predictions_aligned_with_claims {S : Type} (system : EvaluationSystem.System S)
    (test_claims : list Claim) :
  forall (st : S) (ps : list EvaluationSystem.Prediction),
    fst (EvaluationSystem.predictions_of system st test_claims) = Ok ps ->
    Forall2 prediction_for test_claims ps.
Proof. exact (predictions_of_aligned system test_claims). Qed.

Lemma predictions_aligned_with_claims_witness :
  exists ps,
    fst (EvaluationSystem.predictions_of
           (EvaluationSystem.rule_based Sample.rt Sample.policies_df) tt
           [Sample.claim_text_prior; Sample.claim]) = Ok ps
    /\ Forall2 prediction_for [Sample.claim_text_prior; Sample.claim] ps.
Proof.
  destruct (fst (EvaluationSystem.predictions_of
                   (EvaluationSystem.rule_based Sample.rt Sample.policies_df) tt
                   [Sample.claim_text_prior; Sample.claim])) as [ps|e] eqn:E.
  - exists ps. split; [reflexivity|].
    exact (predictions_aligned_with_claims _ _ tt ps E).
  - vm_compute in E. discriminate E.
Defined.

(** X14.  The loop over the claims reaches the end of the batch exactly
    when every claim carries the claim id and the two ground-truth fields,
    whatever the strategy does: a claim without one of them makes the
    exception handler itself raise, which ends the run. *)
Theorem batch_completes_iff_harness_keys {S : Type} (system : EvaluationSystem.System S)
    (st : S) (test_claims : list Claim) :
  is_ok (fst (EvaluationSystem.predictions_of system st test_claims)) = true
  <-> Forall has_harness_keys test_claims.
Proof.
  split.
  - destruct (fst (EvaluationSystem.predictions_of system st test_claims)) as [ps|e] eqn:E;
      [intros _ | discriminate].
    apply predictions_of_aligned in E.
    induction E as [|c p cs ps (Hc & Hs & Ha) _ IH]; constructor; [|exact IH].
    unfold has_harness_keys. rewrite Hc, Hs, Ha. repeat split; eexists; reflexivity.
  - intros Hk. destruct (predictions_of_ok system test_claims Hk st) as (ps & -> & _).
    reflexivity.
Qed.

(** X15.  [get_override_rate] never raises: it returns a number that is
    not negative, and when the log has completed decisions that number is
    the count of overrides divided by the count of completed decisions. *)
Theorem override_rate_never_raises (entries : ClaimsLogger.log) :
  exists rate,
    ClaimsLogger.get_override_rate entries = Ok rate
    /\ 0 <= rate
    /\ (ClaimsLogger.total_decisions entries <> 0%nat ->
        rate == inject_Z (Z.of_nat (ClaimsLogger.overrides entries))
                / inject_Z (Z.of_nat (ClaimsLogger.total_decisions entries))).
Proof.
  unfold ClaimsLogger.get_override_rate, truediv.
  destruct (ClaimsLogger.total_decisions entries) as [|n] eqn:En.
  - exists 0. split; [reflexivity|]. split; [apply Qle_refl | intros H; contradiction].
  - cbn [Nat.eqb]. destruct (Z.eqb_spec (Z.of_nat (S n)) 0) as [H0|_]; [lia|].
    eexists. split; [reflexivity|]. split; [|intros _; reflexivity].
    apply Qle_shift_div_l.
    + change 0 with (inject_Z 0). rewrite <- Zlt_Qlt. lia.
    + rewrite Qmult_0_l. change 0 with (inject_Z 0). rewrite <- Zle_Qle. lia.
Qed.


(* ===================================================================== *)
(** ** Queries on the audit log *)
(* ===================================================================== *)

Section LogQueries.

Import ClaimsLogger.

Lemma filter_sublist {A : Type} (f : A -> bool) (xs : list A) :
  sublist (List.filter f xs) xs.
Proof.
  induction xs as [|x xs IH]; simpl; [constructor|].
  destruct (f x); [apply sublist_skip | apply sublist_cons]; exact IH.
Qed.

Lemma filter_Forall {A : Type} (f : A -> bool) (xs : list A) :
  Forall (fun x => f x = true) (List.filter f xs).
Proof.
  induction xs as [|x xs IH]; simpl; [constructor|].
  destruct (f x) eqn:E; [constructor; assumption | exact IH].
Qed.

Lemma Forall_filter_keep {A : Type} (P : A -> Prop) (f : A -> bool) (xs : list A) :
  Forall P xs -> Forall P (List.filter f xs).
Proof.
  induction 1 as [|x xs Hx _ IH]; simpl; [constructor|].
  destruct (f x); [constructor; assumption | exact IH].
Qed.

Lemma mentions_claim_type (c : string) (e : entry) :
  mentions_claim c e = true ->
  entry_type e = "agent_step" \/ entry_type e = "human_override".
Proof. destruct e; simpl; intros H; first [discriminate H | auto]. Qed.

End LogQueries.

(** X16.  [get_logs] returns entries of the log in their order of
    insertion, without repetition or invention; with a type filter every
    returned entry has that type; with a claim filter every returned entry
    is an agent step or a human override, so tool calls, evaluations and
    errors are never returned for a claim; and with no filter, or with
    empty-string filters, the whole log comes back. *)
Theorem get_logs_filters (entries : ClaimsLogger.log) (log_type claim_id : option string) :
  sublist (ClaimsLogger.get_logs entries log_type claim_id) entries
  /\ (forall t, ClaimsLogger.filter_arg log_type = Some t ->
                Forall (fun e => ClaimsLogger.entry_type e = t)
                       (ClaimsLogger.get_logs entries log_type claim_id))
  /\ (forall c, ClaimsLogger.filter_arg claim_id = Some c ->
                Forall (fun e => ClaimsLogger.mentions_claim c e = true
                                 /\ (ClaimsLogger.entry_type e = "agent_step"
                                     \/ ClaimsLogger.entry_type e = "human_override"))
                       (ClaimsLogger.get_logs entries log_type claim_id))
  /\ ClaimsLogger.get_logs entries None None = entries
  /\ ClaimsLogger.get_logs entries (Some "") (Some "") = entries.
Proof.
  unfold ClaimsLogger.get_logs.
  split; [|split; [|split; [|split; reflexivity]]].
  - destruct (ClaimsLogger.filter_arg log_type), (ClaimsLogger.filter_arg claim_id);
      try reflexivity; try apply filter_sublist.
    etransitivity; apply filter_sublist.
  - intros t ->.
    assert (H : Forall (fun e => ClaimsLogger.entry_type e = t)
                       (List.filter (fun e => String.eqb (ClaimsLogger.entry_type e) t)
                                    entries)).
    { eapply Forall_impl; [apply filter_Forall|].
      intros e He. apply String.eqb_eq. exact He. }
    destruct (ClaimsLogger.filter_arg claim_id); [apply Forall_filter_keep|]; exact H.
  - intros c ->. eapply Forall_impl; [apply filter_Forall|].
    intros e He. split; [exact He | eapply mentions_claim_type; exact He].
Qed.

Lemma get_logs_filters_witness :
  Forall (fun e => ClaimsLogger.entry_type e = "human_override")
         (ClaimsLogger.get_logs
            (ClaimsLogger.log_human_override
               (ClaimsLogger.log_agent_step [] "claim_received" Sample.claim)
               "CLM-00001" ∅ ∅ None)
            (Some "human_override") None).
Proof.
  destruct (get_logs_filters
              (ClaimsLogger.log_human_override
                 (ClaimsLogger.log_agent_step [] "claim_received" Sample.claim)
                 "CLM-00001" ∅ ∅ None)
              (Some "human_override") None) as (_ & Htype & _).
  apply Htype. reflexivity.
Defined.

(** X17.  An override that has been logged is found again: after
    [log_human_override] for a claim id that is not empty, the overrides
    that [get_logs] returns for that claim are those it returned before,
    followed by the new one; the overrides returned for any other claim
    id that is not empty are unchanged. *)
Theorem logged_override_is_found (entries : ClaimsLogger.log) (claim_id other : string)
    (original_decision override_decision : gmap string pyval) (reason : option string) :
  claim_id <> "" ->
  other <> "" ->
  other <> claim_id ->
  let entries' := ClaimsLogger.log_human_override entries claim_id original_decision
                    override_decision reason in
  ClaimsLogger.get_logs entries' (Some "human_override") (Some claim_id)
  = ClaimsLogger.get_logs entries (Some "human_override") (Some claim_id)
    ++ [ClaimsLogger.human_override claim_id original_decision override_decision reason]
  /\ ClaimsLogger.get_logs entries' (Some "human_override") (Some other)
     = ClaimsLogger.get_logs entries (Some "human_override") (Some other).
Proof.
  intros Hne Hne' Hother. cbv zeta.
  unfold ClaimsLogger.get_logs, ClaimsLogger.log_human_override, ClaimsLogger._add_entry.
  assert (Hc : ClaimsLogger.filter_arg (Some claim_id) = Some claim_id).
  { destruct claim_id; [contradiction | reflexivity]. }
  assert (Ho : ClaimsLogger.filter_arg (Some other) = Some other).
  { destruct other; [contradiction | reflexivity]. }
  rewrite Hc, Ho. change (ClaimsLogger.filter_arg (Some "human_override"))
    with (Some "human_override").
  cbv beta iota zeta. rewrite !List.filter_app.
  change (List.filter (fun e => String.eqb (ClaimsLogger.entry_type e) "human_override")
            [ClaimsLogger.human_override claim_id original_decision override_decision reason])
    with [ClaimsLogger.human_override claim_id original_decision override_decision reason].
  cbn [List.filter ClaimsLogger.mentions_claim].
  rewrite String.eqb_refl.
  destruct (String.eqb_spec claim_id other) as [Heq|_]; [symmetry in Heq; contradiction|].
  rewrite app_nil_r. split; reflexivity.
Qed.

Lemma logged_override_is_found_witness :
  ClaimsLogger.get_logs
    (ClaimsLogger.log_human_override
       (ClaimsLogger.log_agent_step [] "claim_received" Sample.claim)
       "CLM-00001" ∅ ∅ None)
    (Some "human_override") (Some "CLM-00001")
  = [ClaimsLogger.human_override "CLM-00001" ∅ ∅ None].
Proof.
  destruct (logged_override_is_found
              (ClaimsLogger.log_agent_step [] "claim_received" Sample.claim)
              "CLM-00001" "CLM-00002" ∅ ∅ None) as [Hfound _];
    [discriminate | discriminate | discriminate |].
  etransitivity; [exact Hfound | reflexivity].
Defined.

Section ToolCallStats.

Import ClaimsLogger.

Lemma sum_counts_bump (counts : gmap string nat) (name : string) :
  sum_counts (<[name := (default 0%nat (counts !! name) + 1)%nat]> counts)
  = S (sum_counts counts).
Proof.
  unfold sum_counts.
  assert (Hcomm : forall (m : gmap string nat) (j1 j2 : string) (z1 z2 y : nat),
             j1 <> j2 -> m !! j1 = Some z1 -> m !! j2 = Some z2 ->
             (z1 + (z2 + y))%nat = (z2 + (z1 + y))%nat) by (intros; lia).
  destruct (counts !! name) as [n|] eqn:E; simpl.
  - rewrite <- insert_delete_eq.
    rewrite map_fold_insert_L;
      [|intros; lia | apply lookup_delete_eq].
    rewrite (map_fold_delete_L _ _ name n counts); [lia | intros; lia | exact E].
  - rewrite map_fold_insert_L; [lia | intros; lia | exact E].
Qed.

Lemma sum_counts_fold (calls : list entry) (counts : gmap string nat) :
  sum_counts (fold_left count_call calls counts) = (sum_counts counts + length calls)%nat.
Proof.
  revert counts. induction calls as [|c calls IH]; intros counts; simpl; [lia|].
  rewrite IH. unfold count_call. rewrite sum_counts_bump. lia.
Qed.

(** The count of one name after counting a list of calls. *)
Lemma fold_count_lookup (calls : list entry) (counts : gmap string nat) (name : string) :
  let n := length (List.filter (fun e => String.eqb (tool_name_of e) name) calls) in
  fold_left count_call calls counts !! name
  = if Nat.eqb n 0 then counts !! name
    else Some (default 0%nat (counts !! name) + n)%nat.
Proof.
  revert counts. induction calls as [|c calls IH]; intros counts; [reflexivity|].
  cbn [fold_left List.filter]. cbv zeta in IH |- *. rewrite IH. unfold count_call.
  destruct (String.eqb_spec (tool_name_of c) name) as [->|Hne].
  - rewrite lookup_insert_eq. cbn [length].
    destruct (length (List.filter _ calls)) as [|k]; simpl; f_equal; lia.
  - rewrite lookup_insert_ne by exact Hne. reflexivity.
Qed.

Lemma filter_filter_and {A : Type} (f g : A -> bool) (xs : list A) :
  List.filter g (List.filter f xs) = List.filter (fun x => f x && g x) xs.
Proof.
  induction xs as [|x xs IH]; simpl; [reflexivity|].
  destruct (f x); simpl; [destruct (g x)|]; rewrite IH; reflexivity.
Qed.

End ToolCallStats.

(** X18.  The tool-call statistics agree with the log: the total is the
    number of tool-call entries, a tool name has an entry in the per-tool
    dict exactly when it was called, its entry is the number of its calls,
    and the per-tool counts add up to the total.  A log without tool calls
    gives total 0 and an empty dict. *)
Theorem tool_call_stats_agree (entries : ClaimsLogger.log) :
  let stats := ClaimsLogger.get_tool_call_stats entries in
  ClaimsLogger.total_calls stats
  = length (List.filter ClaimsLogger.is_tool_call entries)
  /\ (forall name,
         ClaimsLogger.by_tool stats !! name
         = if Nat.eqb (calls_of name entries) 0 then None
           else Some (calls_of name entries))
  /\ sum_counts (ClaimsLogger.by_tool stats) = ClaimsLogger.total_calls stats.
Proof.
  cbv zeta. unfold ClaimsLogger.get_tool_call_stats.
  assert (Hcalls : forall name,
             calls_of name entries
             = length (List.filter
                         (fun e => String.eqb (ClaimsLogger.tool_name_of e) name)
                         (List.filter ClaimsLogger.is_tool_call entries))).
  { intros name. unfold calls_of. rewrite filter_filter_and. reflexivity. }
  destruct (List.filter ClaimsLogger.is_tool_call entries) as [|c calls] eqn:E.
  - cbn [ClaimsLogger.total_calls ClaimsLogger.by_tool].
    split; [reflexivity|]. split; [|reflexivity].
    intros name. rewrite Hcalls. reflexivity.
  - cbn [ClaimsLogger.total_calls ClaimsLogger.by_tool].
    split; [reflexivity|]. split.
    + intros name. rewrite Hcalls.
      pose proof (fold_count_lookup (c :: calls) ∅ name) as H. cbv zeta in H.
      rewrite H, lookup_empty. cbn [default]. reflexivity.
    + rewrite sum_counts_fold. reflexivity.
Qed.

(* ===================================================================== *)
(** ** The performance tracker *)
(* ===================================================================== *)

Section Tracker.

Import PerformanceTracker.

Lemma tracker_fold_counts (calls : list tracker_call) (m0 : metrics) :
  let m := fold_left tracker_step calls m0 in
  total_claims m = (total_claims m0 + length (List.filter is_record_claim calls))%nat
  /\ length (processing_times m)
     = (length (processing_times m0) + length (List.filter is_record_claim calls))%nat
  /\ length (decisions m)
     = (length (decisions m0) + length (List.filter is_record_claim calls))%nat
  /\ overrides m = (overrides m0 + length (List.filter is_record_override calls))%nat.
Proof.
  revert m0. induction calls as [|c calls IH]; intros m0; cbn [fold_left].
  - simpl. repeat split; lia.
  - specialize (IH (tracker_step m0 c)). cbv zeta in IH |- *.
    destruct IH as (H1 & H2 & H3 & H4). rewrite H1, H2, H3, H4.
    destruct c; simpl; rewrite ?length_app; simpl; repeat split; lia.
Qed.

End Tracker.

(** X19.  After any sequence of calls on a new tracker, the claim counter,
    the list of processing times and the list of decisions all have as many
    elements as there were [record_claim_processing] calls, and the
    override counter is the number of [record_override] calls. *)
Theorem tracker_counters_agree (calls : list tracker_call) :
  let m := tracker_after calls in
  PerformanceTracker.total_claims m = length (List.filter is_record_claim calls)
  /\ length (PerformanceTracker.processing_times m) = PerformanceTracker.total_claims m
  /\ length (PerformanceTracker.decisions m) = PerformanceTracker.total_claims m
  /\ PerformanceTracker.overrides m = length (List.filter is_record_override calls).
Proof.
  pose proof (tracker_fold_counts calls PerformanceTracker.init) as H.
  cbv zeta in H |- *. unfold tracker_after.
  destruct H as (H1 & H2 & H3 & H4). rewrite H1, H2, H3, H4. simpl. repeat split.
Qed.

(** X20.  [get_summary] never raises, on any tracker state: the average is
    taken over a list that is not empty and the override rate is divided by
    at least 1.  When no claim was recorded the override rate is the number
    of overrides itself, not 0. *)
Theorem tracker_summary_never_raises (m : PerformanceTracker.metrics) :
  exists s,
    PerformanceTracker.get_summary m = Ok s
    /\ PerformanceTracker.total_claims_processed s = PerformanceTracker.total_claims m
    /\ PerformanceTracker.total_overrides s = PerformanceTracker.overrides m
    /\ PerformanceTracker.override_rate s
       == inject_Z (Z.of_nat (PerformanceTracker.overrides m))
          / inject_Z (Z.max (Z.of_nat (PerformanceTracker.total_claims m)) 1)
    /\ (PerformanceTracker.total_claims m = 0%nat ->
        PerformanceTracker.override_rate s
        == inject_Z (Z.of_nat (PerformanceTracker.overrides m))).
Proof.
  unfold PerformanceTracker.get_summary.
  assert (Havg : exists avg,
             match PerformanceTracker.processing_times m with
             | [] => Ok 0
             | _ => float_div (py_sum (PerformanceTracker.processing_times m))
                      (inject_Z (Z.of_nat (length (PerformanceTracker.processing_times m))))
             end = Ok avg).
  { destruct (PerformanceTracker.processing_times m) as [|t ts]; [eexists; reflexivity|].
    unfold float_div.
    destruct (Qeq_bool (inject_Z (Z.of_nat (length (t :: ts)))) 0) eqn:E;
      [|eexists; reflexivity].
    apply Qeq_bool_iff in E. unfold Qeq in E. simpl in E. lia. }
  destruct Havg as [avg ->]. cbn [Py.bind]. unfold truediv.
  destruct (Z.eqb_spec (Z.max (Z.of_nat (PerformanceTracker.total_claims m)) 1) 0) as [H0|_];
    [lia|].
  cbn [Py.bind]. eexists. split; [reflexivity|]. cbn.
  split; [reflexivity|]. split; [reflexivity|]. split; [reflexivity|].
  intros ->. change (Z.max (Z.of_nat 0) 1) with 1%Z. unfold Qdiv.
  change (/ inject_Z 1) with 1. apply Qmult_1_r.
Qed.

(* ===================================================================== *)
(** ** The data generator *)
(* ===================================================================== *)

Section Generator.

Import ClaimsDataGenerator.

Lemma py_round2_between (lo hi : Z) (x : Q) :
  inject_Z lo <= x <= inject_Z hi ->
  inject_Z lo <= py_round2 x <= inject_Z hi.
Proof.
  intros [Hlo Hhi]. unfold py_round2.
  set (s := x * 100). set (f := Qfloor s).
  assert (Hf_lo : (lo * 100 <= f)%Z).
  { rewrite <- (Qfloor_Z (lo * 100)). apply Qfloor_resp_le.
    rewrite inject_Z_mult. unfold s. change (inject_Z 100) with 100. lra. }
  assert (Hs_hi : s <= inject_Z (hi * 100)).
  { rewrite inject_Z_mult. unfold s. change (inject_Z 100) with 100. lra. }
  assert (Hf_hi : (f <= hi * 100)%Z).
  { rewrite <- (Qfloor_Z (hi * 100)). apply Qfloor_resp_le. exact Hs_hi. }
  assert (Hup : ~ s - inject_Z f < 1 # 2 -> (f + 1 <= hi * 100)%Z).
  { intros Hfrac.
    destruct (Z.eq_dec f (hi * 100)%Z) as [Heq|Hne]; [|lia].
    exfalso. apply Hfrac. rewrite Heq.
    pose proof (Qfloor_le s) as Hfl. fold f in Hfl. rewrite Heq in Hfl. lra. }
  assert (Hn : forall n : Z, (lo * 100 <= n <= hi * 100)%Z ->
                             inject_Z lo <= inject_Z n / 100 <= inject_Z hi).
  { intros n [H1 H2]. rewrite Zle_Qle, inject_Z_mult in H1, H2.
    change (inject_Z 100) with 100 in H1, H2.
    split; [apply Qle_shift_div_l | apply Qle_shift_div_r]; lra. }
  apply Hn.
  destruct (Qlt_bool (s - inject_Z f) (1 # 2)) eqn:E1.
  - lia.
  - apply Qlt_bool_false_iff in E1.
    assert (Hnf : ~ s - inject_Z f < 1 # 2) by (apply Qle_not_lt; exact E1).
    specialize (Hup Hnf).
    destruct (Qlt_bool (1 # 2) (s - inject_Z f)); [lia|].
    destruct (Z.even f); lia.
Qed.

Lemma range_of_type (claim_type : string) :
  exists lo hi : Z,
    get_default base_amounts claim_type (1000, 50000) = (inject_Z lo, inject_Z hi)
    /\ (lo <= hi)%Z.
Proof.
  unfold base_amounts. cbn [get_default].
  repeat match goal with
         | |- context [String.eqb ?k claim_type] => destruct (String.eqb k claim_type)
         end;
    eexists _, _; (split; [reflexivity | lia]).
Qed.

End Generator.

(** X21.  A generated claim amount lies within the range of its claim type
    (1,000 to 50,000 for a type that is not in the table), whatever value
    the random draw gave. *)
Theorem generated_amount_in_range (claim_type : string) (draw : Q) :
  let range := ClaimsDataGenerator.get_default ClaimsDataGenerator.base_amounts
                 claim_type (1000, 50000) in
  fst range <= ClaimsDataGenerator._generate_claim_amount claim_type draw <= snd range.
Proof.
  cbv zeta. unfold ClaimsDataGenerator._generate_claim_amount.
  destruct (range_of_type claim_type) as (lo & hi & -> & Hle). cbn [fst snd].
  apply py_round2_between.
  rewrite Zle_Qle in Hle. unfold py_max, py_min.
  destruct (Qlt_bool draw (inject_Z hi)) eqn:E1;
    [apply Qlt_bool_iff in E1 | apply Qlt_bool_false_iff in E1];
    match goal with
    | |- context [Qlt_bool ?a ?b] => destruct (Qlt_bool a b) eqn:E2;
        [apply Qlt_bool_iff in E2 | apply Qlt_bool_false_iff in E2]
    end; split; lra.
Qed.

(** X22.  On generated data the rule-based system predicts the severity
    perfectly: for a well-formed claim and policies table, the severity of
    the returned Decision is the ground-truth severity that the generator
    assigns to the claim's amount. *)
Theorem rule_based_severity_matches_ground_truth (rt : Runtime)
    (policies_df : list (gmap string pyval)) (claim : Claim) (amount_v : pyval) :
  well_formed_claim claim ->
  well_formed_policies policies_df ->
  claim !! "claim_amount" = Some amount_v ->
  exists d,
    RuleBasedSystem.process_claim rt policies_df claim = Ok d
    /\ severity d
       = ClaimsDataGenerator._assign_ground_truth_severity (number_of amount_v).
Proof.
  intros Hc Hp Ha.
  destruct (rule_based_well_formed_spec rt policies_df claim Hc Hp)
    as (d & av & pv & score & Hd & Hav & _ & _ & Hsev & _).
  exists d. split; [exact Hd|].
  rewrite Ha in Hav. injection Hav as <-. exact Hsev.
Qed.

Lemma rule_based_severity_matches_ground_truth_witness :
  exists d,
    RuleBasedSystem.process_claim Sample.rt Sample.policies_df Sample.claim = Ok d
    /\ severity d = ClaimsDataGenerator._assign_ground_truth_severity 2000.
Proof.
  apply (rule_based_severity_matches_ground_truth Sample.rt Sample.policies_df
           Sample.claim (VFloat 2000)).
  - split; [eexists; reflexivity|]. split; [eexists; reflexivity|].
    split; [exists (VFloat 2000); split; [reflexivity | exact I]|].
    split; [exists (VInt 0); split; [reflexivity | exact I]|].
    split; [exists (VInt 5); split; [reflexivity | exact I]|].
    split; [exists (VInt 40); split; [reflexivity | exact I]|].
    eexists; reflexivity.
  - constructor; [|constructor]. split.
    + repeat constructor; eexists; reflexivity.
    + exists (VInt 50000). split; [reflexivity | exact I].
  - reflexivity.
Defined.

(** X23.  The ground-truth action is never deny.  It is escalate exactly
    for a critical claim with fewer than 3 prior claims: a claim with 3 or
    more prior claims is labelled investigate before the escalation rule
    is reached, so its test for 4 or more prior claims never decides. *)
Theorem ground_truth_action_escalates (severity : string) (prior_claims tenure : Z) :
  ClaimsDataGenerator._assign_ground_truth_action severity prior_claims tenure <> "deny"
  /\ (ClaimsDataGenerator._assign_ground_truth_action severity prior_claims tenure
      = "escalate"
      <-> severity = "critical" /\ (prior_claims < 3)%Z)
  /\ ((3 <= prior_claims)%Z ->
      ClaimsDataGenerator._assign_ground_truth_action severity prior_claims tenure
      <> "escalate").
Proof.
  unfold ClaimsDataGenerator._assign_ground_truth_action.
  destruct (String.eqb_spec severity "low");
  destruct (String.eqb_spec severity "medium");
  destruct (String.eqb_spec severity "high");
  destruct (String.eqb_spec severity "critical");
  try (subst; discriminate);
  destruct (Z.ltb_spec prior_claims 2); destruct (Z.ltb_spec prior_claims 3);
  destruct (Z.ltb_spec 1 tenure); destruct (Z.leb_spec 3 prior_claims);
  destruct (Z.leb_spec 4 prior_claims); try lia; simpl;
  (split; [discriminate|]);
  (split; [split; [intros Hact; first [discriminate Hact | split; [assumption | lia]]
                  | intros [Hs Hp]; first [reflexivity | contradiction | lia]]
          | intros Hp; first [discriminate | lia]]).
Qed.

Lemma ground_truth_action_escalates_witness :
  ClaimsDataGenerator._assign_ground_truth_action "critical" 5 10 <> "escalate".
Proof.
  destruct (ground_truth_action_escalates "critical" 5 10) as (_ & _ & H).
  apply H. lia.
Defined.

(* ===================================================================== *)
(** ** The comparison of the systems *)
(* ===================================================================== *)

Section Comparison.

Import EvaluationSystem.

(** [max_by_value] returns the key of the first item of largest value:
    every item before it is strictly smaller, every item after it is not
    larger. *)
Lemma max_by_value_spec (rest : list (string * Q)) :
  forall best : string * Q,
  exists before r after,
    best :: rest = before ++ r :: after
    /\ max_by_value best rest = fst r
    /\ snd best <= snd r
    /\ Forall (fun x => snd x < snd r) before
    /\ Forall (fun x => snd x <= snd r) after.
Proof.
  induction rest as [|item rest IH]; intros best; cbn [max_by_value].
  - exists [], best, []. repeat split; try constructor. apply Qle_refl.
  - destruct (Qlt_bool (snd best) (snd item)) eqn:E.
    + apply Qlt_bool_iff in E.
      destruct (IH item) as (before & r & after & Heq & Hmax & Hle & Hb & Ha).
      exists (best :: before), r, after.
      split; [simpl; rewrite Heq; reflexivity|]. split; [exact Hmax|].
      split; [apply Qlt_le_weak; eapply Qlt_le_trans; eassumption|].
      split; [|exact Ha]. constructor; [eapply Qlt_le_trans; eassumption | exact Hb].
    + apply Qlt_bool_false_iff in E.
      destruct (IH best) as (before & r & after & Heq & Hmax & Hle & Hb & Ha).
      destruct before as [|b before]; simpl in Heq; injection Heq as Hb0 Hrest.
      * subst r rest. exists [], best, (item :: after).
        split; [reflexivity|]. split; [exact Hmax|]. split; [exact Hle|].
        split; [constructor|]. constructor; [exact E | exact Ha].
      * subst b rest. exists (best :: item :: before), r, after.
        split; [reflexivity|]. split; [exact Hmax|]. split; [exact Hle|].
        split; [|exact Ha].
        inversion Hb as [|? ? Hbest Hb']; subst.
        constructor; [exact Hbest|]. constructor; [|exact Hb'].
        eapply Qle_lt_trans; eassumption.
Qed.

End Comparison.

(** X24.  [compare_systems] raises on an empty result dict.  Otherwise the
    overall-score dict lists the systems in the order of the results, each
    with its computed overall score, and the best system is the first key
    of that dict whose value is the largest: every value before it is
    strictly smaller and no value after it is larger.  The values are the
    float sums the program computes, so two systems whose exact weighted
    sums are equal can still be told apart. *)
Theorem best_system_is_first_maximum
    (results : list (string * EvaluationSystem.SystemResults)) :
  (results = [] -> is_ok (EvaluationSystem.compare_systems results) = false)
  /\ (results <> [] ->
      exists c before r after,
        EvaluationSystem.compare_systems results = Ok c
        /\ EvaluationSystem.overall_score c
           = List.map (fun x => (fst x, EvaluationSystem.overall (snd x))) results
        /\ EvaluationSystem.overall_score c = before ++ r :: after
        /\ EvaluationSystem.best_system c = fst r
        /\ Forall (fun x => snd x < snd r) before
        /\ Forall (fun x => snd x <= snd r) after).
Proof.
  split; [intros ->; reflexivity|].
  intros Hne. destruct results as [|first rest]; [contradiction|].
  unfold EvaluationSystem.compare_systems. cbn [List.map].
  set (score := fun r : string * EvaluationSystem.SystemResults =>
                  (fst r, EvaluationSystem.overall (snd r))).
  destruct (max_by_value_spec (List.map score rest) (score first))
    as (before & r & after & Heq & Hmax & _ & Hb & Ha).
  eexists _, before, r, after.
  split; [reflexivity|].
  cbn [EvaluationSystem.best_system EvaluationSystem.overall_score].
  split; [reflexivity|]. split; [exact Heq|]. split; [exact Hmax|].
  split; [exact Hb | exact Ha].
Qed.

Lemma best_system_is_first_maximum_witness :
  exists c,
    EvaluationSystem.compare_systems
      [("rule_based", {| EvaluationSystem.severity_accuracy := 3 # 4;
                         EvaluationSystem.action_accuracy := 3 # 4;
                         EvaluationSystem.severity_f1 := 3 # 4;
                         EvaluationSystem.action_f1 := 3 # 4;
                         EvaluationSystem.avg_processing_time := 0 |});
       ("agentic", {| EvaluationSystem.severity_accuracy := 1 # 2;
                      EvaluationSystem.action_accuracy := 1;
                      EvaluationSystem.severity_f1 := 1 # 2;
                      EvaluationSystem.action_f1 := 1;
                      EvaluationSystem.avg_processing_time := 3 |})]
    = Ok c
    /\ List.map fst (EvaluationSystem.overall_score c) = ["rule_based"; "agentic"]
    /\ EvaluationSystem.best_system c = "agentic".
Proof.
  destruct (best_system_is_first_maximum
              [("rule_based", {| EvaluationSystem.severity_accuracy := 3 # 4;
                                 EvaluationSystem.action_accuracy := 3 # 4;
                                 EvaluationSystem.severity_f1 := 3 # 4;
                                 EvaluationSystem.action_f1 := 3 # 4;
                                 EvaluationSystem.avg_processing_time := 0 |});
               ("agentic", {| EvaluationSystem.severity_accuracy := 1 # 2;
                              EvaluationSystem.action_accuracy := 1;
                              EvaluationSystem.severity_f1 := 1 # 2;
                              EvaluationSystem.action_f1 := 1;
                              EvaluationSystem.avg_processing_time := 3 |})])
    as [_ H].
  destruct H as (c & _ & _ & _ & Hc & _); [discriminate|].
  exists c. split; [exact Hc|].
  vm_compute in Hc. injection Hc as <-. split; reflexivity.
Defined.

(** The two systems of the example have the same exact weighted sum, 3/4;
    the float sums are 0.75 and 0.7500000000000001. *)
Lemma overall_float_sums_differ :
  EvaluationSystem.overall
    {| EvaluationSystem.severity_accuracy := 3 # 4;
       EvaluationSystem.action_accuracy := 3 # 4;
       EvaluationSystem.severity_f1 := 3 # 4;
       EvaluationSystem.action_f1 := 3 # 4;
       EvaluationSystem.avg_processing_time := 0 |} == 3 # 4
  /\ EvaluationSystem.overall
       {| EvaluationSystem.severity_accuracy := 1 # 2;
          EvaluationSystem.action_accuracy := 1;
          EvaluationSystem.severity_f1 := 1 # 2;
          EvaluationSystem.action_f1 := 1;
          EvaluationSystem.avg_processing_time := 3 |}
     == 6755399441055745 # 9007199254740992.
Proof. split; vm_compute; reflexivity. Qed.

(* ===================================================================== *)
(** ** The decisions log file *)
(* ===================================================================== *)

(** X25.  A decision that has been logged is found again, field by field:
    after [log_decision] the log file holds the decisions it held before,
    followed by an entry with the logged claim id, severity, action,
    rationale and risk score, the policy id of the policy info (None when
    it has none) and the metadata (an empty dict when none was given); and
    the history of that claim (for a claim id that is not empty) is its
    earlier history followed by this entry.  A missing or unreadable file
    counts as an empty log, so logging into an unreadable file leaves the
    new entry alone in the file. *)
Theorem logged_decision_is_found (f : TriageLoggerTool.log_file)
    (claim_id severity action rationale : string) (risk_score : Q)
    (policy_info : gmap string pyval) (metadata : option (gmap string pyval)) :
  claim_id <> "" ->
  let res := TriageLoggerTool.log_decision f claim_id severity action rationale
               risk_score policy_info metadata in
  let e := {| TriageLoggerTool.e_claim_id := claim_id;
              TriageLoggerTool.e_severity := severity;
              TriageLoggerTool.e_action := action;
              TriageLoggerTool.e_rationale := rationale;
              TriageLoggerTool.e_risk_score := risk_score;
              TriageLoggerTool.e_policy_id := default VNone (policy_info !! "policy_id");
              TriageLoggerTool.e_metadata := default ∅ metadata |} in
  fst res = ("logged", "Decision for claim " +:+ claim_id +:+ " logged successfully")
  /\ snd res = TriageLoggerTool.Stored (TriageLoggerTool.get_decision_history f None ++ [e])
  /\ TriageLoggerTool.get_decision_history (snd res) None
     = TriageLoggerTool.get_decision_history f None ++ [e]
  /\ TriageLoggerTool.get_decision_history (snd res) (Some claim_id)
     = TriageLoggerTool.get_decision_history f (Some claim_id) ++ [e]
  /\ (forall other, other <> "" -> other <> claim_id ->
        TriageLoggerTool.get_decision_history (snd res) (Some other)
        = TriageLoggerTool.get_decision_history f (Some other))
  /\ (f = TriageLoggerTool.Garbled \/ f = TriageLoggerTool.Absent ->
      TriageLoggerTool.get_decision_history (snd res) None = [e]).
Proof.
  intros Hne. cbv zeta. unfold TriageLoggerTool.log_decision. cbn [fst snd].
  assert (Htruthy : str_truthy claim_id = true)
    by (destruct claim_id; [contradiction | reflexivity]).
  split; [reflexivity|].
  split; [destruct f, (policy_info !! "policy_id"), metadata; reflexivity|].
  split; [destruct f, (policy_info !! "policy_id"), metadata; reflexivity|].
  unfold TriageLoggerTool.get_decision_history. rewrite Htruthy.
  split; [|split].
  - rewrite List.filter_app. cbn [List.filter TriageLoggerTool.e_claim_id].
    rewrite String.eqb_refl.
    destruct f, (policy_info !! "policy_id"), metadata; reflexivity.
  - intros other Ho Hoc.
    assert (Hot : str_truthy other = true) by (destruct other; [contradiction | reflexivity]).
    rewrite Hot, List.filter_app. cbn [List.filter TriageLoggerTool.e_claim_id].
    destruct (String.eqb_spec claim_id other) as [Heq|_]; [symmetry in Heq; contradiction|].
    rewrite app_nil_r. destruct f; reflexivity.
  - intros [-> | ->]; destruct (policy_info !! "policy_id"), metadata; reflexivity.
Qed.

Lemma logged_decision_is_found_witness :
  TriageLoggerTool.get_decision_history
    (snd (TriageLoggerTool.log_decision TriageLoggerTool.Garbled "CLM-00001" "low"
            "approve" "small claim" 0 {[ "policy_id" := VStr "POL-1234" ]} None))
    (Some "CLM-00001")
  = [{| TriageLoggerTool.e_claim_id := "CLM-00001";
        TriageLoggerTool.e_severity := "low";
        TriageLoggerTool.e_action := "approve";
        TriageLoggerTool.e_rationale := "small claim";
        TriageLoggerTool.e_risk_score := 0;
        TriageLoggerTool.e_policy_id := VStr "POL-1234";
        TriageLoggerTool.e_metadata := ∅ |}].
Proof.
  destruct (logged_decision_is_found TriageLoggerTool.Garbled "CLM-00001" "low"
              "approve" "small claim" 0 {[ "policy_id" := VStr "POL-1234" ]} None)
    as (_ & _ & _ & H & _); [discriminate|].
  etransitivity; [exact H | reflexivity].
Defined.

(* ===================================================================== *)
(** ** The action matrix of the registered systems *)
(* ===================================================================== *)

Section ActionMatrix.

Import EvaluationSystem.

(** The predicted actions are in the action list as soon as the actions of
    the strategy are: the fallback action of the harness is in the list. *)
Lemma predictions_actions_in_list {S : Type} (system : System S)
    (test_claims : list Claim) :
  (forall st c d st', system st c = (Ok d, st') -> In (action d) config.ACTIONS) ->
  forall (st : S) (ps : list Prediction),
    fst (predictions_of system st test_claims) = Ok ps ->
    forallb action_in_list ps = true.
Proof.
  intros Hsys. induction test_claims as [|c rest IH]; intros st ps; simpl.
  - intros H. injection H as <-. reflexivity.
  - unfold evaluate_claim.
    destruct (system st c) as [[d|e] st1] eqn:Es; cbn [Py.bind].
    + assert (Hd : In (action d) config.ACTIONS) by (eapply Hsys; exact Es).
      destruct (prediction_of c d) as [p|e] eqn:Ep.
      * destruct (predictions_of system st1 rest) as [[ps'|e] st2] eqn:E'; [|discriminate].
        cbn [fst]. intros H. injection H as <-. cbn [forallb].
        rewrite (IH st1 ps') by (rewrite E'; reflexivity).
        rewrite andb_true_r. unfold action_in_list.
        unfold prediction_of in Ep.
        repeat (apply bind_ok in Ep; destruct Ep as (? & _ & Ep)).
        injection Ep as <-. cbn [predicted_action]. apply known_of_In. exact Hd.
      * destruct (fallback_prediction c) as [p|e'] eqn:Ef; [|discriminate].
        destruct (predictions_of system st1 rest) as [[ps'|e'] st2] eqn:E'; [|discriminate].
        cbn [fst]. intros H. injection H as <-. cbn [forallb].
        rewrite (IH st1 ps') by (rewrite E'; reflexivity).
        rewrite andb_true_r. unfold fallback_prediction in Ef.
        repeat (apply bind_ok in Ef; destruct Ef as (? & _ & Ef)).
        injection Ef as <-. reflexivity.
    + destruct (fallback_prediction c) as [p|e'] eqn:Ef; [|discriminate].
      destruct (predictions_of system st1 rest) as [[ps'|e'] st2] eqn:E'; [|discriminate].
      cbn [fst]. intros H. injection H as <-. cbn [forallb].
      rewrite (IH st1 ps') by (rewrite E'; reflexivity).
      rewrite andb_true_r. unfold fallback_prediction in Ef.
      repeat (apply bind_ok in Ef; destruct Ef as (? & _ & Ef)).
      injection Ef as <-. reflexivity.
Qed.

(** On a well-labelled batch that is not empty, a strategy whose actions
    are in the action list gets an action matrix that counts every claim. *)
Lemma action_matrix_total {S : Type} (system : System S) (st : S)
    (test_claims : list Claim) :
  (forall st c d st', system st c = (Ok d, st') -> In (action d) config.ACTIONS) ->
  test_claims <> [] ->
  Forall well_labelled test_claims ->
  exists m, fst (evaluate_system system st test_claims) = Ok m
            /\ total (action_confusion_matrix m) = length test_claims.
Proof.
  intros Hsys Hne Hwl.
  destruct (predictions_of_labels system test_claims Hwl st) as (ps & Eps & Hps).
  pose proof (predictions_actions_in_list system test_claims Hsys st ps Eps) as Hact.
  unfold evaluate_system.
  destruct (predictions_of system st test_claims) as [r st1] eqn:E.
  cbn [fst] in Eps. subst r. apply predictions_of_length in E.
  assert (Hps_ne : ps <> []).
  { intros ->. destruct test_claims; [contradiction | discriminate E]. }
  assert (Hts : Forall (fun p => sklearn.known config.SEVERITY_LEVELS (true_severity p) = true) ps)
    by (clear -Hps; induction Hps as [|p ps' [Hp _] _ IH]; constructor; assumption).
  assert (Hta : Forall (fun p => sklearn.known config.ACTIONS (true_action p) = true) ps)
    by (clear -Hps; induction Hps as [|p ps' [_ Hp] _ IH]; constructor; assumption).
  destruct (calculate_metrics_returns ps Hps_ne Hts Hta) as (scm & acm & Hm).
  eexists. split; [cbn [fst]; exact Hm|].
  destruct (calculate_metrics_spec _ _ Hm) as (_ & _ & Ha). cbn in Ha |- *.
  rewrite Ha. unfold action_samples.
  rewrite (counted_when_truth_known config.ACTIONS true_action
             (fun p => VStr (predicted_action p)) ps Hta).
  rewrite <- E. f_equal. apply forallb_filter_id. exact Hact.
Qed.

Lemma rule_based_action_in_list (rt : Runtime) (policies_df : list (gmap string pyval))
    (claim : Claim) (d : Decision) :
  RuleBasedSystem.process_claim rt policies_df claim = Ok d ->
  In (action d) config.ACTIONS.
Proof.
  intros H. unfold RuleBasedSystem.process_claim in H.
  repeat (apply bind_ok in H; destruct H as (? & _ & H)).
  injection H as <-. cbn [action].
  match goal with
  | |- In (RuleBasedSystem.determine_action ?s ?r ?p) _ =>
      pose proof (determine_action_range s r p) as Hr
  end.
  simpl in Hr |- *. tauto.
Qed.

End ActionMatrix.

(** X26.  For each of the three registered systems, on a batch that is
    not empty and whose claims carry an id and ground-truth labels from the
    label lists, the harness returns and the cells of the action confusion
    matrix add up to the batch size: every action a strategy returns, and
    the fallback action escalate, has a column in the matrix. *)
Theorem registered_systems_action_matrix {B1 B2 : Type} (rt : Runtime)
    (policies_df : list (gmap string pyval))
    (llm : OneShotLLMSystem.Backend B1) (agent : InsuranceClaimsAgent.Backend B2)
    (test_claims : list Claim) :
  test_claims <> [] ->
  Forall well_labelled test_claims ->
  (exists m,
      fst (EvaluationSystem.evaluate_system
             (EvaluationSystem.rule_based rt policies_df) tt test_claims) = Ok m
      /\ EvaluationSystem.total (EvaluationSystem.action_confusion_matrix m)
         = length test_claims)
  /\ (forall b, exists m,
         fst (EvaluationSystem.evaluate_system
                (EvaluationSystem.one_shot_llm rt llm) b test_claims) = Ok m
         /\ EvaluationSystem.total (EvaluationSystem.action_confusion_matrix m)
            = length test_claims)
  /\ (forall st, exists m,
         fst (EvaluationSystem.evaluate_system
                (EvaluationSystem.agentic rt agent) st test_claims) = Ok m
         /\ EvaluationSystem.total (EvaluationSystem.action_confusion_matrix m)
            = length test_claims).
Proof.
  intros Hne Hwl. split; [|split].
  - apply action_matrix_total; [|exact Hne|exact Hwl].
    intros st c d st' H. unfold EvaluationSystem.rule_based in H.
    injection H as H _. eapply rule_based_action_in_list. exact H.
  - intros b. apply action_matrix_total; [|exact Hne|exact Hwl].
    intros st c d st' H. unfold EvaluationSystem.one_shot_llm in H.
    destruct (one_shot_spec rt llm st c) as [_ Hd].
    apply Hd. rewrite H. reflexivity.
  - intros st0. apply action_matrix_total; [|exact Hne|exact Hwl].
    intros st c d st' H. unfold EvaluationSystem.agentic in H.
    destruct (agent_spec rt agent st c) as [_ Hd].
    destruct (Hd d) as [(_ & _ & Ha) | (_ & _ & Ha)]; [rewrite H; reflexivity | exact Ha |].
    rewrite Ha. simpl. auto.
Qed.

Lemma registered_systems_action_matrix_witness :
  exists m,
    fst (EvaluationSystem.evaluate_system
           (EvaluationSystem.rule_based Sample.rt Sample.policies_df) tt
           [Sample.claim_text_prior; Sample.claim]) = Ok m
    /\ EvaluationSystem.total (EvaluationSystem.action_confusion_matrix m) = 2%nat.
Proof.
  destruct (registered_systems_action_matrix Sample.rt Sample.policies_df
              Sample.llm_down Sample.agent_down [Sample.claim_text_prior; Sample.claim])
    as [Hrule _].
  - discriminate.
  - constructor; [|constructor; [|constructor]];
      (split; [eexists; reflexivity|]);
      (split; [exists "low" | exists "approve"]); (split; [simpl; auto | reflexivity]).
  - exact Hrule.
Defined.

(* ===================================================================== *)
(** ** When the strategies raise *)
(* ===================================================================== *)

(** X27.  On well-formed data the rule-based system escalates a claim
    exactly when its amount is at least 75,000 or the risk score it
    returns is at least 0.7. *)
Theorem rule_based_escalates_iff (rt : Runtime)
    (policies_df : list (gmap string pyval)) (claim : Claim) (amount_v : pyval) :
  well_formed_claim claim ->
  well_formed_policies policies_df ->
  claim !! "claim_amount" = Some amount_v ->
  exists d score,
    RuleBasedSystem.process_claim rt policies_df claim = Ok d
    /\ risk_score d = Some score
    /\ (action d = "escalate" <-> 75000 <= number_of amount_v \/ 7 # 10 <= score).
Proof.
  intros Hc Hp Ha.
  destruct (rule_based_well_formed_spec rt policies_df claim Hc Hp)
    as (d & av & pv & score & Hd & Hav & _ & _ & Hsev & Hscore & _ & Hact & _).
  rewrite Ha in Hav. injection Hav as <-.
  exists d, score. split; [exact Hd|]. split; [exact Hscore|].
  rewrite Hact, determine_action_escalate, Hsev.
  destruct (determine_severity_spec (number_of amount_v)) as (_ & _ & _ & Hcrit).
  rewrite Hcrit. reflexivity.
Qed.

Lemma rule_based_escalates_iff_witness :
  exists d score,
    RuleBasedSystem.process_claim Sample.rt Sample.policies_df Sample.claim = Ok d
    /\ risk_score d = Some score
    /\ (action d = "escalate" <-> 75000 <= 2000 \/ 7 # 10 <= score).
Proof.
  apply (rule_based_escalates_iff Sample.rt Sample.policies_df Sample.claim (VFloat 2000)).
  - split; [eexists; reflexivity|]. split; [eexists; reflexivity|].
    split; [exists (VFloat 2000); split; [reflexivity | exact I]|].
    split; [exists (VInt 0); split; [reflexivity | exact I]|].
    split; [exists (VInt 5); split; [reflexivity | exact I]|].
    split; [exists (VInt 40); split; [reflexivity | exact I]|].
    eexists; reflexivity.
  - constructor; [|constructor]. split.
    + repeat constructor; eexists; reflexivity.
    + exists (VInt 50000). split; [reflexivity | exact I].
  - reflexivity.
Defined.

(** X28.  Called with the untyped values of a claim, the risk scorer
    raises exactly when the amount, the prior-claims count or the tenure is
    not a number, or when the coverage limit or the claimant age is a
    non-empty string; an age or limit that is None, zero or the empty
    string skips its rule, and no location value makes it raise. *)
Theorem risk_scorer_raises_iff
    (claim_amount prior_claims policy_tenure_years : pyval) (incident_to_report_days : Z)
    (coverage_limit claimant_age location : pyval) :
  is_ok (RiskScoringTool.calculate_risk_score_on_values
           claim_amount prior_claims policy_tenure_years incident_to_report_days
           coverage_limit claimant_age location) = true
  <-> is_number claim_amount /\ is_number prior_claims /\ is_number policy_tenure_years
      /\ number_or_falsy coverage_limit /\ number_or_falsy claimant_age.
Proof.
  unfold RiskScoringTool.calculate_risk_score_on_values.
  destruct claim_amount as [| | |[|? ?]], prior_claims as [| | |[|? ?]],
           policy_tenure_years as [| | |[|? ?]], coverage_limit as [| | |[|? ?]],
           claimant_age as [| | |[|? ?]];
    simpl; split; intros H; first [discriminate H | reflexivity | tauto].
Qed.

Section Prompts.

Lemma getitem_is_ok (d : Claim) (key : string) :
  is_ok (getitem d key) = true <-> is_Some (d !! key).
Proof.
  unfold getitem. destruct (d !! key) as [v|]; simpl; split; intros H.
  - eexists; reflexivity.
  - reflexivity.
  - discriminate H.
  - destruct H as [v H]. discriminate H.
Qed.

Lemma py_money_is_ok (rt : Runtime) (v : pyval) :
  is_ok (py_money rt v) = true <-> is_number v.
Proof. destruct v; simpl; split; intros H; first [exact I | reflexivity | discriminate H | contradiction]. Qed.

(** Peels the binds off an equation [... = Ok _], keeping what each step
    returned. *)
Ltac peel_binds E :=
  repeat match type of E with
         | Py.bind _ _ = Ok _ =>
             let x := fresh "x" in
             let Hx := fresh "Hx" in
             apply bind_ok in E; destruct E as (x & Hx & E)
         end.

(** Proves that a claim has a key from a [getitem] that succeeded. *)
Ltac keys_from_getitems :=
  unfold has_keys;
  repeat (constructor; [eexists; apply getitem_inv; eassumption|]);
  constructor.

(** Runs the lookups of a text template whose fields are all present. *)
Ltac run_template Hk v Hv Hn :=
  unfold has_keys in Hk; rewrite ?Forall_cons in Hk; rewrite ?Hv;
  repeat match type of Hk with
         | is_Some _ /\ _ => let x := fresh "x" in
                             let Hx := fresh "Hx" in
                             let Hk' := fresh "Hk" in
                             destruct Hk as [[x Hx] Hk']; rewrite ?Hx; clear Hx;
                             rename Hk' into Hk
         end;
  destruct v; try contradiction;
  cbn [Py.bind py_money]; reflexivity.

Lemma prompt_ok_iff (rt : Runtime) (claim : Claim) :
  is_ok (OneShotLLMSystem.prompt rt claim) = true
  <-> has_keys ["claim_id"; "claim_type"; "claim_amount"; "prior_claims";
                "policy_tenure_years"; "claimant_age"; "location"; "narrative"] claim
      /\ has_numeric_amount claim.
Proof.
  split.
  - destruct (OneShotLLMSystem.prompt rt claim) as [text|e] eqn:E; [intros _|discriminate].
    unfold OneShotLLMSystem.prompt in E. peel_binds E.
    split; [keys_from_getitems|].
    eexists. split; [apply getitem_inv; eassumption|].
    apply (py_money_is_ok rt).
    match goal with H : py_money rt _ = Ok _ |- _ => rewrite H end. reflexivity.
  - intros (Hk & v & Hv & Hn).
    unfold OneShotLLMSystem.prompt, getitem. run_template Hk v Hv Hn.
Qed.

Lemma input_text_ok_iff (rt : Runtime) (claim : Claim) (days : Z) :
  is_ok (InsuranceClaimsAgent.input_text rt claim days) = true
  <-> has_keys ["claim_id"; "policy_id"; "claim_type"; "claim_amount";
                "incident_date"; "report_date"; "location"; "claimant_age";
                "prior_claims"; "policy_tenure_years"; "narrative"] claim
      /\ has_numeric_amount claim.
Proof.
  split.
  - destruct (InsuranceClaimsAgent.input_text rt claim days) as [text|e] eqn:E;
      [intros _|discriminate].
    unfold InsuranceClaimsAgent.input_text in E. peel_binds E.
    split; [keys_from_getitems|].
    eexists. split; [apply getitem_inv; eassumption|].
    apply (py_money_is_ok rt).
    match goal with H : py_money rt _ = Ok _ |- _ => rewrite H end. reflexivity.
  - intros (Hk & v & Hv & Hn).
    unfold InsuranceClaimsAgent.input_text, getitem. run_template Hk v Hv Hn.
Qed.

End Prompts.

(** X29.  The single-shot strategy can build its prompt exactly when the
    claim has the eight fields the prompt shows and the amount is a
    number; the agent can build its input text exactly when the claim has
    these and also the policy id and the two dates.  So every claim the
    agent can take, the single-shot strategy can take too. *)
Theorem prompts_need_their_fields (rt : Runtime) (claim : Claim) (days : Z) :
  (is_ok (OneShotLLMSystem.prompt rt claim) = true
   <-> has_keys ["claim_id"; "claim_type"; "claim_amount"; "prior_claims";
                 "policy_tenure_years"; "claimant_age"; "location"; "narrative"] claim
       /\ has_numeric_amount claim)
  /\ (is_ok (InsuranceClaimsAgent.input_text rt claim days) = true
      <-> has_keys ["claim_id"; "policy_id"; "claim_type"; "claim_amount";
                    "incident_date"; "report_date"; "location"; "claimant_age";
                    "prior_claims"; "policy_tenure_years"; "narrative"] claim
          /\ has_numeric_amount claim)
  /\ (is_ok (InsuranceClaimsAgent.input_text rt claim days) = true ->
      is_ok (OneShotLLMSystem.prompt rt claim) = true).
Proof.
  split; [apply prompt_ok_iff|]. split; [apply input_text_ok_iff|].
  rewrite prompt_ok_iff, input_text_ok_iff. unfold has_keys.
  rewrite !Forall_cons, !Forall_nil. tauto.
Qed.
